(** * The echo STF handler of [examples/echo-stf/main.py]

    A shallow embedding of the handler and the proofs of its specification.

    The handler is a single-shot process: [json.load] reads one document from
    standard input, [main] dispatches on the ["operation"] field, one JSON
    document is printed on standard output and the process exits with status
    0 or 1.

    What belongs to the Python runtime and not to the repository is modelled as
    follows.
    - [str] values are sequences of Unicode code points; [str.upper] and
      [str.lower] follow CPython's [do_upper_or_lower] over the case tables of
      its Unicode database (module [Unicode], Unicode 14.0.0 as shipped with
      CPython 3.11).
    - The outcome of [json.load(sys.stdin)] is the input of the model: either
      the decoded Python value or the exception that [json.load] raised.
    - [float.__repr__] and [str.__repr__] are section variables: they are
      needed to print a float and to format a value that is not a [str] inside
      an f-string.
    - The [logging] calls write to standard error only; their text (which
      carries a time stamp) is not modelled, but the expressions evaluated for
      them are, since they can raise. Writes to standard output are assumed to
      succeed. *)

From Stdlib Require Import NArith ZArith List String Ascii Bool Lia.
From Stdlib Require Import SpecFloat DecimalString.
Import ListNotations.

Open Scope string_scope.
Open Scope list_scope.

(** ** Python strings *)

(** A [str] is a sequence of code points. *)
Definition str := list N.

(** The literals of the source are ASCII; they are written as Rocq strings. *)
Definition str_of_string (s : string) : str :=
  map N_of_ascii (list_ascii_of_string s).
Coercion str_of_string : string >-> str.

(** Concatenation, [a + b] in Python. *)
Definition str_cat (a b : str) : str := a ++ b.
Infix "+++" := str_cat (at level 60, right associativity).

(** Equality of two strings, [a == b]. *)
Fixpoint str_eqb (a b : str) : bool :=
  match a, b with
  | [], [] => true
  | x :: a', y :: b' => N.eqb x y && str_eqb a' b'
  | _, _ => false
  end.

(** [sep.join(parts)]. *)
Fixpoint str_join (sep : str) (parts : list str) : str :=
  match parts with
  | [] => []
  | [p] => p
  | p :: rest => p +++ sep +++ str_join sep rest
  end.

(** ** The Unicode database of CPython *)

Module Unicode.

Local Open Scope N_scope.

(** Full uppercase mapping: every code point that [_PyUnicode_ToUpperFull]
    changes, with the one to three code points it becomes. *)
Definition to_upper_full : list (N * list N) :=
 [(0x61, [0x41]); (0x62, [0x42]); (0x63, [0x43]); (0x64, [0x44]); (0x65, [0x45]); (0x66, [0x46]);
   (0x67, [0x47]); (0x68, [0x48]); (0x69, [0x49]); (0x6A, [0x4A]); (0x6B, [0x4B]); (0x6C, [0x4C]);
   (0x6D, [0x4D]); (0x6E, [0x4E]); (0x6F, [0x4F]); (0x70, [0x50]); (0x71, [0x51]); (0x72, [0x52]);
   (0x73, [0x53]); (0x74, [0x54]); (0x75, [0x55]); (0x76, [0x56]); (0x77, [0x57]); (0x78, [0x58]);
   (0x79, [0x59]); (0x7A, [0x5A]); (0xB5, [0x39C]); (0xDF, [0x53; 0x53]); (0xE0, [0xC0]); (0xE1, [0xC1]);
   (0xE2, [0xC2]); (0xE3, [0xC3]); (0xE4, [0xC4]); (0xE5, [0xC5]); (0xE6, [0xC6]); (0xE7, [0xC7]);
   (0xE8, [0xC8]); (0xE9, [0xC9]); (0xEA, [0xCA]); (0xEB, [0xCB]); (0xEC, [0xCC]); (0xED, [0xCD]);
   (0xEE, [0xCE]); (0xEF, [0xCF]); (0xF0, [0xD0]); (0xF1, [0xD1]); (0xF2, [0xD2]); (0xF3, [0xD3]);
   (0xF4, [0xD4]); (0xF5, [0xD5]); (0xF6, [0xD6]); (0xF8, [0xD8]); (0xF9, [0xD9]); (0xFA, [0xDA]);
   (0xFB, [0xDB]); (0xFC, [0xDC]); (0xFD, [0xDD]); (0xFE, [0xDE]); (0xFF, [0x178]); (0x101, [0x100]);
   (0x103, [0x102]); (0x105, [0x104]); (0x107, [0x106]); (0x109, [0x108]); (0x10B, [0x10A]); (0x10D, [0x10C]);
   (0x10F, [0x10E]); (0x111, [0x110]); (0x113, [0x112]); (0x115, [0x114]); (0x117, [0x116]); (0x119, [0x118]);
   (0x11B, [0x11A]); (0x11D, [0x11C]); (0x11F, [0x11E]); (0x121, [0x120]); (0x123, [0x122]); (0x125, [0x124]);
   (0x127, [0x126]); (0x129, [0x128]); (0x12B, [0x12A]); (0x12D, [0x12C]); (0x12F, [0x12E]); (0x131, [0x49]);
   (0x133, [0x132]); (0x135, [0x134]); (0x137, [0x136]); (0x13A, [0x139]); (0x13C, [0x13B]); (0x13E, [0x13D]);
   (0x140, [0x13F]); (0x142, [0x141]); (0x144, [0x143]); (0x146, [0x145]); (0x148, [0x147]); (0x149, [0x2BC; 0x4E]);
   (0x14B, [0x14A]); (0x14D, [0x14C]); (0x14F, [0x14E]); (0x151, [0x150]); (0x153, [0x152]); (0x155, [0x154]);
   (0x157, [0x156]); (0x159, [0x158]); (0x15B, [0x15A]); (0x15D, [0x15C]); (0x15F, [0x15E]); (0x161, [0x160]);
   (0x163, [0x162]); (0x165, [0x164]); (0x167, [0x166]); (0x169, [0x168]); (0x16B, [0x16A]); (0x16D, [0x16C]);
   (0x16F, [0x16E]); (0x171, [0x170]); (0x173, [0x172]); (0x175, [0x174]); (0x177, [0x176]); (0x17A, [0x179]);
   (0x17C, [0x17B]); (0x17E, [0x17D]); (0x17F, [0x53]); (0x180, [0x243]); (0x183, [0x182]); (0x185, [0x184]);
   (0x188, [0x187]); (0x18C, [0x18B]); (0x192, [0x191]); (0x195, [0x1F6]); (0x199, [0x198]); (0x19A, [0x23D]);
   (0x19E, [0x220]); (0x1A1, [0x1A0]); (0x1A3, [0x1A2]); (0x1A5, [0x1A4]); (0x1A8, [0x1A7]); (0x1AD, [0x1AC]);
   (0x1B0, [0x1AF]); (0x1B4, [0x1B3]); (0x1B6, [0x1B5]); (0x1B9, [0x1B8]); (0x1BD, [0x1BC]); (0x1BF, [0x1F7]);
   (0x1C5, [0x1C4]); (0x1C6, [0x1C4]); (0x1C8, [0x1C7]); (0x1C9, [0x1C7]); (0x1CB, [0x1CA]); (0x1CC, [0x1CA]);
   (0x1CE, [0x1CD]); (0x1D0, [0x1CF]); (0x1D2, [0x1D1]); (0x1D4, [0x1D3]); (0x1D6, [0x1D5]); (0x1D8, [0x1D7]);
   (0x1DA, [0x1D9]); (0x1DC, [0x1DB]); (0x1DD, [0x18E]); (0x1DF, [0x1DE]); (0x1E1, [0x1E0]); (0x1E3, [0x1E2]);
   (0x1E5, [0x1E4]); (0x1E7, [0x1E6]); (0x1E9, [0x1E8]); (0x1EB, [0x1EA]); (0x1ED, [0x1EC]); (0x1EF, [0x1EE]);
   (0x1F0, [0x4A; 0x30C]); (0x1F2, [0x1F1]); (0x1F3, [0x1F1]); (0x1F5, [0x1F4]); (0x1F9, [0x1F8]); (0x1FB, [0x1FA]);
   (0x1FD, [0x1FC]); (0x1FF, [0x1FE]); (0x201, [0x200]); (0x203, [0x202]); (0x205, [0x204]); (0x207, [0x206]);
   (0x209, [0x208]); (0x20B, [0x20A]); (0x20D, [0x20C]); (0x20F, [0x20E]); (0x211, [0x210]); (0x213, [0x212]);
   (0x215, [0x214]); (0x217, [0x216]); (0x219, [0x218]); (0x21B, [0x21A]); (0x21D, [0x21C]); (0x21F, [0x21E]);
   (0x223, [0x222]); (0x225, [0x224]); (0x227, [0x226]); (0x229, [0x228]); (0x22B, [0x22A]); (0x22D, [0x22C]);
   (0x22F, [0x22E]); (0x231, [0x230]); (0x233, [0x232]); (0x23C, [0x23B]); (0x23F, [0x2C7E]); (0x240, [0x2C7F]);
   (0x242, [0x241]); (0x247, [0x246]); (0x249, [0x248]); (0x24B, [0x24A]); (0x24D, [0x24C]); (0x24F, [0x24E]);
   (0x250, [0x2C6F]); (0x251, [0x2C6D]); (0x252, [0x2C70]); (0x253, [0x181]); (0x254, [0x186]); (0x256, [0x189]);
   (0x257, [0x18A]); (0x259, [0x18F]); (0x25B, [0x190]); (0x25C, [0xA7AB]); (0x260, [0x193]); (0x261, [0xA7AC]);
   (0x263, [0x194]); (0x265, [0xA78D]); (0x266, [0xA7AA]); (0x268, [0x197]); (0x269, [0x196]); (0x26A, [0xA7AE]);
   (0x26B, [0x2C62]); (0x26C, [0xA7AD]); (0x26F, [0x19C]); (0x271, [0x2C6E]); (0x272, [0x19D]); (0x275, [0x19F]);
   (0x27D, [0x2C64]); (0x280, [0x1A6]); (0x282, [0xA7C5]); (0x283, [0x1A9]); (0x287, [0xA7B1]); (0x288, [0x1AE]);
   (0x289, [0x244]); (0x28A, [0x1B1]); (0x28B, [0x1B2]); (0x28C, [0x245]); (0x292, [0x1B7]); (0x29D, [0xA7B2]);
   (0x29E, [0xA7B0]); (0x345, [0x399]); (0x371, [0x370]); (0x373, [0x372]); (0x377, [0x376]); (0x37B, [0x3FD]);
   (0x37C, [0x3FE]); (0x37D, [0x3FF]); (0x390, [0x399; 0x308; 0x301]); (0x3AC, [0x386]); (0x3AD, [0x388]); (0x3AE, [0x389]);
   (0x3AF, [0x38A]); (0x3B0, [0x3A5; 0x308; 0x301]); (0x3B1, [0x391]); (0x3B2, [0x392]); (0x3B3, [0x393]); (0x3B4, [0x394]);
   (0x3B5, [0x395]); (0x3B6, [0x396]); (0x3B7, [0x397]); (0x3B8, [0x398]); (0x3B9, [0x399]); (0x3BA, [0x39A]);
   (0x3BB, [0x39B]); (0x3BC, [0x39C]); (0x3BD, [0x39D]); (0x3BE, [0x39E]); (0x3BF, [0x39F]); (0x3C0, [0x3A0]);
   (0x3C1, [0x3A1]); (0x3C2, [0x3A3]); (0x3C3, [0x3A3]); (0x3C4, [0x3A4]); (0x3C5, [0x3A5]); (0x3C6, [0x3A6]);
   (0x3C7, [0x3A7]); (0x3C8, [0x3A8]); (0x3C9, [0x3A9]); (0x3CA, [0x3AA]); (0x3CB, [0x3AB]); (0x3CC, [0x38C]);
   (0x3CD, [0x38E]); (0x3CE, [0x38F]); (0x3D0, [0x392]); (0x3D1, [0x398]); (0x3D5, [0x3A6]); (0x3D6, [0x3A0]);
   (0x3D7, [0x3CF]); (0x3D9, [0x3D8]); (0x3DB, [0x3DA]); (0x3DD, [0x3DC]); (0x3DF, [0x3DE]); (0x3E1, [0x3E0]);
   (0x3E3, [0x3E2]); (0x3E5, [0x3E4]); (0x3E7, [0x3E6]); (0x3E9, [0x3E8]); (0x3EB, [0x3EA]); (0x3ED, [0x3EC]);
   (0x3EF, [0x3EE]); (0x3F0, [0x39A]); (0x3F1, [0x3A1]); (0x3F2, [0x3F9]); (0x3F3, [0x37F]); (0x3F5, [0x395]);
   (0x3F8, [0x3F7]); (0x3FB, [0x3FA]); (0x430, [0x410]); (0x431, [0x411]); (0x432, [0x412]); (0x433, [0x413]);
   (0x434, [0x414]); (0x435, [0x415]); (0x436, [0x416]); (0x437, [0x417]); (0x438, [0x418]); (0x439, [0x419]);
   (0x43A, [0x41A]); (0x43B, [0x41B]); (0x43C, [0x41C]); (0x43D, [0x41D]); (0x43E, [0x41E]); (0x43F, [0x41F]);
   (0x440, [0x420]); (0x441, [0x421]); (0x442, [0x422]); (0x443, [0x423]); (0x444, [0x424]); (0x445, [0x425]);
   (0x446, [0x426]); (0x447, [0x427]); (0x448, [0x428]); (0x449, [0x429]); (0x44A, [0x42A]); (0x44B, [0x42B]);
   (0x44C, [0x42C]); (0x44D, [0x42D]); (0x44E, [0x42E]); (0x44F, [0x42F]); (0x450, [0x400]); (0x451, [0x401]);
   (0x452, [0x402]); (0x453, [0x403]); (0x454, [0x404]); (0x455, [0x405]); (0x456, [0x406]); (0x457, [0x407]);
   (0x458, [0x408]); (0x459, [0x409]); (0x45A, [0x40A]); (0x45B, [0x40B]); (0x45C, [0x40C]); (0x45D, [0x40D]);
   (0x45E, [0x40E]); (0x45F, [0x40F]); (0x461, [0x460]); (0x463, [0x462]); (0x465, [0x464]); (0x467, [0x466]);
   (0x469, [0x468]); (0x46B, [0x46A]); (0x46D, [0x46C]); (0x46F, [0x46E]); (0x471, [0x470]); (0x473, [0x472]);
   (0x475, [0x474]); (0x477, [0x476]); (0x479, [0x478]); (0x47B, [0x47A]); (0x47D, [0x47C]); (0x47F, [0x47E]);
   (0x481, [0x480]); (0x48B, [0x48A]); (0x48D, [0x48C]); (0x48F, [0x48E]); (0x491, [0x490]); (0x493, [0x492]);
   (0x495, [0x494]); (0x497, [0x496]); (0x499, [0x498]); (0x49B, [0x49A]); (0x49D, [0x49C]); (0x49F, [0x49E]);
   (0x4A1, [0x4A0]); (0x4A3, [0x4A2]); (0x4A5, [0x4A4]); (0x4A7, [0x4A6]); (0x4A9, [0x4A8]); (0x4AB, [0x4AA]);
   (0x4AD, [0x4AC]); (0x4AF, [0x4AE]); (0x4B1, [0x4B0]); (0x4B3, [0x4B2]); (0x4B5, [0x4B4]); (0x4B7, [0x4B6]);
   (0x4B9, [0x4B8]); (0x4BB, [0x4BA]); (0x4BD, [0x4BC]); (0x4BF, [0x4BE]); (0x4C2, [0x4C1]); (0x4C4, [0x4C3]);
   (0x4C6, [0x4C5]); (0x4C8, [0x4C7]); (0x4CA, [0x4C9]); (0x4CC, [0x4CB]); (0x4CE, [0x4CD]); (0x4CF, [0x4C0]);
   (0x4D1, [0x4D0]); (0x4D3, [0x4D2]); (0x4D5, [0x4D4]); (0x4D7, [0x4D6]); (0x4D9, [0x4D8]); (0x4DB, [0x4DA]);
   (0x4DD, [0x4DC]); (0x4DF, [0x4DE]); (0x4E1, [0x4E0]); (0x4E3, [0x4E2]); (0x4E5, [0x4E4]); (0x4E7, [0x4E6]);
   (0x4E9, [0x4E8]); (0x4EB, [0x4EA]); (0x4ED, [0x4EC]); (0x4EF, [0x4EE]); (0x4F1, [0x4F0]); (0x4F3, [0x4F2]);
   (0x4F5, [0x4F4]); (0x4F7, [0x4F6]); (0x4F9, [0x4F8]); (0x4FB, [0x4FA]); (0x4FD, [0x4FC]); (0x4FF, [0x4FE]);
   (0x501, [0x500]); (0x503, [0x502]); (0x505, [0x504]); (0x507, [0x506]); (0x509, [0x508]); (0x50B, [0x50A]);
   (0x50D, [0x50C]); (0x50F, [0x50E]); (0x511, [0x510]); (0x513, [0x512]); (0x515, [0x514]); (0x517, [0x516]);
   (0x519, [0x518]); (0x51B, [0x51A]); (0x51D, [0x51C]); (0x51F, [0x51E]); (0x521, [0x520]); (0x523, [0x522]);
   (0x525, [0x524]); (0x527, [0x526]); (0x529, [0x528]); (0x52B, [0x52A]); (0x52D, [0x52C]); (0x52F, [0x52E]);
   (0x561, [0x531]); (0x562, [0x532]); (0x563, [0x533]); (0x564, [0x534]); (0x565, [0x535]); (0x566, [0x536]);
   (0x567, [0x537]); (0x568, [0x538]); (0x569, [0x539]); (0x56A, [0x53A]); (0x56B, [0x53B]); (0x56C, [0x53C]);
   (0x56D, [0x53D]); (0x56E, [0x53E]); (0x56F, [0x53F]); (0x570, [0x540]); (0x571, [0x541]); (0x572, [0x542]);
   (0x573, [0x543]); (0x574, [0x544]); (0x575, [0x545]); (0x576, [0x546]); (0x577, [0x547]); (0x578, [0x548]);
   (0x579, [0x549]); (0x57A, [0x54A]); (0x57B, [0x54B]); (0x57C, [0x54C]); (0x57D, [0x54D]); (0x57E, [0x54E]);
   (0x57F, [0x54F]); (0x580, [0x550]); (0x581, [0x551]); (0x582, [0x552]); (0x583, [0x553]); (0x584, [0x554]);
   (0x585, [0x555]); (0x586, [0x556]); (0x587, [0x535; 0x552]); (0x10D0, [0x1C90]); (0x10D1, [0x1C91]); (0x10D2, [0x1C92]);
   (0x10D3, [0x1C93]); (0x10D4, [0x1C94]); (0x10D5, [0x1C95]); (0x10D6, [0x1C96]); (0x10D7, [0x1C97]); (0x10D8, [0x1C98]);
   (0x10D9, [0x1C99]); (0x10DA, [0x1C9A]); (0x10DB, [0x1C9B]); (0x10DC, [0x1C9C]); (0x10DD, [0x1C9D]); (0x10DE, [0x1C9E]);
   (0x10DF, [0x1C9F]); (0x10E0, [0x1CA0]); (0x10E1, [0x1CA1]); (0x10E2, [0x1CA2]); (0x10E3, [0x1CA3]); (0x10E4, [0x1CA4]);
   (0x10E5, [0x1CA5]); (0x10E6, [0x1CA6]); (0x10E7, [0x1CA7]); (0x10E8, [0x1CA8]); (0x10E9, [0x1CA9]); (0x10EA, [0x1CAA]);
   (0x10EB, [0x1CAB]); (0x10EC, [0x1CAC]); (0x10ED, [0x1CAD]); (0x10EE, [0x1CAE]); (0x10EF, [0x1CAF]); (0x10F0, [0x1CB0]);
   (0x10F1, [0x1CB1]); (0x10F2, [0x1CB2]); (0x10F3, [0x1CB3]); (0x10F4, [0x1CB4]); (0x10F5, [0x1CB5]); (0x10F6, [0x1CB6]);
   (0x10F7, [0x1CB7]); (0x10F8, [0x1CB8]); (0x10F9, [0x1CB9]); (0x10FA, [0x1CBA]); (0x10FD, [0x1CBD]); (0x10FE, [0x1CBE]);
   (0x10FF, [0x1CBF]); (0x13F8, [0x13F0]); (0x13F9, [0x13F1]); (0x13FA, [0x13F2]); (0x13FB, [0x13F3]); (0x13FC, [0x13F4]);
   (0x13FD, [0x13F5]); (0x1C80, [0x412]); (0x1C81, [0x414]); (0x1C82, [0x41E]); (0x1C83, [0x421]); (0x1C84, [0x422]);
   (0x1C85, [0x422]); (0x1C86, [0x42A]); (0x1C87, [0x462]); (0x1C88, [0xA64A]); (0x1D79, [0xA77D]); (0x1D7D, [0x2C63]);
   (0x1D8E, [0xA7C6]); (0x1E01, [0x1E00]); (0x1E03, [0x1E02]); (0x1E05, [0x1E04]); (0x1E07, [0x1E06]); (0x1E09, [0x1E08]);
   (0x1E0B, [0x1E0A]); (0x1E0D, [0x1E0C]); (0x1E0F, [0x1E0E]); (0x1E11, [0x1E10]); (0x1E13, [0x1E12]); (0x1E15, [0x1E14]);
   (0x1E17, [0x1E16]); (0x1E19, [0x1E18]); (0x1E1B, [0x1E1A]); (0x1E1D, [0x1E1C]); (0x1E1F, [0x1E1E]); (0x1E21, [0x1E20]);
   (0x1E23, [0x1E22]); (0x1E25, [0x1E24]); (0x1E27, [0x1E26]); (0x1E29, [0x1E28]); (0x1E2B, [0x1E2A]); (0x1E2D, [0x1E2C]);
   (0x1E2F, [0x1E2E]); (0x1E31, [0x1E30]); (0x1E33, [0x1E32]); (0x1E35, [0x1E34]); (0x1E37, [0x1E36]); (0x1E39, [0x1E38]);
   (0x1E3B, [0x1E3A]); (0x1E3D, [0x1E3C]); (0x1E3F, [0x1E3E]); (0x1E41, [0x1E40]); (0x1E43, [0x1E42]); (0x1E45, [0x1E44]);
   (0x1E47, [0x1E46]); (0x1E49, [0x1E48]); (0x1E4B, [0x1E4A]); (0x1E4D, [0x1E4C]); (0x1E4F, [0x1E4E]); (0x1E51, [0x1E50]);
   (0x1E53, [0x1E52]); (0x1E55, [0x1E54]); (0x1E57, [0x1E56]); (0x1E59, [0x1E58]); (0x1E5B, [0x1E5A]); (0x1E5D, [0x1E5C]);
   (0x1E5F, [0x1E5E]); (0x1E61, [0x1E60]); (0x1E63, [0x1E62]); (0x1E65, [0x1E64]); (0x1E67, [0x1E66]); (0x1E69, [0x1E68]);
   (0x1E6B, [0x1E6A]); (0x1E6D, [0x1E6C]); (0x1E6F, [0x1E6E]); (0x1E71, [0x1E70]); (0x1E73, [0x1E72]); (0x1E75, [0x1E74]);
   (0x1E77, [0x1E76]); (0x1E79, [0x1E78]); (0x1E7B, [0x1E7A]); (0x1E7D, [0x1E7C]); (0x1E7F, [0x1E7E]); (0x1E81, [0x1E80]);
   (0x1E83, [0x1E82]); (0x1E85, [0x1E84]); (0x1E87, [0x1E86]); (0x1E89, [0x1E88]); (0x1E8B, [0x1E8A]); (0x1E8D, [0x1E8C]);
   (0x1E8F, [0x1E8E]); (0x1E91, [0x1E90]); (0x1E93, [0x1E92]); (0x1E95, [0x1E94]); (0x1E96, [0x48; 0x331]); (0x1E97, [0x54; 0x308]);
   (0x1E98, [0x57; 0x30A]); (0x1E99, [0x59; 0x30A]); (0x1E9A, [0x41; 0x2BE]); (0x1E9B, [0x1E60]); (0x1EA1, [0x1EA0]); (0x1EA3, [0x1EA2]);
   (0x1EA5, [0x1EA4]); (0x1EA7, [0x1EA6]); (0x1EA9, [0x1EA8]); (0x1EAB, [0x1EAA]); (0x1EAD, [0x1EAC]); (0x1EAF, [0x1EAE]);
   (0x1EB1, [0x1EB0]); (0x1EB3, [0x1EB2]); (0x1EB5, [0x1EB4]); (0x1EB7, [0x1EB6]); (0x1EB9, [0x1EB8]); (0x1EBB, [0x1EBA]);
   (0x1EBD, [0x1EBC]); (0x1EBF, [0x1EBE]); (0x1EC1, [0x1EC0]); (0x1EC3, [0x1EC2]); (0x1EC5, [0x1EC4]); (0x1EC7, [0x1EC6]);
   (0x1EC9, [0x1EC8]); (0x1ECB, [0x1ECA]); (0x1ECD, [0x1ECC]); (0x1ECF, [0x1ECE]); (0x1ED1, [0x1ED0]); (0x1ED3, [0x1ED2]);
   (0x1ED5, [0x1ED4]); (0x1ED7, [0x1ED6]); (0x1ED9, [0x1ED8]); (0x1EDB, [0x1EDA]); (0x1EDD, [0x1EDC]); (0x1EDF, [0x1EDE]);
   (0x1EE1, [0x1EE0]); (0x1EE3, [0x1EE2]); (0x1EE5, [0x1EE4]); (0x1EE7, [0x1EE6]); (0x1EE9, [0x1EE8]); (0x1EEB, [0x1EEA]);
   (0x1EED, [0x1EEC]); (0x1EEF, [0x1EEE]); (0x1EF1, [0x1EF0]); (0x1EF3, [0x1EF2]); (0x1EF5, [0x1EF4]); (0x1EF7, [0x1EF6]);
   (0x1EF9, [0x1EF8]); (0x1EFB, [0x1EFA]); (0x1EFD, [0x1EFC]); (0x1EFF, [0x1EFE]); (0x1F00, [0x1F08]); (0x1F01, [0x1F09]);
   (0x1F02, [0x1F0A]); (0x1F03, [0x1F0B]); (0x1F04, [0x1F0C]); (0x1F05, [0x1F0D]); (0x1F06, [0x1F0E]); (0x1F07, [0x1F0F]);
   (0x1F10, [0x1F18]); (0x1F11, [0x1F19]); (0x1F12, [0x1F1A]); (0x1F13, [0x1F1B]); (0x1F14, [0x1F1C]); (0x1F15, [0x1F1D]);
   (0x1F20, [0x1F28]); (0x1F21, [0x1F29]); (0x1F22, [0x1F2A]); (0x1F23, [0x1F2B]); (0x1F24, [0x1F2C]); (0x1F25, [0x1F2D]);
   (0x1F26, [0x1F2E]); (0x1F27, [0x1F2F]); (0x1F30, [0x1F38]); (0x1F31, [0x1F39]); (0x1F32, [0x1F3A]); (0x1F33, [0x1F3B]);
   (0x1F34, [0x1F3C]); (0x1F35, [0x1F3D]); (0x1F36, [0x1F3E]); (0x1F37, [0x1F3F]); (0x1F40, [0x1F48]); (0x1F41, [0x1F49]);
   (0x1F42, [0x1F4A]); (0x1F43, [0x1F4B]); (0x1F44, [0x1F4C]); (0x1F45, [0x1F4D]); (0x1F50, [0x3A5; 0x313]); (0x1F51, [0x1F59]);
   (0x1F52, [0x3A5; 0x313; 0x300]); (0x1F53, [0x1F5B]); (0x1F54, [0x3A5; 0x313; 0x301]); (0x1F55, [0x1F5D]); (0x1F56, [0x3A5; 0x313; 0x342]); (0x1F57, [0x1F5F]);
   (0x1F60, [0x1F68]); (0x1F61, [0x1F69]); (0x1F62, [0x1F6A]); (0x1F63, [0x1F6B]); (0x1F64, [0x1F6C]); (0x1F65, [0x1F6D]);
   (0x1F66, [0x1F6E]); (0x1F67, [0x1F6F]); (0x1F70, [0x1FBA]); (0x1F71, [0x1FBB]); (0x1F72, [0x1FC8]); (0x1F73, [0x1FC9]);
   (0x1F74, [0x1FCA]); (0x1F75, [0x1FCB]); (0x1F76, [0x1FDA]); (0x1F77, [0x1FDB]); (0x1F78, [0x1FF8]); (0x1F79, [0x1FF9]);
   (0x1F7A, [0x1FEA]); (0x1F7B, [0x1FEB]); (0x1F7C, [0x1FFA]); (0x1F7D, [0x1FFB]); (0x1F80, [0x1F08; 0x399]); (0x1F81, [0x1F09; 0x399]);
   (0x1F82, [0x1F0A; 0x399]); (0x1F83, [0x1F0B; 0x399]); (0x1F84, [0x1F0C; 0x399]); (0x1F85, [0x1F0D; 0x399]); (0x1F86, [0x1F0E; 0x399]); (0x1F87, [0x1F0F; 0x399]);
   (0x1F88, [0x1F08; 0x399]); (0x1F89, [0x1F09; 0x399]); (0x1F8A, [0x1F0A; 0x399]); (0x1F8B, [0x1F0B; 0x399]); (0x1F8C, [0x1F0C; 0x399]); (0x1F8D, [0x1F0D; 0x399]);
   (0x1F8E, [0x1F0E; 0x399]); (0x1F8F, [0x1F0F; 0x399]); (0x1F90, [0x1F28; 0x399]); (0x1F91, [0x1F29; 0x399]); (0x1F92, [0x1F2A; 0x399]); (0x1F93, [0x1F2B; 0x399]);
   (0x1F94, [0x1F2C; 0x399]); (0x1F95, [0x1F2D; 0x399]); (0x1F96, [0x1F2E; 0x399]); (0x1F97, [0x1F2F; 0x399]); (0x1F98, [0x1F28; 0x399]); (0x1F99, [0x1F29; 0x399]);
   (0x1F9A, [0x1F2A; 0x399]); (0x1F9B, [0x1F2B; 0x399]); (0x1F9C, [0x1F2C; 0x399]); (0x1F9D, [0x1F2D; 0x399]); (0x1F9E, [0x1F2E; 0x399]); (0x1F9F, [0x1F2F; 0x399]);
   (0x1FA0, [0x1F68; 0x399]); (0x1FA1, [0x1F69; 0x399]); (0x1FA2, [0x1F6A; 0x399]); (0x1FA3, [0x1F6B; 0x399]); (0x1FA4, [0x1F6C; 0x399]); (0x1FA5, [0x1F6D; 0x399]);
   (0x1FA6, [0x1F6E; 0x399]); (0x1FA7, [0x1F6F; 0x399]); (0x1FA8, [0x1F68; 0x399]); (0x1FA9, [0x1F69; 0x399]); (0x1FAA, [0x1F6A; 0x399]); (0x1FAB, [0x1F6B; 0x399]);
   (0x1FAC, [0x1F6C; 0x399]); (0x1FAD, [0x1F6D; 0x399]); (0x1FAE, [0x1F6E; 0x399]); (0x1FAF, [0x1F6F; 0x399]); (0x1FB0, [0x1FB8]); (0x1FB1, [0x1FB9]);
   (0x1FB2, [0x1FBA; 0x399]); (0x1FB3, [0x391; 0x399]); (0x1FB4, [0x386; 0x399]); (0x1FB6, [0x391; 0x342]); (0x1FB7, [0x391; 0x342; 0x399]); (0x1FBC, [0x391; 0x399]);
   (0x1FBE, [0x399]); (0x1FC2, [0x1FCA; 0x399]); (0x1FC3, [0x397; 0x399]); (0x1FC4, [0x389; 0x399]); (0x1FC6, [0x397; 0x342]); (0x1FC7, [0x397; 0x342; 0x399]);
   (0x1FCC, [0x397; 0x399]); (0x1FD0, [0x1FD8]); (0x1FD1, [0x1FD9]); (0x1FD2, [0x399; 0x308; 0x300]); (0x1FD3, [0x399; 0x308; 0x301]); (0x1FD6, [0x399; 0x342]);
   (0x1FD7, [0x399; 0x308; 0x342]); (0x1FE0, [0x1FE8]); (0x1FE1, [0x1FE9]); (0x1FE2, [0x3A5; 0x308; 0x300]); (0x1FE3, [0x3A5; 0x308; 0x301]); (0x1FE4, [0x3A1; 0x313]);
   (0x1FE5, [0x1FEC]); (0x1FE6, [0x3A5; 0x342]); (0x1FE7, [0x3A5; 0x308; 0x342]); (0x1FF2, [0x1FFA; 0x399]); (0x1FF3, [0x3A9; 0x399]); (0x1FF4, [0x38F; 0x399]);
   (0x1FF6, [0x3A9; 0x342]); (0x1FF7, [0x3A9; 0x342; 0x399]); (0x1FFC, [0x3A9; 0x399]); (0x214E, [0x2132]); (0x2170, [0x2160]); (0x2171, [0x2161]);
   (0x2172, [0x2162]); (0x2173, [0x2163]); (0x2174, [0x2164]); (0x2175, [0x2165]); (0x2176, [0x2166]); (0x2177, [0x2167]);
   (0x2178, [0x2168]); (0x2179, [0x2169]); (0x217A, [0x216A]); (0x217B, [0x216B]); (0x217C, [0x216C]); (0x217D, [0x216D]);
   (0x217E, [0x216E]); (0x217F, [0x216F]); (0x2184, [0x2183]); (0x24D0, [0x24B6]); (0x24D1, [0x24B7]); (0x24D2, [0x24B8]);
   (0x24D3, [0x24B9]); (0x24D4, [0x24BA]); (0x24D5, [0x24BB]); (0x24D6, [0x24BC]); (0x24D7, [0x24BD]); (0x24D8, [0x24BE]);
   (0x24D9, [0x24BF]); (0x24DA, [0x24C0]); (0x24DB, [0x24C1]); (0x24DC, [0x24C2]); (0x24DD, [0x24C3]); (0x24DE, [0x24C4]);
   (0x24DF, [0x24C5]); (0x24E0, [0x24C6]); (0x24E1, [0x24C7]); (0x24E2, [0x24C8]); (0x24E3, [0x24C9]); (0x24E4, [0x24CA]);
   (0x24E5, [0x24CB]); (0x24E6, [0x24CC]); (0x24E7, [0x24CD]); (0x24E8, [0x24CE]); (0x24E9, [0x24CF]); (0x2C30, [0x2C00]);
   (0x2C31, [0x2C01]); (0x2C32, [0x2C02]); (0x2C33, [0x2C03]); (0x2C34, [0x2C04]); (0x2C35, [0x2C05]); (0x2C36, [0x2C06]);
   (0x2C37, [0x2C07]); (0x2C38, [0x2C08]); (0x2C39, [0x2C09]); (0x2C3A, [0x2C0A]); (0x2C3B, [0x2C0B]); (0x2C3C, [0x2C0C]);
   (0x2C3D, [0x2C0D]); (0x2C3E, [0x2C0E]); (0x2C3F, [0x2C0F]); (0x2C40, [0x2C10]); (0x2C41, [0x2C11]); (0x2C42, [0x2C12]);
   (0x2C43, [0x2C13]); (0x2C44, [0x2C14]); (0x2C45, [0x2C15]); (0x2C46, [0x2C16]); (0x2C47, [0x2C17]); (0x2C48, [0x2C18]);
   (0x2C49, [0x2C19]); (0x2C4A, [0x2C1A]); (0x2C4B, [0x2C1B]); (0x2C4C, [0x2C1C]); (0x2C4D, [0x2C1D]); (0x2C4E, [0x2C1E]);
   (0x2C4F, [0x2C1F]); (0x2C50, [0x2C20]); (0x2C51, [0x2C21]); (0x2C52, [0x2C22]); (0x2C53, [0x2C23]); (0x2C54, [0x2C24]);
   (0x2C55, [0x2C25]); (0x2C56, [0x2C26]); (0x2C57, [0x2C27]); (0x2C58, [0x2C28]); (0x2C59, [0x2C29]); (0x2C5A, [0x2C2A]);
   (0x2C5B, [0x2C2B]); (0x2C5C, [0x2C2C]); (0x2C5D, [0x2C2D]); (0x2C5E, [0x2C2E]); (0x2C5F, [0x2C2F]); (0x2C61, [0x2C60]);
   (0x2C65, [0x23A]); (0x2C66, [0x23E]); (0x2C68, [0x2C67]); (0x2C6A, [0x2C69]); (0x2C6C, [0x2C6B]); (0x2C73, [0x2C72]);
   (0x2C76, [0x2C75]); (0x2C81, [0x2C80]); (0x2C83, [0x2C82]); (0x2C85, [0x2C84]); (0x2C87, [0x2C86]); (0x2C89, [0x2C88]);
   (0x2C8B, [0x2C8A]); (0x2C8D, [0x2C8C]); (0x2C8F, [0x2C8E]); (0x2C91, [0x2C90]); (0x2C93, [0x2C92]); (0x2C95, [0x2C94]);
   (0x2C97, [0x2C96]); (0x2C99, [0x2C98]); (0x2C9B, [0x2C9A]); (0x2C9D, [0x2C9C]); (0x2C9F, [0x2C9E]); (0x2CA1, [0x2CA0]);
   (0x2CA3, [0x2CA2]); (0x2CA5, [0x2CA4]); (0x2CA7, [0x2CA6]); (0x2CA9, [0x2CA8]); (0x2CAB, [0x2CAA]); (0x2CAD, [0x2CAC]);
   (0x2CAF, [0x2CAE]); (0x2CB1, [0x2CB0]); (0x2CB3, [0x2CB2]); (0x2CB5, [0x2CB4]); (0x2CB7, [0x2CB6]); (0x2CB9, [0x2CB8]);
   (0x2CBB, [0x2CBA]); (0x2CBD, [0x2CBC]); (0x2CBF, [0x2CBE]); (0x2CC1, [0x2CC0]); (0x2CC3, [0x2CC2]); (0x2CC5, [0x2CC4]);
   (0x2CC7, [0x2CC6]); (0x2CC9, [0x2CC8]); (0x2CCB, [0x2CCA]); (0x2CCD, [0x2CCC]); (0x2CCF, [0x2CCE]); (0x2CD1, [0x2CD0]);
   (0x2CD3, [0x2CD2]); (0x2CD5, [0x2CD4]); (0x2CD7, [0x2CD6]); (0x2CD9, [0x2CD8]); (0x2CDB, [0x2CDA]); (0x2CDD, [0x2CDC]);
   (0x2CDF, [0x2CDE]); (0x2CE1, [0x2CE0]); (0x2CE3, [0x2CE2]); (0x2CEC, [0x2CEB]); (0x2CEE, [0x2CED]); (0x2CF3, [0x2CF2]);
   (0x2D00, [0x10A0]); (0x2D01, [0x10A1]); (0x2D02, [0x10A2]); (0x2D03, [0x10A3]); (0x2D04, [0x10A4]); (0x2D05, [0x10A5]);
   (0x2D06, [0x10A6]); (0x2D07, [0x10A7]); (0x2D08, [0x10A8]); (0x2D09, [0x10A9]); (0x2D0A, [0x10AA]); (0x2D0B, [0x10AB]);
   (0x2D0C, [0x10AC]); (0x2D0D, [0x10AD]); (0x2D0E, [0x10AE]); (0x2D0F, [0x10AF]); (0x2D10, [0x10B0]); (0x2D11, [0x10B1]);
   (0x2D12, [0x10B2]); (0x2D13, [0x10B3]); (0x2D14, [0x10B4]); (0x2D15, [0x10B5]); (0x2D16, [0x10B6]); (0x2D17, [0x10B7]);
   (0x2D18, [0x10B8]); (0x2D19, [0x10B9]); (0x2D1A, [0x10BA]); (0x2D1B, [0x10BB]); (0x2D1C, [0x10BC]); (0x2D1D, [0x10BD]);
   (0x2D1E, [0x10BE]); (0x2D1F, [0x10BF]); (0x2D20, [0x10C0]); (0x2D21, [0x10C1]); (0x2D22, [0x10C2]); (0x2D23, [0x10C3]);
   (0x2D24, [0x10C4]); (0x2D25, [0x10C5]); (0x2D27, [0x10C7]); (0x2D2D, [0x10CD]); (0xA641, [0xA640]); (0xA643, [0xA642]);
   (0xA645, [0xA644]); (0xA647, [0xA646]); (0xA649, [0xA648]); (0xA64B, [0xA64A]); (0xA64D, [0xA64C]); (0xA64F, [0xA64E]);
   (0xA651, [0xA650]); (0xA653, [0xA652]); (0xA655, [0xA654]); (0xA657, [0xA656]); (0xA659, [0xA658]); (0xA65B, [0xA65A]);
   (0xA65D, [0xA65C]); (0xA65F, [0xA65E]); (0xA661, [0xA660]); (0xA663, [0xA662]); (0xA665, [0xA664]); (0xA667, [0xA666]);
   (0xA669, [0xA668]); (0xA66B, [0xA66A]); (0xA66D, [0xA66C]); (0xA681, [0xA680]); (0xA683, [0xA682]); (0xA685, [0xA684]);
   (0xA687, [0xA686]); (0xA689, [0xA688]); (0xA68B, [0xA68A]); (0xA68D, [0xA68C]); (0xA68F, [0xA68E]); (0xA691, [0xA690]);
   (0xA693, [0xA692]); (0xA695, [0xA694]); (0xA697, [0xA696]); (0xA699, [0xA698]); (0xA69B, [0xA69A]); (0xA723, [0xA722]);
   (0xA725, [0xA724]); (0xA727, [0xA726]); (0xA729, [0xA728]); (0xA72B, [0xA72A]); (0xA72D, [0xA72C]); (0xA72F, [0xA72E]);
   (0xA733, [0xA732]); (0xA735, [0xA734]); (0xA737, [0xA736]); (0xA739, [0xA738]); (0xA73B, [0xA73A]); (0xA73D, [0xA73C]);
   (0xA73F, [0xA73E]); (0xA741, [0xA740]); (0xA743, [0xA742]); (0xA745, [0xA744]); (0xA747, [0xA746]); (0xA749, [0xA748]);
   (0xA74B, [0xA74A]); (0xA74D, [0xA74C]); (0xA74F, [0xA74E]); (0xA751, [0xA750]); (0xA753, [0xA752]); (0xA755, [0xA754]);
   (0xA757, [0xA756]); (0xA759, [0xA758]); (0xA75B, [0xA75A]); (0xA75D, [0xA75C]); (0xA75F, [0xA75E]); (0xA761, [0xA760]);
   (0xA763, [0xA762]); (0xA765, [0xA764]); (0xA767, [0xA766]); (0xA769, [0xA768]); (0xA76B, [0xA76A]); (0xA76D, [0xA76C]);
   (0xA76F, [0xA76E]); (0xA77A, [0xA779]); (0xA77C, [0xA77B]); (0xA77F, [0xA77E]); (0xA781, [0xA780]); (0xA783, [0xA782]);
   (0xA785, [0xA784]); (0xA787, [0xA786]); (0xA78C, [0xA78B]); (0xA791, [0xA790]); (0xA793, [0xA792]); (0xA794, [0xA7C4]);
   (0xA797, [0xA796]); (0xA799, [0xA798]); (0xA79B, [0xA79A]); (0xA79D, [0xA79C]); (0xA79F, [0xA79E]); (0xA7A1, [0xA7A0]);
   (0xA7A3, [0xA7A2]); (0xA7A5, [0xA7A4]); (0xA7A7, [0xA7A6]); (0xA7A9, [0xA7A8]); (0xA7B5, [0xA7B4]); (0xA7B7, [0xA7B6]);
   (0xA7B9, [0xA7B8]); (0xA7BB, [0xA7BA]); (0xA7BD, [0xA7BC]); (0xA7BF, [0xA7BE]); (0xA7C1, [0xA7C0]); (0xA7C3, [0xA7C2]);
   (0xA7C8, [0xA7C7]); (0xA7CA, [0xA7C9]); (0xA7D1, [0xA7D0]); (0xA7D7, [0xA7D6]); (0xA7D9, [0xA7D8]); (0xA7F6, [0xA7F5]);
   (0xAB53, [0xA7B3]); (0xAB70, [0x13A0]); (0xAB71, [0x13A1]); (0xAB72, [0x13A2]); (0xAB73, [0x13A3]); (0xAB74, [0x13A4]);
   (0xAB75, [0x13A5]); (0xAB76, [0x13A6]); (0xAB77, [0x13A7]); (0xAB78, [0x13A8]); (0xAB79, [0x13A9]); (0xAB7A, [0x13AA]);
   (0xAB7B, [0x13AB]); (0xAB7C, [0x13AC]); (0xAB7D, [0x13AD]); (0xAB7E, [0x13AE]); (0xAB7F, [0x13AF]); (0xAB80, [0x13B0]);
   (0xAB81, [0x13B1]); (0xAB82, [0x13B2]); (0xAB83, [0x13B3]); (0xAB84, [0x13B4]); (0xAB85, [0x13B5]); (0xAB86, [0x13B6]);
   (0xAB87, [0x13B7]); (0xAB88, [0x13B8]); (0xAB89, [0x13B9]); (0xAB8A, [0x13BA]); (0xAB8B, [0x13BB]); (0xAB8C, [0x13BC]);
   (0xAB8D, [0x13BD]); (0xAB8E, [0x13BE]); (0xAB8F, [0x13BF]); (0xAB90, [0x13C0]); (0xAB91, [0x13C1]); (0xAB92, [0x13C2]);
   (0xAB93, [0x13C3]); (0xAB94, [0x13C4]); (0xAB95, [0x13C5]); (0xAB96, [0x13C6]); (0xAB97, [0x13C7]); (0xAB98, [0x13C8]);
   (0xAB99, [0x13C9]); (0xAB9A, [0x13CA]); (0xAB9B, [0x13CB]); (0xAB9C, [0x13CC]); (0xAB9D, [0x13CD]); (0xAB9E, [0x13CE]);
   (0xAB9F, [0x13CF]); (0xABA0, [0x13D0]); (0xABA1, [0x13D1]); (0xABA2, [0x13D2]); (0xABA3, [0x13D3]); (0xABA4, [0x13D4]);
   (0xABA5, [0x13D5]); (0xABA6, [0x13D6]); (0xABA7, [0x13D7]); (0xABA8, [0x13D8]); (0xABA9, [0x13D9]); (0xABAA, [0x13DA]);
   (0xABAB, [0x13DB]); (0xABAC, [0x13DC]); (0xABAD, [0x13DD]); (0xABAE, [0x13DE]); (0xABAF, [0x13DF]); (0xABB0, [0x13E0]);
   (0xABB1, [0x13E1]); (0xABB2, [0x13E2]); (0xABB3, [0x13E3]); (0xABB4, [0x13E4]); (0xABB5, [0x13E5]); (0xABB6, [0x13E6]);
   (0xABB7, [0x13E7]); (0xABB8, [0x13E8]); (0xABB9, [0x13E9]); (0xABBA, [0x13EA]); (0xABBB, [0x13EB]); (0xABBC, [0x13EC]);
   (0xABBD, [0x13ED]); (0xABBE, [0x13EE]); (0xABBF, [0x13EF]); (0xFB00, [0x46; 0x46]); (0xFB01, [0x46; 0x49]); (0xFB02, [0x46; 0x4C]);
   (0xFB03, [0x46; 0x46; 0x49]); (0xFB04, [0x46; 0x46; 0x4C]); (0xFB05, [0x53; 0x54]); (0xFB06, [0x53; 0x54]); (0xFB13, [0x544; 0x546]); (0xFB14, [0x544; 0x535]);
   (0xFB15, [0x544; 0x53B]); (0xFB16, [0x54E; 0x546]); (0xFB17, [0x544; 0x53D]); (0xFF41, [0xFF21]); (0xFF42, [0xFF22]); (0xFF43, [0xFF23]);
   (0xFF44, [0xFF24]); (0xFF45, [0xFF25]); (0xFF46, [0xFF26]); (0xFF47, [0xFF27]); (0xFF48, [0xFF28]); (0xFF49, [0xFF29]);
   (0xFF4A, [0xFF2A]); (0xFF4B, [0xFF2B]); (0xFF4C, [0xFF2C]); (0xFF4D, [0xFF2D]); (0xFF4E, [0xFF2E]); (0xFF4F, [0xFF2F]);
   (0xFF50, [0xFF30]); (0xFF51, [0xFF31]); (0xFF52, [0xFF32]); (0xFF53, [0xFF33]); (0xFF54, [0xFF34]); (0xFF55, [0xFF35]);
   (0xFF56, [0xFF36]); (0xFF57, [0xFF37]); (0xFF58, [0xFF38]); (0xFF59, [0xFF39]); (0xFF5A, [0xFF3A]); (0x10428, [0x10400]);
   (0x10429, [0x10401]); (0x1042A, [0x10402]); (0x1042B, [0x10403]); (0x1042C, [0x10404]); (0x1042D, [0x10405]); (0x1042E, [0x10406]);
   (0x1042F, [0x10407]); (0x10430, [0x10408]); (0x10431, [0x10409]); (0x10432, [0x1040A]); (0x10433, [0x1040B]); (0x10434, [0x1040C]);
   (0x10435, [0x1040D]); (0x10436, [0x1040E]); (0x10437, [0x1040F]); (0x10438, [0x10410]); (0x10439, [0x10411]); (0x1043A, [0x10412]);
   (0x1043B, [0x10413]); (0x1043C, [0x10414]); (0x1043D, [0x10415]); (0x1043E, [0x10416]); (0x1043F, [0x10417]); (0x10440, [0x10418]);
   (0x10441, [0x10419]); (0x10442, [0x1041A]); (0x10443, [0x1041B]); (0x10444, [0x1041C]); (0x10445, [0x1041D]); (0x10446, [0x1041E]);
   (0x10447, [0x1041F]); (0x10448, [0x10420]); (0x10449, [0x10421]); (0x1044A, [0x10422]); (0x1044B, [0x10423]); (0x1044C, [0x10424]);
   (0x1044D, [0x10425]); (0x1044E, [0x10426]); (0x1044F, [0x10427]); (0x104D8, [0x104B0]); (0x104D9, [0x104B1]); (0x104DA, [0x104B2]);
   (0x104DB, [0x104B3]); (0x104DC, [0x104B4]); (0x104DD, [0x104B5]); (0x104DE, [0x104B6]); (0x104DF, [0x104B7]); (0x104E0, [0x104B8]);
   (0x104E1, [0x104B9]); (0x104E2, [0x104BA]); (0x104E3, [0x104BB]); (0x104E4, [0x104BC]); (0x104E5, [0x104BD]); (0x104E6, [0x104BE]);
   (0x104E7, [0x104BF]); (0x104E8, [0x104C0]); (0x104E9, [0x104C1]); (0x104EA, [0x104C2]); (0x104EB, [0x104C3]); (0x104EC, [0x104C4]);
   (0x104ED, [0x104C5]); (0x104EE, [0x104C6]); (0x104EF, [0x104C7]); (0x104F0, [0x104C8]); (0x104F1, [0x104C9]); (0x104F2, [0x104CA]);
   (0x104F3, [0x104CB]); (0x104F4, [0x104CC]); (0x104F5, [0x104CD]); (0x104F6, [0x104CE]); (0x104F7, [0x104CF]); (0x104F8, [0x104D0]);
   (0x104F9, [0x104D1]); (0x104FA, [0x104D2]); (0x104FB, [0x104D3]); (0x10597, [0x10570]); (0x10598, [0x10571]); (0x10599, [0x10572]);
   (0x1059A, [0x10573]); (0x1059B, [0x10574]); (0x1059C, [0x10575]); (0x1059D, [0x10576]); (0x1059E, [0x10577]); (0x1059F, [0x10578]);
   (0x105A0, [0x10579]); (0x105A1, [0x1057A]); (0x105A3, [0x1057C]); (0x105A4, [0x1057D]); (0x105A5, [0x1057E]); (0x105A6, [0x1057F]);
   (0x105A7, [0x10580]); (0x105A8, [0x10581]); (0x105A9, [0x10582]); (0x105AA, [0x10583]); (0x105AB, [0x10584]); (0x105AC, [0x10585]);
   (0x105AD, [0x10586]); (0x105AE, [0x10587]); (0x105AF, [0x10588]); (0x105B0, [0x10589]); (0x105B1, [0x1058A]); (0x105B3, [0x1058C]);
   (0x105B4, [0x1058D]); (0x105B5, [0x1058E]); (0x105B6, [0x1058F]); (0x105B7, [0x10590]); (0x105B8, [0x10591]); (0x105B9, [0x10592]);
   (0x105BB, [0x10594]); (0x105BC, [0x10595]); (0x10CC0, [0x10C80]); (0x10CC1, [0x10C81]); (0x10CC2, [0x10C82]); (0x10CC3, [0x10C83]);
   (0x10CC4, [0x10C84]); (0x10CC5, [0x10C85]); (0x10CC6, [0x10C86]); (0x10CC7, [0x10C87]); (0x10CC8, [0x10C88]); (0x10CC9, [0x10C89]);
   (0x10CCA, [0x10C8A]); (0x10CCB, [0x10C8B]); (0x10CCC, [0x10C8C]); (0x10CCD, [0x10C8D]); (0x10CCE, [0x10C8E]); (0x10CCF, [0x10C8F]);
   (0x10CD0, [0x10C90]); (0x10CD1, [0x10C91]); (0x10CD2, [0x10C92]); (0x10CD3, [0x10C93]); (0x10CD4, [0x10C94]); (0x10CD5, [0x10C95]);
   (0x10CD6, [0x10C96]); (0x10CD7, [0x10C97]); (0x10CD8, [0x10C98]); (0x10CD9, [0x10C99]); (0x10CDA, [0x10C9A]); (0x10CDB, [0x10C9B]);
   (0x10CDC, [0x10C9C]); (0x10CDD, [0x10C9D]); (0x10CDE, [0x10C9E]); (0x10CDF, [0x10C9F]); (0x10CE0, [0x10CA0]); (0x10CE1, [0x10CA1]);
   (0x10CE2, [0x10CA2]); (0x10CE3, [0x10CA3]); (0x10CE4, [0x10CA4]); (0x10CE5, [0x10CA5]); (0x10CE6, [0x10CA6]); (0x10CE7, [0x10CA7]);
   (0x10CE8, [0x10CA8]); (0x10CE9, [0x10CA9]); (0x10CEA, [0x10CAA]); (0x10CEB, [0x10CAB]); (0x10CEC, [0x10CAC]); (0x10CED, [0x10CAD]);
   (0x10CEE, [0x10CAE]); (0x10CEF, [0x10CAF]); (0x10CF0, [0x10CB0]); (0x10CF1, [0x10CB1]); (0x10CF2, [0x10CB2]); (0x118C0, [0x118A0]);
   (0x118C1, [0x118A1]); (0x118C2, [0x118A2]); (0x118C3, [0x118A3]); (0x118C4, [0x118A4]); (0x118C5, [0x118A5]); (0x118C6, [0x118A6]);
   (0x118C7, [0x118A7]); (0x118C8, [0x118A8]); (0x118C9, [0x118A9]); (0x118CA, [0x118AA]); (0x118CB, [0x118AB]); (0x118CC, [0x118AC]);
   (0x118CD, [0x118AD]); (0x118CE, [0x118AE]); (0x118CF, [0x118AF]); (0x118D0, [0x118B0]); (0x118D1, [0x118B1]); (0x118D2, [0x118B2]);
   (0x118D3, [0x118B3]); (0x118D4, [0x118B4]); (0x118D5, [0x118B5]); (0x118D6, [0x118B6]); (0x118D7, [0x118B7]); (0x118D8, [0x118B8]);
   (0x118D9, [0x118B9]); (0x118DA, [0x118BA]); (0x118DB, [0x118BB]); (0x118DC, [0x118BC]); (0x118DD, [0x118BD]); (0x118DE, [0x118BE]);
   (0x118DF, [0x118BF]); (0x16E60, [0x16E40]); (0x16E61, [0x16E41]); (0x16E62, [0x16E42]); (0x16E63, [0x16E43]); (0x16E64, [0x16E44]);
   (0x16E65, [0x16E45]); (0x16E66, [0x16E46]); (0x16E67, [0x16E47]); (0x16E68, [0x16E48]); (0x16E69, [0x16E49]); (0x16E6A, [0x16E4A]);
   (0x16E6B, [0x16E4B]); (0x16E6C, [0x16E4C]); (0x16E6D, [0x16E4D]); (0x16E6E, [0x16E4E]); (0x16E6F, [0x16E4F]); (0x16E70, [0x16E50]);
   (0x16E71, [0x16E51]); (0x16E72, [0x16E52]); (0x16E73, [0x16E53]); (0x16E74, [0x16E54]); (0x16E75, [0x16E55]); (0x16E76, [0x16E56]);
   (0x16E77, [0x16E57]); (0x16E78, [0x16E58]); (0x16E79, [0x16E59]); (0x16E7A, [0x16E5A]); (0x16E7B, [0x16E5B]); (0x16E7C, [0x16E5C]);
   (0x16E7D, [0x16E5D]); (0x16E7E, [0x16E5E]); (0x16E7F, [0x16E5F]); (0x1E922, [0x1E900]); (0x1E923, [0x1E901]); (0x1E924, [0x1E902]);
   (0x1E925, [0x1E903]); (0x1E926, [0x1E904]); (0x1E927, [0x1E905]); (0x1E928, [0x1E906]); (0x1E929, [0x1E907]); (0x1E92A, [0x1E908]);
   (0x1E92B, [0x1E909]); (0x1E92C, [0x1E90A]); (0x1E92D, [0x1E90B]); (0x1E92E, [0x1E90C]); (0x1E92F, [0x1E90D]); (0x1E930, [0x1E90E]);
   (0x1E931, [0x1E90F]); (0x1E932, [0x1E910]); (0x1E933, [0x1E911]); (0x1E934, [0x1E912]); (0x1E935, [0x1E913]); (0x1E936, [0x1E914]);
   (0x1E937, [0x1E915]); (0x1E938, [0x1E916]); (0x1E939, [0x1E917]); (0x1E93A, [0x1E918]); (0x1E93B, [0x1E919]); (0x1E93C, [0x1E91A]);
   (0x1E93D, [0x1E91B]); (0x1E93E, [0x1E91C]); (0x1E93F, [0x1E91D]); (0x1E940, [0x1E91E]); (0x1E941, [0x1E91F]); (0x1E942, [0x1E920]);
   (0x1E943, [0x1E921])].

(** Full lowercase mapping: every code point that [_PyUnicode_ToLowerFull]
    changes, with the one or two code points it becomes. *)
Definition to_lower_full : list (N * list N) :=
 [(0x41, [0x61]); (0x42, [0x62]); (0x43, [0x63]); (0x44, [0x64]); (0x45, [0x65]); (0x46, [0x66]);
   (0x47, [0x67]); (0x48, [0x68]); (0x49, [0x69]); (0x4A, [0x6A]); (0x4B, [0x6B]); (0x4C, [0x6C]);
   (0x4D, [0x6D]); (0x4E, [0x6E]); (0x4F, [0x6F]); (0x50, [0x70]); (0x51, [0x71]); (0x52, [0x72]);
   (0x53, [0x73]); (0x54, [0x74]); (0x55, [0x75]); (0x56, [0x76]); (0x57, [0x77]); (0x58, [0x78]);
   (0x59, [0x79]); (0x5A, [0x7A]); (0xC0, [0xE0]); (0xC1, [0xE1]); (0xC2, [0xE2]); (0xC3, [0xE3]);
   (0xC4, [0xE4]); (0xC5, [0xE5]); (0xC6, [0xE6]); (0xC7, [0xE7]); (0xC8, [0xE8]); (0xC9, [0xE9]);
   (0xCA, [0xEA]); (0xCB, [0xEB]); (0xCC, [0xEC]); (0xCD, [0xED]); (0xCE, [0xEE]); (0xCF, [0xEF]);
   (0xD0, [0xF0]); (0xD1, [0xF1]); (0xD2, [0xF2]); (0xD3, [0xF3]); (0xD4, [0xF4]); (0xD5, [0xF5]);
   (0xD6, [0xF6]); (0xD8, [0xF8]); (0xD9, [0xF9]); (0xDA, [0xFA]); (0xDB, [0xFB]); (0xDC, [0xFC]);
   (0xDD, [0xFD]); (0xDE, [0xFE]); (0x100, [0x101]); (0x102, [0x103]); (0x104, [0x105]); (0x106, [0x107]);
   (0x108, [0x109]); (0x10A, [0x10B]); (0x10C, [0x10D]); (0x10E, [0x10F]); (0x110, [0x111]); (0x112, [0x113]);
   (0x114, [0x115]); (0x116, [0x117]); (0x118, [0x119]); (0x11A, [0x11B]); (0x11C, [0x11D]); (0x11E, [0x11F]);
   (0x120, [0x121]); (0x122, [0x123]); (0x124, [0x125]); (0x126, [0x127]); (0x128, [0x129]); (0x12A, [0x12B]);
   (0x12C, [0x12D]); (0x12E, [0x12F]); (0x130, [0x69; 0x307]); (0x132, [0x133]); (0x134, [0x135]); (0x136, [0x137]);
   (0x139, [0x13A]); (0x13B, [0x13C]); (0x13D, [0x13E]); (0x13F, [0x140]); (0x141, [0x142]); (0x143, [0x144]);
   (0x145, [0x146]); (0x147, [0x148]); (0x14A, [0x14B]); (0x14C, [0x14D]); (0x14E, [0x14F]); (0x150, [0x151]);
   (0x152, [0x153]); (0x154, [0x155]); (0x156, [0x157]); (0x158, [0x159]); (0x15A, [0x15B]); (0x15C, [0x15D]);
   (0x15E, [0x15F]); (0x160, [0x161]); (0x162, [0x163]); (0x164, [0x165]); (0x166, [0x167]); (0x168, [0x169]);
   (0x16A, [0x16B]); (0x16C, [0x16D]); (0x16E, [0x16F]); (0x170, [0x171]); (0x172, [0x173]); (0x174, [0x175]);
   (0x176, [0x177]); (0x178, [0xFF]); (0x179, [0x17A]); (0x17B, [0x17C]); (0x17D, [0x17E]); (0x181, [0x253]);
   (0x182, [0x183]); (0x184, [0x185]); (0x186, [0x254]); (0x187, [0x188]); (0x189, [0x256]); (0x18A, [0x257]);
   (0x18B, [0x18C]); (0x18E, [0x1DD]); (0x18F, [0x259]); (0x190, [0x25B]); (0x191, [0x192]); (0x193, [0x260]);
   (0x194, [0x263]); (0x196, [0x269]); (0x197, [0x268]); (0x198, [0x199]); (0x19C, [0x26F]); (0x19D, [0x272]);
   (0x19F, [0x275]); (0x1A0, [0x1A1]); (0x1A2, [0x1A3]); (0x1A4, [0x1A5]); (0x1A6, [0x280]); (0x1A7, [0x1A8]);
   (0x1A9, [0x283]); (0x1AC, [0x1AD]); (0x1AE, [0x288]); (0x1AF, [0x1B0]); (0x1B1, [0x28A]); (0x1B2, [0x28B]);
   (0x1B3, [0x1B4]); (0x1B5, [0x1B6]); (0x1B7, [0x292]); (0x1B8, [0x1B9]); (0x1BC, [0x1BD]); (0x1C4, [0x1C6]);
   (0x1C5, [0x1C6]); (0x1C7, [0x1C9]); (0x1C8, [0x1C9]); (0x1CA, [0x1CC]); (0x1CB, [0x1CC]); (0x1CD, [0x1CE]);
   (0x1CF, [0x1D0]); (0x1D1, [0x1D2]); (0x1D3, [0x1D4]); (0x1D5, [0x1D6]); (0x1D7, [0x1D8]); (0x1D9, [0x1DA]);
   (0x1DB, [0x1DC]); (0x1DE, [0x1DF]); (0x1E0, [0x1E1]); (0x1E2, [0x1E3]); (0x1E4, [0x1E5]); (0x1E6, [0x1E7]);
   (0x1E8, [0x1E9]); (0x1EA, [0x1EB]); (0x1EC, [0x1ED]); (0x1EE, [0x1EF]); (0x1F1, [0x1F3]); (0x1F2, [0x1F3]);
   (0x1F4, [0x1F5]); (0x1F6, [0x195]); (0x1F7, [0x1BF]); (0x1F8, [0x1F9]); (0x1FA, [0x1FB]); (0x1FC, [0x1FD]);
   (0x1FE, [0x1FF]); (0x200, [0x201]); (0x202, [0x203]); (0x204, [0x205]); (0x206, [0x207]); (0x208, [0x209]);
   (0x20A, [0x20B]); (0x20C, [0x20D]); (0x20E, [0x20F]); (0x210, [0x211]); (0x212, [0x213]); (0x214, [0x215]);
   (0x216, [0x217]); (0x218, [0x219]); (0x21A, [0x21B]); (0x21C, [0x21D]); (0x21E, [0x21F]); (0x220, [0x19E]);
   (0x222, [0x223]); (0x224, [0x225]); (0x226, [0x227]); (0x228, [0x229]); (0x22A, [0x22B]); (0x22C, [0x22D]);
   (0x22E, [0x22F]); (0x230, [0x231]); (0x232, [0x233]); (0x23A, [0x2C65]); (0x23B, [0x23C]); (0x23D, [0x19A]);
   (0x23E, [0x2C66]); (0x241, [0x242]); (0x243, [0x180]); (0x244, [0x289]); (0x245, [0x28C]); (0x246, [0x247]);
   (0x248, [0x249]); (0x24A, [0x24B]); (0x24C, [0x24D]); (0x24E, [0x24F]); (0x370, [0x371]); (0x372, [0x373]);
   (0x376, [0x377]); (0x37F, [0x3F3]); (0x386, [0x3AC]); (0x388, [0x3AD]); (0x389, [0x3AE]); (0x38A, [0x3AF]);
   (0x38C, [0x3CC]); (0x38E, [0x3CD]); (0x38F, [0x3CE]); (0x391, [0x3B1]); (0x392, [0x3B2]); (0x393, [0x3B3]);
   (0x394, [0x3B4]); (0x395, [0x3B5]); (0x396, [0x3B6]); (0x397, [0x3B7]); (0x398, [0x3B8]); (0x399, [0x3B9]);
   (0x39A, [0x3BA]); (0x39B, [0x3BB]); (0x39C, [0x3BC]); (0x39D, [0x3BD]); (0x39E, [0x3BE]); (0x39F, [0x3BF]);
   (0x3A0, [0x3C0]); (0x3A1, [0x3C1]); (0x3A3, [0x3C3]); (0x3A4, [0x3C4]); (0x3A5, [0x3C5]); (0x3A6, [0x3C6]);
   (0x3A7, [0x3C7]); (0x3A8, [0x3C8]); (0x3A9, [0x3C9]); (0x3AA, [0x3CA]); (0x3AB, [0x3CB]); (0x3CF, [0x3D7]);
   (0x3D8, [0x3D9]); (0x3DA, [0x3DB]); (0x3DC, [0x3DD]); (0x3DE, [0x3DF]); (0x3E0, [0x3E1]); (0x3E2, [0x3E3]);
   (0x3E4, [0x3E5]); (0x3E6, [0x3E7]); (0x3E8, [0x3E9]); (0x3EA, [0x3EB]); (0x3EC, [0x3ED]); (0x3EE, [0x3EF]);
   (0x3F4, [0x3B8]); (0x3F7, [0x3F8]); (0x3F9, [0x3F2]); (0x3FA, [0x3FB]); (0x3FD, [0x37B]); (0x3FE, [0x37C]);
   (0x3FF, [0x37D]); (0x400, [0x450]); (0x401, [0x451]); (0x402, [0x452]); (0x403, [0x453]); (0x404, [0x454]);
   (0x405, [0x455]); (0x406, [0x456]); (0x407, [0x457]); (0x408, [0x458]); (0x409, [0x459]); (0x40A, [0x45A]);
   (0x40B, [0x45B]); (0x40C, [0x45C]); (0x40D, [0x45D]); (0x40E, [0x45E]); (0x40F, [0x45F]); (0x410, [0x430]);
   (0x411, [0x431]); (0x412, [0x432]); (0x413, [0x433]); (0x414, [0x434]); (0x415, [0x435]); (0x416, [0x436]);
   (0x417, [0x437]); (0x418, [0x438]); (0x419, [0x439]); (0x41A, [0x43A]); (0x41B, [0x43B]); (0x41C, [0x43C]);
   (0x41D, [0x43D]); (0x41E, [0x43E]); (0x41F, [0x43F]); (0x420, [0x440]); (0x421, [0x441]); (0x422, [0x442]);
   (0x423, [0x443]); (0x424, [0x444]); (0x425, [0x445]); (0x426, [0x446]); (0x427, [0x447]); (0x428, [0x448]);
   (0x429, [0x449]); (0x42A, [0x44A]); (0x42B, [0x44B]); (0x42C, [0x44C]); (0x42D, [0x44D]); (0x42E, [0x44E]);
   (0x42F, [0x44F]); (0x460, [0x461]); (0x462, [0x463]); (0x464, [0x465]); (0x466, [0x467]); (0x468, [0x469]);
   (0x46A, [0x46B]); (0x46C, [0x46D]); (0x46E, [0x46F]); (0x470, [0x471]); (0x472, [0x473]); (0x474, [0x475]);
   (0x476, [0x477]); (0x478, [0x479]); (0x47A, [0x47B]); (0x47C, [0x47D]); (0x47E, [0x47F]); (0x480, [0x481]);
   (0x48A, [0x48B]); (0x48C, [0x48D]); (0x48E, [0x48F]); (0x490, [0x491]); (0x492, [0x493]); (0x494, [0x495]);
   (0x496, [0x497]); (0x498, [0x499]); (0x49A, [0x49B]); (0x49C, [0x49D]); (0x49E, [0x49F]); (0x4A0, [0x4A1]);
   (0x4A2, [0x4A3]); (0x4A4, [0x4A5]); (0x4A6, [0x4A7]); (0x4A8, [0x4A9]); (0x4AA, [0x4AB]); (0x4AC, [0x4AD]);
   (0x4AE, [0x4AF]); (0x4B0, [0x4B1]); (0x4B2, [0x4B3]); (0x4B4, [0x4B5]); (0x4B6, [0x4B7]); (0x4B8, [0x4B9]);
   (0x4BA, [0x4BB]); (0x4BC, [0x4BD]); (0x4BE, [0x4BF]); (0x4C0, [0x4CF]); (0x4C1, [0x4C2]); (0x4C3, [0x4C4]);
   (0x4C5, [0x4C6]); (0x4C7, [0x4C8]); (0x4C9, [0x4CA]); (0x4CB, [0x4CC]); (0x4CD, [0x4CE]); (0x4D0, [0x4D1]);
   (0x4D2, [0x4D3]); (0x4D4, [0x4D5]); (0x4D6, [0x4D7]); (0x4D8, [0x4D9]); (0x4DA, [0x4DB]); (0x4DC, [0x4DD]);
   (0x4DE, [0x4DF]); (0x4E0, [0x4E1]); (0x4E2, [0x4E3]); (0x4E4, [0x4E5]); (0x4E6, [0x4E7]); (0x4E8, [0x4E9]);
   (0x4EA, [0x4EB]); (0x4EC, [0x4ED]); (0x4EE, [0x4EF]); (0x4F0, [0x4F1]); (0x4F2, [0x4F3]); (0x4F4, [0x4F5]);
   (0x4F6, [0x4F7]); (0x4F8, [0x4F9]); (0x4FA, [0x4FB]); (0x4FC, [0x4FD]); (0x4FE, [0x4FF]); (0x500, [0x501]);
   (0x502, [0x503]); (0x504, [0x505]); (0x506, [0x507]); (0x508, [0x509]); (0x50A, [0x50B]); (0x50C, [0x50D]);
   (0x50E, [0x50F]); (0x510, [0x511]); (0x512, [0x513]); (0x514, [0x515]); (0x516, [0x517]); (0x518, [0x519]);
   (0x51A, [0x51B]); (0x51C, [0x51D]); (0x51E, [0x51F]); (0x520, [0x521]); (0x522, [0x523]); (0x524, [0x525]);
   (0x526, [0x527]); (0x528, [0x529]); (0x52A, [0x52B]); (0x52C, [0x52D]); (0x52E, [0x52F]); (0x531, [0x561]);
   (0x532, [0x562]); (0x533, [0x563]); (0x534, [0x564]); (0x535, [0x565]); (0x536, [0x566]); (0x537, [0x567]);
   (0x538, [0x568]); (0x539, [0x569]); (0x53A, [0x56A]); (0x53B, [0x56B]); (0x53C, [0x56C]); (0x53D, [0x56D]);
   (0x53E, [0x56E]); (0x53F, [0x56F]); (0x540, [0x570]); (0x541, [0x571]); (0x542, [0x572]); (0x543, [0x573]);
   (0x544, [0x574]); (0x545, [0x575]); (0x546, [0x576]); (0x547, [0x577]); (0x548, [0x578]); (0x549, [0x579]);
   (0x54A, [0x57A]); (0x54B, [0x57B]); (0x54C, [0x57C]); (0x54D, [0x57D]); (0x54E, [0x57E]); (0x54F, [0x57F]);
   (0x550, [0x580]); (0x551, [0x581]); (0x552, [0x582]); (0x553, [0x583]); (0x554, [0x584]); (0x555, [0x585]);
   (0x556, [0x586]); (0x10A0, [0x2D00]); (0x10A1, [0x2D01]); (0x10A2, [0x2D02]); (0x10A3, [0x2D03]); (0x10A4, [0x2D04]);
   (0x10A5, [0x2D05]); (0x10A6, [0x2D06]); (0x10A7, [0x2D07]); (0x10A8, [0x2D08]); (0x10A9, [0x2D09]); (0x10AA, [0x2D0A]);
   (0x10AB, [0x2D0B]); (0x10AC, [0x2D0C]); (0x10AD, [0x2D0D]); (0x10AE, [0x2D0E]); (0x10AF, [0x2D0F]); (0x10B0, [0x2D10]);
   (0x10B1, [0x2D11]); (0x10B2, [0x2D12]); (0x10B3, [0x2D13]); (0x10B4, [0x2D14]); (0x10B5, [0x2D15]); (0x10B6, [0x2D16]);
   (0x10B7, [0x2D17]); (0x10B8, [0x2D18]); (0x10B9, [0x2D19]); (0x10BA, [0x2D1A]); (0x10BB, [0x2D1B]); (0x10BC, [0x2D1C]);
   (0x10BD, [0x2D1D]); (0x10BE, [0x2D1E]); (0x10BF, [0x2D1F]); (0x10C0, [0x2D20]); (0x10C1, [0x2D21]); (0x10C2, [0x2D22]);
   (0x10C3, [0x2D23]); (0x10C4, [0x2D24]); (0x10C5, [0x2D25]); (0x10C7, [0x2D27]); (0x10CD, [0x2D2D]); (0x13A0, [0xAB70]);
   (0x13A1, [0xAB71]); (0x13A2, [0xAB72]); (0x13A3, [0xAB73]); (0x13A4, [0xAB74]); (0x13A5, [0xAB75]); (0x13A6, [0xAB76]);
   (0x13A7, [0xAB77]); (0x13A8, [0xAB78]); (0x13A9, [0xAB79]); (0x13AA, [0xAB7A]); (0x13AB, [0xAB7B]); (0x13AC, [0xAB7C]);
   (0x13AD, [0xAB7D]); (0x13AE, [0xAB7E]); (0x13AF, [0xAB7F]); (0x13B0, [0xAB80]); (0x13B1, [0xAB81]); (0x13B2, [0xAB82]);
   (0x13B3, [0xAB83]); (0x13B4, [0xAB84]); (0x13B5, [0xAB85]); (0x13B6, [0xAB86]); (0x13B7, [0xAB87]); (0x13B8, [0xAB88]);
   (0x13B9, [0xAB89]); (0x13BA, [0xAB8A]); (0x13BB, [0xAB8B]); (0x13BC, [0xAB8C]); (0x13BD, [0xAB8D]); (0x13BE, [0xAB8E]);
   (0x13BF, [0xAB8F]); (0x13C0, [0xAB90]); (0x13C1, [0xAB91]); (0x13C2, [0xAB92]); (0x13C3, [0xAB93]); (0x13C4, [0xAB94]);
   (0x13C5, [0xAB95]); (0x13C6, [0xAB96]); (0x13C7, [0xAB97]); (0x13C8, [0xAB98]); (0x13C9, [0xAB99]); (0x13CA, [0xAB9A]);
   (0x13CB, [0xAB9B]); (0x13CC, [0xAB9C]); (0x13CD, [0xAB9D]); (0x13CE, [0xAB9E]); (0x13CF, [0xAB9F]); (0x13D0, [0xABA0]);
   (0x13D1, [0xABA1]); (0x13D2, [0xABA2]); (0x13D3, [0xABA3]); (0x13D4, [0xABA4]); (0x13D5, [0xABA5]); (0x13D6, [0xABA6]);
   (0x13D7, [0xABA7]); (0x13D8, [0xABA8]); (0x13D9, [0xABA9]); (0x13DA, [0xABAA]); (0x13DB, [0xABAB]); (0x13DC, [0xABAC]);
   (0x13DD, [0xABAD]); (0x13DE, [0xABAE]); (0x13DF, [0xABAF]); (0x13E0, [0xABB0]); (0x13E1, [0xABB1]); (0x13E2, [0xABB2]);
   (0x13E3, [0xABB3]); (0x13E4, [0xABB4]); (0x13E5, [0xABB5]); (0x13E6, [0xABB6]); (0x13E7, [0xABB7]); (0x13E8, [0xABB8]);
   (0x13E9, [0xABB9]); (0x13EA, [0xABBA]); (0x13EB, [0xABBB]); (0x13EC, [0xABBC]); (0x13ED, [0xABBD]); (0x13EE, [0xABBE]);
   (0x13EF, [0xABBF]); (0x13F0, [0x13F8]); (0x13F1, [0x13F9]); (0x13F2, [0x13FA]); (0x13F3, [0x13FB]); (0x13F4, [0x13FC]);
   (0x13F5, [0x13FD]); (0x1C90, [0x10D0]); (0x1C91, [0x10D1]); (0x1C92, [0x10D2]); (0x1C93, [0x10D3]); (0x1C94, [0x10D4]);
   (0x1C95, [0x10D5]); (0x1C96, [0x10D6]); (0x1C97, [0x10D7]); (0x1C98, [0x10D8]); (0x1C99, [0x10D9]); (0x1C9A, [0x10DA]);
   (0x1C9B, [0x10DB]); (0x1C9C, [0x10DC]); (0x1C9D, [0x10DD]); (0x1C9E, [0x10DE]); (0x1C9F, [0x10DF]); (0x1CA0, [0x10E0]);
   (0x1CA1, [0x10E1]); (0x1CA2, [0x10E2]); (0x1CA3, [0x10E3]); (0x1CA4, [0x10E4]); (0x1CA5, [0x10E5]); (0x1CA6, [0x10E6]);
   (0x1CA7, [0x10E7]); (0x1CA8, [0x10E8]); (0x1CA9, [0x10E9]); (0x1CAA, [0x10EA]); (0x1CAB, [0x10EB]); (0x1CAC, [0x10EC]);
   (0x1CAD, [0x10ED]); (0x1CAE, [0x10EE]); (0x1CAF, [0x10EF]); (0x1CB0, [0x10F0]); (0x1CB1, [0x10F1]); (0x1CB2, [0x10F2]);
   (0x1CB3, [0x10F3]); (0x1CB4, [0x10F4]); (0x1CB5, [0x10F5]); (0x1CB6, [0x10F6]); (0x1CB7, [0x10F7]); (0x1CB8, [0x10F8]);
   (0x1CB9, [0x10F9]); (0x1CBA, [0x10FA]); (0x1CBD, [0x10FD]); (0x1CBE, [0x10FE]); (0x1CBF, [0x10FF]); (0x1E00, [0x1E01]);
   (0x1E02, [0x1E03]); (0x1E04, [0x1E05]); (0x1E06, [0x1E07]); (0x1E08, [0x1E09]); (0x1E0A, [0x1E0B]); (0x1E0C, [0x1E0D]);
   (0x1E0E, [0x1E0F]); (0x1E10, [0x1E11]); (0x1E12, [0x1E13]); (0x1E14, [0x1E15]); (0x1E16, [0x1E17]); (0x1E18, [0x1E19]);
   (0x1E1A, [0x1E1B]); (0x1E1C, [0x1E1D]); (0x1E1E, [0x1E1F]); (0x1E20, [0x1E21]); (0x1E22, [0x1E23]); (0x1E24, [0x1E25]);
   (0x1E26, [0x1E27]); (0x1E28, [0x1E29]); (0x1E2A, [0x1E2B]); (0x1E2C, [0x1E2D]); (0x1E2E, [0x1E2F]); (0x1E30, [0x1E31]);
   (0x1E32, [0x1E33]); (0x1E34, [0x1E35]); (0x1E36, [0x1E37]); (0x1E38, [0x1E39]); (0x1E3A, [0x1E3B]); (0x1E3C, [0x1E3D]);
   (0x1E3E, [0x1E3F]); (0x1E40, [0x1E41]); (0x1E42, [0x1E43]); (0x1E44, [0x1E45]); (0x1E46, [0x1E47]); (0x1E48, [0x1E49]);
   (0x1E4A, [0x1E4B]); (0x1E4C, [0x1E4D]); (0x1E4E, [0x1E4F]); (0x1E50, [0x1E51]); (0x1E52, [0x1E53]); (0x1E54, [0x1E55]);
   (0x1E56, [0x1E57]); (0x1E58, [0x1E59]); (0x1E5A, [0x1E5B]); (0x1E5C, [0x1E5D]); (0x1E5E, [0x1E5F]); (0x1E60, [0x1E61]);
   (0x1E62, [0x1E63]); (0x1E64, [0x1E65]); (0x1E66, [0x1E67]); (0x1E68, [0x1E69]); (0x1E6A, [0x1E6B]); (0x1E6C, [0x1E6D]);
   (0x1E6E, [0x1E6F]); (0x1E70, [0x1E71]); (0x1E72, [0x1E73]); (0x1E74, [0x1E75]); (0x1E76, [0x1E77]); (0x1E78, [0x1E79]);
   (0x1E7A, [0x1E7B]); (0x1E7C, [0x1E7D]); (0x1E7E, [0x1E7F]); (0x1E80, [0x1E81]); (0x1E82, [0x1E83]); (0x1E84, [0x1E85]);
   (0x1E86, [0x1E87]); (0x1E88, [0x1E89]); (0x1E8A, [0x1E8B]); (0x1E8C, [0x1E8D]); (0x1E8E, [0x1E8F]); (0x1E90, [0x1E91]);
   (0x1E92, [0x1E93]); (0x1E94, [0x1E95]); (0x1E9E, [0xDF]); (0x1EA0, [0x1EA1]); (0x1EA2, [0x1EA3]); (0x1EA4, [0x1EA5]);
   (0x1EA6, [0x1EA7]); (0x1EA8, [0x1EA9]); (0x1EAA, [0x1EAB]); (0x1EAC, [0x1EAD]); (0x1EAE, [0x1EAF]); (0x1EB0, [0x1EB1]);
   (0x1EB2, [0x1EB3]); (0x1EB4, [0x1EB5]); (0x1EB6, [0x1EB7]); (0x1EB8, [0x1EB9]); (0x1EBA, [0x1EBB]); (0x1EBC, [0x1EBD]);
   (0x1EBE, [0x1EBF]); (0x1EC0, [0x1EC1]); (0x1EC2, [0x1EC3]); (0x1EC4, [0x1EC5]); (0x1EC6, [0x1EC7]); (0x1EC8, [0x1EC9]);
   (0x1ECA, [0x1ECB]); (0x1ECC, [0x1ECD]); (0x1ECE, [0x1ECF]); (0x1ED0, [0x1ED1]); (0x1ED2, [0x1ED3]); (0x1ED4, [0x1ED5]);
   (0x1ED6, [0x1ED7]); (0x1ED8, [0x1ED9]); (0x1EDA, [0x1EDB]); (0x1EDC, [0x1EDD]); (0x1EDE, [0x1EDF]); (0x1EE0, [0x1EE1]);
   (0x1EE2, [0x1EE3]); (0x1EE4, [0x1EE5]); (0x1EE6, [0x1EE7]); (0x1EE8, [0x1EE9]); (0x1EEA, [0x1EEB]); (0x1EEC, [0x1EED]);
   (0x1EEE, [0x1EEF]); (0x1EF0, [0x1EF1]); (0x1EF2, [0x1EF3]); (0x1EF4, [0x1EF5]); (0x1EF6, [0x1EF7]); (0x1EF8, [0x1EF9]);
   (0x1EFA, [0x1EFB]); (0x1EFC, [0x1EFD]); (0x1EFE, [0x1EFF]); (0x1F08, [0x1F00]); (0x1F09, [0x1F01]); (0x1F0A, [0x1F02]);
   (0x1F0B, [0x1F03]); (0x1F0C, [0x1F04]); (0x1F0D, [0x1F05]); (0x1F0E, [0x1F06]); (0x1F0F, [0x1F07]); (0x1F18, [0x1F10]);
   (0x1F19, [0x1F11]); (0x1F1A, [0x1F12]); (0x1F1B, [0x1F13]); (0x1F1C, [0x1F14]); (0x1F1D, [0x1F15]); (0x1F28, [0x1F20]);
   (0x1F29, [0x1F21]); (0x1F2A, [0x1F22]); (0x1F2B, [0x1F23]); (0x1F2C, [0x1F24]); (0x1F2D, [0x1F25]); (0x1F2E, [0x1F26]);
   (0x1F2F, [0x1F27]); (0x1F38, [0x1F30]); (0x1F39, [0x1F31]); (0x1F3A, [0x1F32]); (0x1F3B, [0x1F33]); (0x1F3C, [0x1F34]);
   (0x1F3D, [0x1F35]); (0x1F3E, [0x1F36]); (0x1F3F, [0x1F37]); (0x1F48, [0x1F40]); (0x1F49, [0x1F41]); (0x1F4A, [0x1F42]);
   (0x1F4B, [0x1F43]); (0x1F4C, [0x1F44]); (0x1F4D, [0x1F45]); (0x1F59, [0x1F51]); (0x1F5B, [0x1F53]); (0x1F5D, [0x1F55]);
   (0x1F5F, [0x1F57]); (0x1F68, [0x1F60]); (0x1F69, [0x1F61]); (0x1F6A, [0x1F62]); (0x1F6B, [0x1F63]); (0x1F6C, [0x1F64]);
   (0x1F6D, [0x1F65]); (0x1F6E, [0x1F66]); (0x1F6F, [0x1F67]); (0x1F88, [0x1F80]); (0x1F89, [0x1F81]); (0x1F8A, [0x1F82]);
   (0x1F8B, [0x1F83]); (0x1F8C, [0x1F84]); (0x1F8D, [0x1F85]); (0x1F8E, [0x1F86]); (0x1F8F, [0x1F87]); (0x1F98, [0x1F90]);
   (0x1F99, [0x1F91]); (0x1F9A, [0x1F92]); (0x1F9B, [0x1F93]); (0x1F9C, [0x1F94]); (0x1F9D, [0x1F95]); (0x1F9E, [0x1F96]);
   (0x1F9F, [0x1F97]); (0x1FA8, [0x1FA0]); (0x1FA9, [0x1FA1]); (0x1FAA, [0x1FA2]); (0x1FAB, [0x1FA3]); (0x1FAC, [0x1FA4]);
   (0x1FAD, [0x1FA5]); (0x1FAE, [0x1FA6]); (0x1FAF, [0x1FA7]); (0x1FB8, [0x1FB0]); (0x1FB9, [0x1FB1]); (0x1FBA, [0x1F70]);
   (0x1FBB, [0x1F71]); (0x1FBC, [0x1FB3]); (0x1FC8, [0x1F72]); (0x1FC9, [0x1F73]); (0x1FCA, [0x1F74]); (0x1FCB, [0x1F75]);
   (0x1FCC, [0x1FC3]); (0x1FD8, [0x1FD0]); (0x1FD9, [0x1FD1]); (0x1FDA, [0x1F76]); (0x1FDB, [0x1F77]); (0x1FE8, [0x1FE0]);
   (0x1FE9, [0x1FE1]); (0x1FEA, [0x1F7A]); (0x1FEB, [0x1F7B]); (0x1FEC, [0x1FE5]); (0x1FF8, [0x1F78]); (0x1FF9, [0x1F79]);
   (0x1FFA, [0x1F7C]); (0x1FFB, [0x1F7D]); (0x1FFC, [0x1FF3]); (0x2126, [0x3C9]); (0x212A, [0x6B]); (0x212B, [0xE5]);
   (0x2132, [0x214E]); (0x2160, [0x2170]); (0x2161, [0x2171]); (0x2162, [0x2172]); (0x2163, [0x2173]); (0x2164, [0x2174]);
   (0x2165, [0x2175]); (0x2166, [0x2176]); (0x2167, [0x2177]); (0x2168, [0x2178]); (0x2169, [0x2179]); (0x216A, [0x217A]);
   (0x216B, [0x217B]); (0x216C, [0x217C]); (0x216D, [0x217D]); (0x216E, [0x217E]); (0x216F, [0x217F]); (0x2183, [0x2184]);
   (0x24B6, [0x24D0]); (0x24B7, [0x24D1]); (0x24B8, [0x24D2]); (0x24B9, [0x24D3]); (0x24BA, [0x24D4]); (0x24BB, [0x24D5]);
   (0x24BC, [0x24D6]); (0x24BD, [0x24D7]); (0x24BE, [0x24D8]); (0x24BF, [0x24D9]); (0x24C0, [0x24DA]); (0x24C1, [0x24DB]);
   (0x24C2, [0x24DC]); (0x24C3, [0x24DD]); (0x24C4, [0x24DE]); (0x24C5, [0x24DF]); (0x24C6, [0x24E0]); (0x24C7, [0x24E1]);
   (0x24C8, [0x24E2]); (0x24C9, [0x24E3]); (0x24CA, [0x24E4]); (0x24CB, [0x24E5]); (0x24CC, [0x24E6]); (0x24CD, [0x24E7]);
   (0x24CE, [0x24E8]); (0x24CF, [0x24E9]); (0x2C00, [0x2C30]); (0x2C01, [0x2C31]); (0x2C02, [0x2C32]); (0x2C03, [0x2C33]);
   (0x2C04, [0x2C34]); (0x2C05, [0x2C35]); (0x2C06, [0x2C36]); (0x2C07, [0x2C37]); (0x2C08, [0x2C38]); (0x2C09, [0x2C39]);
   (0x2C0A, [0x2C3A]); (0x2C0B, [0x2C3B]); (0x2C0C, [0x2C3C]); (0x2C0D, [0x2C3D]); (0x2C0E, [0x2C3E]); (0x2C0F, [0x2C3F]);
   (0x2C10, [0x2C40]); (0x2C11, [0x2C41]); (0x2C12, [0x2C42]); (0x2C13, [0x2C43]); (0x2C14, [0x2C44]); (0x2C15, [0x2C45]);
   (0x2C16, [0x2C46]); (0x2C17, [0x2C47]); (0x2C18, [0x2C48]); (0x2C19, [0x2C49]); (0x2C1A, [0x2C4A]); (0x2C1B, [0x2C4B]);
   (0x2C1C, [0x2C4C]); (0x2C1D, [0x2C4D]); (0x2C1E, [0x2C4E]); (0x2C1F, [0x2C4F]); (0x2C20, [0x2C50]); (0x2C21, [0x2C51]);
   (0x2C22, [0x2C52]); (0x2C23, [0x2C53]); (0x2C24, [0x2C54]); (0x2C25, [0x2C55]); (0x2C26, [0x2C56]); (0x2C27, [0x2C57]);
   (0x2C28, [0x2C58]); (0x2C29, [0x2C59]); (0x2C2A, [0x2C5A]); (0x2C2B, [0x2C5B]); (0x2C2C, [0x2C5C]); (0x2C2D, [0x2C5D]);
   (0x2C2E, [0x2C5E]); (0x2C2F, [0x2C5F]); (0x2C60, [0x2C61]); (0x2C62, [0x26B]); (0x2C63, [0x1D7D]); (0x2C64, [0x27D]);
   (0x2C67, [0x2C68]); (0x2C69, [0x2C6A]); (0x2C6B, [0x2C6C]); (0x2C6D, [0x251]); (0x2C6E, [0x271]); (0x2C6F, [0x250]);
   (0x2C70, [0x252]); (0x2C72, [0x2C73]); (0x2C75, [0x2C76]); (0x2C7E, [0x23F]); (0x2C7F, [0x240]); (0x2C80, [0x2C81]);
   (0x2C82, [0x2C83]); (0x2C84, [0x2C85]); (0x2C86, [0x2C87]); (0x2C88, [0x2C89]); (0x2C8A, [0x2C8B]); (0x2C8C, [0x2C8D]);
   (0x2C8E, [0x2C8F]); (0x2C90, [0x2C91]); (0x2C92, [0x2C93]); (0x2C94, [0x2C95]); (0x2C96, [0x2C97]); (0x2C98, [0x2C99]);
   (0x2C9A, [0x2C9B]); (0x2C9C, [0x2C9D]); (0x2C9E, [0x2C9F]); (0x2CA0, [0x2CA1]); (0x2CA2, [0x2CA3]); (0x2CA4, [0x2CA5]);
   (0x2CA6, [0x2CA7]); (0x2CA8, [0x2CA9]); (0x2CAA, [0x2CAB]); (0x2CAC, [0x2CAD]); (0x2CAE, [0x2CAF]); (0x2CB0, [0x2CB1]);
   (0x2CB2, [0x2CB3]); (0x2CB4, [0x2CB5]); (0x2CB6, [0x2CB7]); (0x2CB8, [0x2CB9]); (0x2CBA, [0x2CBB]); (0x2CBC, [0x2CBD]);
   (0x2CBE, [0x2CBF]); (0x2CC0, [0x2CC1]); (0x2CC2, [0x2CC3]); (0x2CC4, [0x2CC5]); (0x2CC6, [0x2CC7]); (0x2CC8, [0x2CC9]);
   (0x2CCA, [0x2CCB]); (0x2CCC, [0x2CCD]); (0x2CCE, [0x2CCF]); (0x2CD0, [0x2CD1]); (0x2CD2, [0x2CD3]); (0x2CD4, [0x2CD5]);
   (0x2CD6, [0x2CD7]); (0x2CD8, [0x2CD9]); (0x2CDA, [0x2CDB]); (0x2CDC, [0x2CDD]); (0x2CDE, [0x2CDF]); (0x2CE0, [0x2CE1]);
   (0x2CE2, [0x2CE3]); (0x2CEB, [0x2CEC]); (0x2CED, [0x2CEE]); (0x2CF2, [0x2CF3]); (0xA640, [0xA641]); (0xA642, [0xA643]);
   (0xA644, [0xA645]); (0xA646, [0xA647]); (0xA648, [0xA649]); (0xA64A, [0xA64B]); (0xA64C, [0xA64D]); (0xA64E, [0xA64F]);
   (0xA650, [0xA651]); (0xA652, [0xA653]); (0xA654, [0xA655]); (0xA656, [0xA657]); (0xA658, [0xA659]); (0xA65A, [0xA65B]);
   (0xA65C, [0xA65D]); (0xA65E, [0xA65F]); (0xA660, [0xA661]); (0xA662, [0xA663]); (0xA664, [0xA665]); (0xA666, [0xA667]);
   (0xA668, [0xA669]); (0xA66A, [0xA66B]); (0xA66C, [0xA66D]); (0xA680, [0xA681]); (0xA682, [0xA683]); (0xA684, [0xA685]);
   (0xA686, [0xA687]); (0xA688, [0xA689]); (0xA68A, [0xA68B]); (0xA68C, [0xA68D]); (0xA68E, [0xA68F]); (0xA690, [0xA691]);
   (0xA692, [0xA693]); (0xA694, [0xA695]); (0xA696, [0xA697]); (0xA698, [0xA699]); (0xA69A, [0xA69B]); (0xA722, [0xA723]);
   (0xA724, [0xA725]); (0xA726, [0xA727]); (0xA728, [0xA729]); (0xA72A, [0xA72B]); (0xA72C, [0xA72D]); (0xA72E, [0xA72F]);
   (0xA732, [0xA733]); (0xA734, [0xA735]); (0xA736, [0xA737]); (0xA738, [0xA739]); (0xA73A, [0xA73B]); (0xA73C, [0xA73D]);
   (0xA73E, [0xA73F]); (0xA740, [0xA741]); (0xA742, [0xA743]); (0xA744, [0xA745]); (0xA746, [0xA747]); (0xA748, [0xA749]);
   (0xA74A, [0xA74B]); (0xA74C, [0xA74D]); (0xA74E, [0xA74F]); (0xA750, [0xA751]); (0xA752, [0xA753]); (0xA754, [0xA755]);
   (0xA756, [0xA757]); (0xA758, [0xA759]); (0xA75A, [0xA75B]); (0xA75C, [0xA75D]); (0xA75E, [0xA75F]); (0xA760, [0xA761]);
   (0xA762, [0xA763]); (0xA764, [0xA765]); (0xA766, [0xA767]); (0xA768, [0xA769]); (0xA76A, [0xA76B]); (0xA76C, [0xA76D]);
   (0xA76E, [0xA76F]); (0xA779, [0xA77A]); (0xA77B, [0xA77C]); (0xA77D, [0x1D79]); (0xA77E, [0xA77F]); (0xA780, [0xA781]);
   (0xA782, [0xA783]); (0xA784, [0xA785]); (0xA786, [0xA787]); (0xA78B, [0xA78C]); (0xA78D, [0x265]); (0xA790, [0xA791]);
   (0xA792, [0xA793]); (0xA796, [0xA797]); (0xA798, [0xA799]); (0xA79A, [0xA79B]); (0xA79C, [0xA79D]); (0xA79E, [0xA79F]);
   (0xA7A0, [0xA7A1]); (0xA7A2, [0xA7A3]); (0xA7A4, [0xA7A5]); (0xA7A6, [0xA7A7]); (0xA7A8, [0xA7A9]); (0xA7AA, [0x266]);
   (0xA7AB, [0x25C]); (0xA7AC, [0x261]); (0xA7AD, [0x26C]); (0xA7AE, [0x26A]); (0xA7B0, [0x29E]); (0xA7B1, [0x287]);
   (0xA7B2, [0x29D]); (0xA7B3, [0xAB53]); (0xA7B4, [0xA7B5]); (0xA7B6, [0xA7B7]); (0xA7B8, [0xA7B9]); (0xA7BA, [0xA7BB]);
   (0xA7BC, [0xA7BD]); (0xA7BE, [0xA7BF]); (0xA7C0, [0xA7C1]); (0xA7C2, [0xA7C3]); (0xA7C4, [0xA794]); (0xA7C5, [0x282]);
   (0xA7C6, [0x1D8E]); (0xA7C7, [0xA7C8]); (0xA7C9, [0xA7CA]); (0xA7D0, [0xA7D1]); (0xA7D6, [0xA7D7]); (0xA7D8, [0xA7D9]);
   (0xA7F5, [0xA7F6]); (0xFF21, [0xFF41]); (0xFF22, [0xFF42]); (0xFF23, [0xFF43]); (0xFF24, [0xFF44]); (0xFF25, [0xFF45]);
   (0xFF26, [0xFF46]); (0xFF27, [0xFF47]); (0xFF28, [0xFF48]); (0xFF29, [0xFF49]); (0xFF2A, [0xFF4A]); (0xFF2B, [0xFF4B]);
   (0xFF2C, [0xFF4C]); (0xFF2D, [0xFF4D]); (0xFF2E, [0xFF4E]); (0xFF2F, [0xFF4F]); (0xFF30, [0xFF50]); (0xFF31, [0xFF51]);
   (0xFF32, [0xFF52]); (0xFF33, [0xFF53]); (0xFF34, [0xFF54]); (0xFF35, [0xFF55]); (0xFF36, [0xFF56]); (0xFF37, [0xFF57]);
   (0xFF38, [0xFF58]); (0xFF39, [0xFF59]); (0xFF3A, [0xFF5A]); (0x10400, [0x10428]); (0x10401, [0x10429]); (0x10402, [0x1042A]);
   (0x10403, [0x1042B]); (0x10404, [0x1042C]); (0x10405, [0x1042D]); (0x10406, [0x1042E]); (0x10407, [0x1042F]); (0x10408, [0x10430]);
   (0x10409, [0x10431]); (0x1040A, [0x10432]); (0x1040B, [0x10433]); (0x1040C, [0x10434]); (0x1040D, [0x10435]); (0x1040E, [0x10436]);
   (0x1040F, [0x10437]); (0x10410, [0x10438]); (0x10411, [0x10439]); (0x10412, [0x1043A]); (0x10413, [0x1043B]); (0x10414, [0x1043C]);
   (0x10415, [0x1043D]); (0x10416, [0x1043E]); (0x10417, [0x1043F]); (0x10418, [0x10440]); (0x10419, [0x10441]); (0x1041A, [0x10442]);
   (0x1041B, [0x10443]); (0x1041C, [0x10444]); (0x1041D, [0x10445]); (0x1041E, [0x10446]); (0x1041F, [0x10447]); (0x10420, [0x10448]);
   (0x10421, [0x10449]); (0x10422, [0x1044A]); (0x10423, [0x1044B]); (0x10424, [0x1044C]); (0x10425, [0x1044D]); (0x10426, [0x1044E]);
   (0x10427, [0x1044F]); (0x104B0, [0x104D8]); (0x104B1, [0x104D9]); (0x104B2, [0x104DA]); (0x104B3, [0x104DB]); (0x104B4, [0x104DC]);
   (0x104B5, [0x104DD]); (0x104B6, [0x104DE]); (0x104B7, [0x104DF]); (0x104B8, [0x104E0]); (0x104B9, [0x104E1]); (0x104BA, [0x104E2]);
   (0x104BB, [0x104E3]); (0x104BC, [0x104E4]); (0x104BD, [0x104E5]); (0x104BE, [0x104E6]); (0x104BF, [0x104E7]); (0x104C0, [0x104E8]);
   (0x104C1, [0x104E9]); (0x104C2, [0x104EA]); (0x104C3, [0x104EB]); (0x104C4, [0x104EC]); (0x104C5, [0x104ED]); (0x104C6, [0x104EE]);
   (0x104C7, [0x104EF]); (0x104C8, [0x104F0]); (0x104C9, [0x104F1]); (0x104CA, [0x104F2]); (0x104CB, [0x104F3]); (0x104CC, [0x104F4]);
   (0x104CD, [0x104F5]); (0x104CE, [0x104F6]); (0x104CF, [0x104F7]); (0x104D0, [0x104F8]); (0x104D1, [0x104F9]); (0x104D2, [0x104FA]);
   (0x104D3, [0x104FB]); (0x10570, [0x10597]); (0x10571, [0x10598]); (0x10572, [0x10599]); (0x10573, [0x1059A]); (0x10574, [0x1059B]);
   (0x10575, [0x1059C]); (0x10576, [0x1059D]); (0x10577, [0x1059E]); (0x10578, [0x1059F]); (0x10579, [0x105A0]); (0x1057A, [0x105A1]);
   (0x1057C, [0x105A3]); (0x1057D, [0x105A4]); (0x1057E, [0x105A5]); (0x1057F, [0x105A6]); (0x10580, [0x105A7]); (0x10581, [0x105A8]);
   (0x10582, [0x105A9]); (0x10583, [0x105AA]); (0x10584, [0x105AB]); (0x10585, [0x105AC]); (0x10586, [0x105AD]); (0x10587, [0x105AE]);
   (0x10588, [0x105AF]); (0x10589, [0x105B0]); (0x1058A, [0x105B1]); (0x1058C, [0x105B3]); (0x1058D, [0x105B4]); (0x1058E, [0x105B5]);
   (0x1058F, [0x105B6]); (0x10590, [0x105B7]); (0x10591, [0x105B8]); (0x10592, [0x105B9]); (0x10594, [0x105BB]); (0x10595, [0x105BC]);
   (0x10C80, [0x10CC0]); (0x10C81, [0x10CC1]); (0x10C82, [0x10CC2]); (0x10C83, [0x10CC3]); (0x10C84, [0x10CC4]); (0x10C85, [0x10CC5]);
   (0x10C86, [0x10CC6]); (0x10C87, [0x10CC7]); (0x10C88, [0x10CC8]); (0x10C89, [0x10CC9]); (0x10C8A, [0x10CCA]); (0x10C8B, [0x10CCB]);
   (0x10C8C, [0x10CCC]); (0x10C8D, [0x10CCD]); (0x10C8E, [0x10CCE]); (0x10C8F, [0x10CCF]); (0x10C90, [0x10CD0]); (0x10C91, [0x10CD1]);
   (0x10C92, [0x10CD2]); (0x10C93, [0x10CD3]); (0x10C94, [0x10CD4]); (0x10C95, [0x10CD5]); (0x10C96, [0x10CD6]); (0x10C97, [0x10CD7]);
   (0x10C98, [0x10CD8]); (0x10C99, [0x10CD9]); (0x10C9A, [0x10CDA]); (0x10C9B, [0x10CDB]); (0x10C9C, [0x10CDC]); (0x10C9D, [0x10CDD]);
   (0x10C9E, [0x10CDE]); (0x10C9F, [0x10CDF]); (0x10CA0, [0x10CE0]); (0x10CA1, [0x10CE1]); (0x10CA2, [0x10CE2]); (0x10CA3, [0x10CE3]);
   (0x10CA4, [0x10CE4]); (0x10CA5, [0x10CE5]); (0x10CA6, [0x10CE6]); (0x10CA7, [0x10CE7]); (0x10CA8, [0x10CE8]); (0x10CA9, [0x10CE9]);
   (0x10CAA, [0x10CEA]); (0x10CAB, [0x10CEB]); (0x10CAC, [0x10CEC]); (0x10CAD, [0x10CED]); (0x10CAE, [0x10CEE]); (0x10CAF, [0x10CEF]);
   (0x10CB0, [0x10CF0]); (0x10CB1, [0x10CF1]); (0x10CB2, [0x10CF2]); (0x118A0, [0x118C0]); (0x118A1, [0x118C1]); (0x118A2, [0x118C2]);
   (0x118A3, [0x118C3]); (0x118A4, [0x118C4]); (0x118A5, [0x118C5]); (0x118A6, [0x118C6]); (0x118A7, [0x118C7]); (0x118A8, [0x118C8]);
   (0x118A9, [0x118C9]); (0x118AA, [0x118CA]); (0x118AB, [0x118CB]); (0x118AC, [0x118CC]); (0x118AD, [0x118CD]); (0x118AE, [0x118CE]);
   (0x118AF, [0x118CF]); (0x118B0, [0x118D0]); (0x118B1, [0x118D1]); (0x118B2, [0x118D2]); (0x118B3, [0x118D3]); (0x118B4, [0x118D4]);
   (0x118B5, [0x118D5]); (0x118B6, [0x118D6]); (0x118B7, [0x118D7]); (0x118B8, [0x118D8]); (0x118B9, [0x118D9]); (0x118BA, [0x118DA]);
   (0x118BB, [0x118DB]); (0x118BC, [0x118DC]); (0x118BD, [0x118DD]); (0x118BE, [0x118DE]); (0x118BF, [0x118DF]); (0x16E40, [0x16E60]);
   (0x16E41, [0x16E61]); (0x16E42, [0x16E62]); (0x16E43, [0x16E63]); (0x16E44, [0x16E64]); (0x16E45, [0x16E65]); (0x16E46, [0x16E66]);
   (0x16E47, [0x16E67]); (0x16E48, [0x16E68]); (0x16E49, [0x16E69]); (0x16E4A, [0x16E6A]); (0x16E4B, [0x16E6B]); (0x16E4C, [0x16E6C]);
   (0x16E4D, [0x16E6D]); (0x16E4E, [0x16E6E]); (0x16E4F, [0x16E6F]); (0x16E50, [0x16E70]); (0x16E51, [0x16E71]); (0x16E52, [0x16E72]);
   (0x16E53, [0x16E73]); (0x16E54, [0x16E74]); (0x16E55, [0x16E75]); (0x16E56, [0x16E76]); (0x16E57, [0x16E77]); (0x16E58, [0x16E78]);
   (0x16E59, [0x16E79]); (0x16E5A, [0x16E7A]); (0x16E5B, [0x16E7B]); (0x16E5C, [0x16E7C]); (0x16E5D, [0x16E7D]); (0x16E5E, [0x16E7E]);
   (0x16E5F, [0x16E7F]); (0x1E900, [0x1E922]); (0x1E901, [0x1E923]); (0x1E902, [0x1E924]); (0x1E903, [0x1E925]); (0x1E904, [0x1E926]);
   (0x1E905, [0x1E927]); (0x1E906, [0x1E928]); (0x1E907, [0x1E929]); (0x1E908, [0x1E92A]); (0x1E909, [0x1E92B]); (0x1E90A, [0x1E92C]);
   (0x1E90B, [0x1E92D]); (0x1E90C, [0x1E92E]); (0x1E90D, [0x1E92F]); (0x1E90E, [0x1E930]); (0x1E90F, [0x1E931]); (0x1E910, [0x1E932]);
   (0x1E911, [0x1E933]); (0x1E912, [0x1E934]); (0x1E913, [0x1E935]); (0x1E914, [0x1E936]); (0x1E915, [0x1E937]); (0x1E916, [0x1E938]);
   (0x1E917, [0x1E939]); (0x1E918, [0x1E93A]); (0x1E919, [0x1E93B]); (0x1E91A, [0x1E93C]); (0x1E91B, [0x1E93D]); (0x1E91C, [0x1E93E]);
   (0x1E91D, [0x1E93F]); (0x1E91E, [0x1E940]); (0x1E91F, [0x1E941]); (0x1E920, [0x1E942]); (0x1E921, [0x1E943])].

(** The code points with the Cased property, as inclusive ranges. *)
Definition cased_ranges : list (N * N) :=
 [(0x41, 0x5A); (0x61, 0x7A); (0xAA, 0xAA); (0xB5, 0xB5); (0xBA, 0xBA); (0xC0, 0xD6); (0xD8, 0xF6); (0xF8, 0x1BA);
   (0x1BC, 0x1BF); (0x1C4, 0x293); (0x295, 0x2B8); (0x2C0, 0x2C1); (0x2E0, 0x2E4); (0x345, 0x345); (0x370, 0x373); (0x376, 0x377);
   (0x37A, 0x37D); (0x37F, 0x37F); (0x386, 0x386); (0x388, 0x38A); (0x38C, 0x38C); (0x38E, 0x3A1); (0x3A3, 0x3F5); (0x3F7, 0x481);
   (0x48A, 0x52F); (0x531, 0x556); (0x560, 0x588); (0x10A0, 0x10C5); (0x10C7, 0x10C7); (0x10CD, 0x10CD); (0x10D0, 0x10FA); (0x10FD, 0x10FF);
   (0x13A0, 0x13F5); (0x13F8, 0x13FD); (0x1C80, 0x1C88); (0x1C90, 0x1CBA); (0x1CBD, 0x1CBF); (0x1D00, 0x1DBF); (0x1E00, 0x1F15); (0x1F18, 0x1F1D);
   (0x1F20, 0x1F45); (0x1F48, 0x1F4D); (0x1F50, 0x1F57); (0x1F59, 0x1F59); (0x1F5B, 0x1F5B); (0x1F5D, 0x1F5D); (0x1F5F, 0x1F7D); (0x1F80, 0x1FB4);
   (0x1FB6, 0x1FBC); (0x1FBE, 0x1FBE); (0x1FC2, 0x1FC4); (0x1FC6, 0x1FCC); (0x1FD0, 0x1FD3); (0x1FD6, 0x1FDB); (0x1FE0, 0x1FEC); (0x1FF2, 0x1FF4);
   (0x1FF6, 0x1FFC); (0x2071, 0x2071); (0x207F, 0x207F); (0x2090, 0x209C); (0x2102, 0x2102); (0x2107, 0x2107); (0x210A, 0x2113); (0x2115, 0x2115);
   (0x2119, 0x211D); (0x2124, 0x2124); (0x2126, 0x2126); (0x2128, 0x2128); (0x212A, 0x212D); (0x212F, 0x2134); (0x2139, 0x2139); (0x213C, 0x213F);
   (0x2145, 0x2149); (0x214E, 0x214E); (0x2160, 0x217F); (0x2183, 0x2184); (0x24B6, 0x24E9); (0x2C00, 0x2CE4); (0x2CEB, 0x2CEE); (0x2CF2, 0x2CF3);
   (0x2D00, 0x2D25); (0x2D27, 0x2D27); (0x2D2D, 0x2D2D); (0xA640, 0xA66D); (0xA680, 0xA69D); (0xA722, 0xA787); (0xA78B, 0xA78E); (0xA790, 0xA7CA);
   (0xA7D0, 0xA7D1); (0xA7D3, 0xA7D3); (0xA7D5, 0xA7D9); (0xA7F5, 0xA7F6); (0xA7F8, 0xA7FA); (0xAB30, 0xAB5A); (0xAB5C, 0xAB68); (0xAB70, 0xABBF);
   (0xFB00, 0xFB06); (0xFB13, 0xFB17); (0xFF21, 0xFF3A); (0xFF41, 0xFF5A); (0x10400, 0x1044F); (0x104B0, 0x104D3); (0x104D8, 0x104FB); (0x10570, 0x1057A);
   (0x1057C, 0x1058A); (0x1058C, 0x10592); (0x10594, 0x10595); (0x10597, 0x105A1); (0x105A3, 0x105B1); (0x105B3, 0x105B9); (0x105BB, 0x105BC); (0x10780, 0x10780);
   (0x10783, 0x10785); (0x10787, 0x107B0); (0x107B2, 0x107BA); (0x10C80, 0x10CB2); (0x10CC0, 0x10CF2); (0x118A0, 0x118DF); (0x16E40, 0x16E7F); (0x1D400, 0x1D454);
   (0x1D456, 0x1D49C); (0x1D49E, 0x1D49F); (0x1D4A2, 0x1D4A2); (0x1D4A5, 0x1D4A6); (0x1D4A9, 0x1D4AC); (0x1D4AE, 0x1D4B9); (0x1D4BB, 0x1D4BB); (0x1D4BD, 0x1D4C3);
   (0x1D4C5, 0x1D505); (0x1D507, 0x1D50A); (0x1D50D, 0x1D514); (0x1D516, 0x1D51C); (0x1D51E, 0x1D539); (0x1D53B, 0x1D53E); (0x1D540, 0x1D544); (0x1D546, 0x1D546);
   (0x1D54A, 0x1D550); (0x1D552, 0x1D6A5); (0x1D6A8, 0x1D6C0); (0x1D6C2, 0x1D6DA); (0x1D6DC, 0x1D6FA); (0x1D6FC, 0x1D714); (0x1D716, 0x1D734); (0x1D736, 0x1D74E);
   (0x1D750, 0x1D76E); (0x1D770, 0x1D788); (0x1D78A, 0x1D7A8); (0x1D7AA, 0x1D7C2); (0x1D7C4, 0x1D7CB); (0x1DF00, 0x1DF09); (0x1DF0B, 0x1DF1E); (0x1E900, 0x1E943);
   (0x1F130, 0x1F149); (0x1F150, 0x1F169); (0x1F170, 0x1F189)].

(** The code points with the Case_Ignorable property, as inclusive ranges. *)
Definition case_ignorable_ranges : list (N * N) :=
 [(0x27, 0x27); (0x2E, 0x2E); (0x3A, 0x3A); (0x5E, 0x5E); (0x60, 0x60); (0xA8, 0xA8); (0xAD, 0xAD); (0xAF, 0xAF);
   (0xB4, 0xB4); (0xB7, 0xB8); (0x2B0, 0x36F); (0x374, 0x375); (0x37A, 0x37A); (0x384, 0x385); (0x387, 0x387); (0x483, 0x489);
   (0x559, 0x559); (0x55F, 0x55F); (0x591, 0x5BD); (0x5BF, 0x5BF); (0x5C1, 0x5C2); (0x5C4, 0x5C5); (0x5C7, 0x5C7); (0x5F4, 0x5F4);
   (0x600, 0x605); (0x610, 0x61A); (0x61C, 0x61C); (0x640, 0x640); (0x64B, 0x65F); (0x670, 0x670); (0x6D6, 0x6DD); (0x6DF, 0x6E8);
   (0x6EA, 0x6ED); (0x70F, 0x70F); (0x711, 0x711); (0x730, 0x74A); (0x7A6, 0x7B0); (0x7EB, 0x7F5); (0x7FA, 0x7FA); (0x7FD, 0x7FD);
   (0x816, 0x82D); (0x859, 0x85B); (0x888, 0x888); (0x890, 0x891); (0x898, 0x89F); (0x8C9, 0x902); (0x93A, 0x93A); (0x93C, 0x93C);
   (0x941, 0x948); (0x94D, 0x94D); (0x951, 0x957); (0x962, 0x963); (0x971, 0x971); (0x981, 0x981); (0x9BC, 0x9BC); (0x9C1, 0x9C4);
   (0x9CD, 0x9CD); (0x9E2, 0x9E3); (0x9FE, 0x9FE); (0xA01, 0xA02); (0xA3C, 0xA3C); (0xA41, 0xA42); (0xA47, 0xA48); (0xA4B, 0xA4D);
   (0xA51, 0xA51); (0xA70, 0xA71); (0xA75, 0xA75); (0xA81, 0xA82); (0xABC, 0xABC); (0xAC1, 0xAC5); (0xAC7, 0xAC8); (0xACD, 0xACD);
   (0xAE2, 0xAE3); (0xAFA, 0xAFF); (0xB01, 0xB01); (0xB3C, 0xB3C); (0xB3F, 0xB3F); (0xB41, 0xB44); (0xB4D, 0xB4D); (0xB55, 0xB56);
   (0xB62, 0xB63); (0xB82, 0xB82); (0xBC0, 0xBC0); (0xBCD, 0xBCD); (0xC00, 0xC00); (0xC04, 0xC04); (0xC3C, 0xC3C); (0xC3E, 0xC40);
   (0xC46, 0xC48); (0xC4A, 0xC4D); (0xC55, 0xC56); (0xC62, 0xC63); (0xC81, 0xC81); (0xCBC, 0xCBC); (0xCBF, 0xCBF); (0xCC6, 0xCC6);
   (0xCCC, 0xCCD); (0xCE2, 0xCE3); (0xD00, 0xD01); (0xD3B, 0xD3C); (0xD41, 0xD44); (0xD4D, 0xD4D); (0xD62, 0xD63); (0xD81, 0xD81);
   (0xDCA, 0xDCA); (0xDD2, 0xDD4); (0xDD6, 0xDD6); (0xE31, 0xE31); (0xE34, 0xE3A); (0xE46, 0xE4E); (0xEB1, 0xEB1); (0xEB4, 0xEBC);
   (0xEC6, 0xEC6); (0xEC8, 0xECD); (0xF18, 0xF19); (0xF35, 0xF35); (0xF37, 0xF37); (0xF39, 0xF39); (0xF71, 0xF7E); (0xF80, 0xF84);
   (0xF86, 0xF87); (0xF8D, 0xF97); (0xF99, 0xFBC); (0xFC6, 0xFC6); (0x102D, 0x1030); (0x1032, 0x1037); (0x1039, 0x103A); (0x103D, 0x103E);
   (0x1058, 0x1059); (0x105E, 0x1060); (0x1071, 0x1074); (0x1082, 0x1082); (0x1085, 0x1086); (0x108D, 0x108D); (0x109D, 0x109D); (0x10FC, 0x10FC);
   (0x135D, 0x135F); (0x1712, 0x1714); (0x1732, 0x1733); (0x1752, 0x1753); (0x1772, 0x1773); (0x17B4, 0x17B5); (0x17B7, 0x17BD); (0x17C6, 0x17C6);
   (0x17C9, 0x17D3); (0x17D7, 0x17D7); (0x17DD, 0x17DD); (0x180B, 0x180F); (0x1843, 0x1843); (0x1885, 0x1886); (0x18A9, 0x18A9); (0x1920, 0x1922);
   (0x1927, 0x1928); (0x1932, 0x1932); (0x1939, 0x193B); (0x1A17, 0x1A18); (0x1A1B, 0x1A1B); (0x1A56, 0x1A56); (0x1A58, 0x1A5E); (0x1A60, 0x1A60);
   (0x1A62, 0x1A62); (0x1A65, 0x1A6C); (0x1A73, 0x1A7C); (0x1A7F, 0x1A7F); (0x1AA7, 0x1AA7); (0x1AB0, 0x1ACE); (0x1B00, 0x1B03); (0x1B34, 0x1B34);
   (0x1B36, 0x1B3A); (0x1B3C, 0x1B3C); (0x1B42, 0x1B42); (0x1B6B, 0x1B73); (0x1B80, 0x1B81); (0x1BA2, 0x1BA5); (0x1BA8, 0x1BA9); (0x1BAB, 0x1BAD);
   (0x1BE6, 0x1BE6); (0x1BE8, 0x1BE9); (0x1BED, 0x1BED); (0x1BEF, 0x1BF1); (0x1C2C, 0x1C33); (0x1C36, 0x1C37); (0x1C78, 0x1C7D); (0x1CD0, 0x1CD2);
   (0x1CD4, 0x1CE0); (0x1CE2, 0x1CE8); (0x1CED, 0x1CED); (0x1CF4, 0x1CF4); (0x1CF8, 0x1CF9); (0x1D2C, 0x1D6A); (0x1D78, 0x1D78); (0x1D9B, 0x1DFF);
   (0x1FBD, 0x1FBD); (0x1FBF, 0x1FC1); (0x1FCD, 0x1FCF); (0x1FDD, 0x1FDF); (0x1FED, 0x1FEF); (0x1FFD, 0x1FFE); (0x200B, 0x200F); (0x2018, 0x2019);
   (0x2024, 0x2024); (0x2027, 0x2027); (0x202A, 0x202E); (0x2060, 0x2064); (0x2066, 0x206F); (0x2071, 0x2071); (0x207F, 0x207F); (0x2090, 0x209C);
   (0x20D0, 0x20F0); (0x2C7C, 0x2C7D); (0x2CEF, 0x2CF1); (0x2D6F, 0x2D6F); (0x2D7F, 0x2D7F); (0x2DE0, 0x2DFF); (0x2E2F, 0x2E2F); (0x3005, 0x3005);
   (0x302A, 0x302D); (0x3031, 0x3035); (0x303B, 0x303B); (0x3099, 0x309E); (0x30FC, 0x30FE); (0xA015, 0xA015); (0xA4F8, 0xA4FD); (0xA60C, 0xA60C);
   (0xA66F, 0xA672); (0xA674, 0xA67D); (0xA67F, 0xA67F); (0xA69C, 0xA69F); (0xA6F0, 0xA6F1); (0xA700, 0xA721); (0xA770, 0xA770); (0xA788, 0xA78A);
   (0xA7F2, 0xA7F4); (0xA7F8, 0xA7F9); (0xA802, 0xA802); (0xA806, 0xA806); (0xA80B, 0xA80B); (0xA825, 0xA826); (0xA82C, 0xA82C); (0xA8C4, 0xA8C5);
   (0xA8E0, 0xA8F1); (0xA8FF, 0xA8FF); (0xA926, 0xA92D); (0xA947, 0xA951); (0xA980, 0xA982); (0xA9B3, 0xA9B3); (0xA9B6, 0xA9B9); (0xA9BC, 0xA9BD);
   (0xA9CF, 0xA9CF); (0xA9E5, 0xA9E6); (0xAA29, 0xAA2E); (0xAA31, 0xAA32); (0xAA35, 0xAA36); (0xAA43, 0xAA43); (0xAA4C, 0xAA4C); (0xAA70, 0xAA70);
   (0xAA7C, 0xAA7C); (0xAAB0, 0xAAB0); (0xAAB2, 0xAAB4); (0xAAB7, 0xAAB8); (0xAABE, 0xAABF); (0xAAC1, 0xAAC1); (0xAADD, 0xAADD); (0xAAEC, 0xAAED);
   (0xAAF3, 0xAAF4); (0xAAF6, 0xAAF6); (0xAB5B, 0xAB5F); (0xAB69, 0xAB6B); (0xABE5, 0xABE5); (0xABE8, 0xABE8); (0xABED, 0xABED); (0xFB1E, 0xFB1E);
   (0xFBB2, 0xFBC2); (0xFE00, 0xFE0F); (0xFE13, 0xFE13); (0xFE20, 0xFE2F); (0xFE52, 0xFE52); (0xFE55, 0xFE55); (0xFEFF, 0xFEFF); (0xFF07, 0xFF07);
   (0xFF0E, 0xFF0E); (0xFF1A, 0xFF1A); (0xFF3E, 0xFF3E); (0xFF40, 0xFF40); (0xFF70, 0xFF70); (0xFF9E, 0xFF9F); (0xFFE3, 0xFFE3); (0xFFF9, 0xFFFB);
   (0x101FD, 0x101FD); (0x102E0, 0x102E0); (0x10376, 0x1037A); (0x10780, 0x10785); (0x10787, 0x107B0); (0x107B2, 0x107BA); (0x10A01, 0x10A03); (0x10A05, 0x10A06);
   (0x10A0C, 0x10A0F); (0x10A38, 0x10A3A); (0x10A3F, 0x10A3F); (0x10AE5, 0x10AE6); (0x10D24, 0x10D27); (0x10EAB, 0x10EAC); (0x10F46, 0x10F50); (0x10F82, 0x10F85);
   (0x11001, 0x11001); (0x11038, 0x11046); (0x11070, 0x11070); (0x11073, 0x11074); (0x1107F, 0x11081); (0x110B3, 0x110B6); (0x110B9, 0x110BA); (0x110BD, 0x110BD);
   (0x110C2, 0x110C2); (0x110CD, 0x110CD); (0x11100, 0x11102); (0x11127, 0x1112B); (0x1112D, 0x11134); (0x11173, 0x11173); (0x11180, 0x11181); (0x111B6, 0x111BE);
   (0x111C9, 0x111CC); (0x111CF, 0x111CF); (0x1122F, 0x11231); (0x11234, 0x11234); (0x11236, 0x11237); (0x1123E, 0x1123E); (0x112DF, 0x112DF); (0x112E3, 0x112EA);
   (0x11300, 0x11301); (0x1133B, 0x1133C); (0x11340, 0x11340); (0x11366, 0x1136C); (0x11370, 0x11374); (0x11438, 0x1143F); (0x11442, 0x11444); (0x11446, 0x11446);
   (0x1145E, 0x1145E); (0x114B3, 0x114B8); (0x114BA, 0x114BA); (0x114BF, 0x114C0); (0x114C2, 0x114C3); (0x115B2, 0x115B5); (0x115BC, 0x115BD); (0x115BF, 0x115C0);
   (0x115DC, 0x115DD); (0x11633, 0x1163A); (0x1163D, 0x1163D); (0x1163F, 0x11640); (0x116AB, 0x116AB); (0x116AD, 0x116AD); (0x116B0, 0x116B5); (0x116B7, 0x116B7);
   (0x1171D, 0x1171F); (0x11722, 0x11725); (0x11727, 0x1172B); (0x1182F, 0x11837); (0x11839, 0x1183A); (0x1193B, 0x1193C); (0x1193E, 0x1193E); (0x11943, 0x11943);
   (0x119D4, 0x119D7); (0x119DA, 0x119DB); (0x119E0, 0x119E0); (0x11A01, 0x11A0A); (0x11A33, 0x11A38); (0x11A3B, 0x11A3E); (0x11A47, 0x11A47); (0x11A51, 0x11A56);
   (0x11A59, 0x11A5B); (0x11A8A, 0x11A96); (0x11A98, 0x11A99); (0x11C30, 0x11C36); (0x11C38, 0x11C3D); (0x11C3F, 0x11C3F); (0x11C92, 0x11CA7); (0x11CAA, 0x11CB0);
   (0x11CB2, 0x11CB3); (0x11CB5, 0x11CB6); (0x11D31, 0x11D36); (0x11D3A, 0x11D3A); (0x11D3C, 0x11D3D); (0x11D3F, 0x11D45); (0x11D47, 0x11D47); (0x11D90, 0x11D91);
   (0x11D95, 0x11D95); (0x11D97, 0x11D97); (0x11EF3, 0x11EF4); (0x13430, 0x13438); (0x16AF0, 0x16AF4); (0x16B30, 0x16B36); (0x16B40, 0x16B43); (0x16F4F, 0x16F4F);
   (0x16F8F, 0x16F9F); (0x16FE0, 0x16FE1); (0x16FE3, 0x16FE4); (0x1AFF0, 0x1AFF3); (0x1AFF5, 0x1AFFB); (0x1AFFD, 0x1AFFE); (0x1BC9D, 0x1BC9E); (0x1BCA0, 0x1BCA3);
   (0x1CF00, 0x1CF2D); (0x1CF30, 0x1CF46); (0x1D167, 0x1D169); (0x1D173, 0x1D182); (0x1D185, 0x1D18B); (0x1D1AA, 0x1D1AD); (0x1D242, 0x1D244); (0x1DA00, 0x1DA36);
   (0x1DA3B, 0x1DA6C); (0x1DA75, 0x1DA75); (0x1DA84, 0x1DA84); (0x1DA9B, 0x1DA9F); (0x1DAA1, 0x1DAAF); (0x1E000, 0x1E006); (0x1E008, 0x1E018); (0x1E01B, 0x1E021);
   (0x1E023, 0x1E024); (0x1E026, 0x1E02A); (0x1E130, 0x1E13D); (0x1E2AE, 0x1E2AE); (0x1E2EC, 0x1E2EF); (0x1E8D0, 0x1E8D6); (0x1E944, 0x1E94B); (0x1F3FB, 0x1F3FF);
   (0xE0001, 0xE0001); (0xE0020, 0xE007F); (0xE0100, 0xE01EF)].

(** The code points for which [str.isspace] holds. *)
Definition whitespace : list N :=
  [0x9; 0xA; 0xB; 0xC; 0xD; 0x1C; 0x1D; 0x1E; 0x1F; 0x20; 0x85; 0xA0; 0x1680;
   0x2000; 0x2001; 0x2002; 0x2003; 0x2004; 0x2005; 0x2006; 0x2007; 0x2008;
   0x2009; 0x200A; 0x2028; 0x2029; 0x202F; 0x205F; 0x3000].

Fixpoint lookup (c : N) (t : list (N * list N)) : option (list N) :=
  match t with
  | [] => None
  | (k, v) :: t' => if c =? k then Some v else lookup c t'
  end.

Fixpoint in_ranges (c : N) (rs : list (N * N)) : bool :=
  match rs with
  | [] => false
  | (lo, hi) :: rs' => ((lo <=? c) && (c <=? hi)) || in_ranges c rs'
  end.

(** [_PyUnicode_ToUpperFull]: a code point without an entry maps to itself. *)
Definition ToUpperFull (c : N) : list N :=
  match lookup c to_upper_full with Some u => u | None => [c] end.

(** [_PyUnicode_ToLowerFull]. *)
Definition ToLowerFull (c : N) : list N :=
  match lookup c to_lower_full with Some l => l | None => [c] end.

Definition IsCased (c : N) : bool := in_ranges c cased_ranges.
Definition IsCaseIgnorable (c : N) : bool := in_ranges c case_ignorable_ranges.
Definition IsWhitespace (c : N) : bool := existsb (N.eqb c) whitespace.

(** The first code point of [s] that is not case-ignorable, if any: the loops
    of [handle_capital_sigma]. *)
Fixpoint skip_case_ignorable (s : str) : option N :=
  match s with
  | [] => None
  | c :: s' => if IsCaseIgnorable c then skip_case_ignorable s' else Some c
  end.

(** [handle_capital_sigma]: U+03A3 at position [i] becomes the final sigma
    U+03C2 when a cased code point precedes it and none follows it, case-ignorable
    code points being skipped on both sides. [before] is [data[:i]] read
    backwards from [i - 1], [after] is [data[i+1:]]. *)
Definition handle_capital_sigma (before after : str) : N :=
  let final_sigma :=
    match skip_case_ignorable before with
    | Some c => IsCased c
    | None => false
    end in
  let final_sigma :=
    if final_sigma then
      match skip_case_ignorable after with
      | Some c => negb (IsCased c)
      | None => true
      end
    else false in
  if final_sigma then 0x3C2 else 0x3C3.

(** [lower_ucs4]. *)
Definition lower_ucs4 (before : str) (c : N) (after : str) : list N :=
  if c =? 0x3A3 then [handle_capital_sigma before after] else ToLowerFull c.

(** [do_lower]: the loop of [do_upper_or_lower] with [lower] set; [before]
    holds the code points already read, the last one first. *)
Fixpoint do_lower (before s : str) : str :=
  match s with
  | [] => []
  | c :: s' => lower_ucs4 before c s' ++ do_lower (c :: before) s'
  end.

(** [do_upper]: the same loop with [lower] clear. *)
Fixpoint do_upper (s : str) : str :=
  match s with
  | [] => []
  | c :: s' => ToUpperFull c ++ do_upper s'
  end.

(** A string in which U+03A3 does not occur. *)
Definition sigma_free (s : str) : bool :=
  forallb (fun c => negb (c =? 0x3A3)) s.

(** A string that the lowercase table maps to itself. *)
Definition lower_fixed (s : str) : bool :=
  str_eqb (flat_map ToLowerFull s) s.

End Unicode.

(** [s.upper()], [s.lower()] and [s.isspace()]. *)
Definition str_upper (s : str) : str := Unicode.do_upper s.
Definition str_lower (s : str) : str := Unicode.do_lower [] s.
Definition str_isspace (s : str) : bool :=
  match s with
  | [] => false
  | _ => forallb Unicode.IsWhitespace s
  end.


(** ** Python values *)

(** The values that [json.load] builds: [None], [bool], [int], [float], [str],
    [list] and [dict] with [str] keys. A [dict] keeps its items in insertion
    order, which is the order [json.dumps] writes them in. *)
#[warning="-register-all"]
Inductive value : Type :=
| VNone
| VBool (b : bool)
| VInt (z : Z)
| VFloat (f : spec_float)
| VStr (s : str)
| VList (l : list value)
| VDict (d : list (str * value)).

(** [type(v).__name__]. *)
Definition type_name (v : value) : str :=
  match v with
  | VNone => "NoneType"
  | VBool _ => "bool"
  | VInt _ => "int"
  | VFloat _ => "float"
  | VStr _ => "str"
  | VList _ => "list"
  | VDict _ => "dict"
  end.

(** [bool(v)], the truth value that [not message] negates. *)
Definition truthy (v : value) : bool :=
  match v with
  | VNone => false
  | VBool b => b
  | VInt z => negb (Z.eqb z 0)
  | VFloat (S754_zero _) => false
  | VFloat _ => true
  | VStr [] => false
  | VStr _ => true
  | VList [] => false
  | VList _ => true
  | VDict [] => false
  | VDict _ => true
  end.

(** [v == lit] for a [str] literal: a value of another type is never equal
    to a [str]. *)
Definition eq_str (v : value) (lit : str) : bool :=
  match v with
  | VStr s => str_eqb s lit
  | _ => false
  end.

(** The item of a [dict] under a key. *)
Fixpoint dict_lookup (key : str) (d : list (str * value)) : option value :=
  match d with
  | [] => None
  | (k, v) :: d' => if str_eqb key k then Some v else dict_lookup key d'
  end.

(** One item of a [dict] display, [key: v]. *)
Notation "key '|->' v" := (pair (key : str) v) (at level 70, no associativity).

(** [dict.get(key, default)] on the items [d]. *)
Definition dict_get (key : str) (d : list (str * value)) (default : value)
  : value :=
  match dict_lookup key d with
  | Some v => v
  | None => default
  end.

(** ** Exceptions *)

(** An exception: the name of its class, the names of the classes it derives
    from, and [str(e)]. *)
Record exception : Type := mkException {
  exc_class : str;
  exc_bases : list str;
  exc_str : str
}.

(** [isinstance(e, cls)], which decides whether [except cls] catches [e]. *)
Definition isinstance (e : exception) (cls : str) : bool :=
  str_eqb (exc_class e) cls || existsb (str_eqb cls) (exc_bases e).

(** A list of literals. *)
Definition str_list (names : list string) : list str :=
  map str_of_string names.

Definition ValueError (msg : str) : exception :=
  mkException "ValueError" (str_list ["Exception"; "BaseException"]) msg.

Definition AttributeError (msg : str) : exception :=
  mkException "AttributeError" (str_list ["Exception"; "BaseException"]) msg.

(** [UnicodeDecodeError], which reading standard input raises on bytes that are
    not UTF-8, derives from [ValueError] through [UnicodeError]. *)
Definition UnicodeDecodeError (msg : str) : exception :=
  mkException "UnicodeDecodeError"
    (str_list ["UnicodeError"; "ValueError"; "Exception"; "BaseException"]) msg.

(** [json.JSONDecodeError] derives from [ValueError]. *)
Definition JSONDecodeError (msg : str) : exception :=
  mkException "JSONDecodeError"
    (str_list ["ValueError"; "Exception"; "BaseException"]) msg.

(** The exception of an attribute that the type of [v] does not have. *)
Definition no_attribute (v : value) (attr : str) : exception :=
  AttributeError
    ([39%N] +++ type_name v +++ [39%N] +++ " object has no attribute "
     +++ [39%N] +++ attr +++ [39%N]).

(** ** Computations *)

(** How a piece of code ends: with a value, with an exception, or in
    [sys.exit]. *)
Inductive result (A : Type) : Type :=
| Return (a : A)
| Raise (e : exception)
| SysExit (code : Z).
Arguments Return {A} a.
Arguments Raise {A} e.
Arguments SysExit {A} code.

(** A computation threads standard output, the list of the lines printed so
    far. *)
Definition M (A : Type) : Type := list str -> result A * list str.

Definition ret {A} (a : A) : M A := fun out => (Return a, out).

Definition bind {A B} (c : M A) (k : A -> M B) : M B :=
  fun out =>
    match c out with
    | (Return a, out') => k a out'
    | (Raise e, out') => (Raise e, out')
    | (SysExit code, out') => (SysExit code, out')
    end.

Definition raise {A} (e : exception) : M A := fun out => (Raise e, out).

Definition sys_exit (code : Z) : M unit := fun out => (SysExit code, out).

(** [print(line)]. *)
Definition print (line : str) : M unit := fun out => (Return tt, out ++ [line]).

Notation "x <- c ;; k" := (bind c (fun x => k))
  (at level 61, c at next level, right associativity).
Notation "c ;;; k" := (bind c (fun _ => k))
  (at level 61, right associativity).

(** [try: body except ...]: [handlers e] is the body of the first [except]
    clause that matches [e], if one does. *)
Definition try_except (body : M unit) (handlers : exception -> option (M unit))
  : M unit :=
  fun out =>
    match body out with
    | (Raise e, out') =>
        match handlers e with
        | Some handler => handler out'
        | None => (Raise e, out')
        end
    | r => r
    end.

(** [obj.get(key, default)]: only a [dict] has the method. *)
Definition get (obj : value) (key : str) (default : value) : M value :=
  match obj with
  | VDict d => ret (dict_get key d default)
  | _ => raise (no_attribute obj "get")
  end.

(** What [json.load(sys.stdin)] did. *)
Inductive loaded : Type :=
| Decoded (v : value)
| LoadError (e : exception).

Definition json_load (stdin : loaded) : M value :=
  match stdin with
  | Decoded v => ret v
  | LoadError e => raise e
  end.

(** How the process ends: with an exit status, or with the traceback of an
    exception that nothing caught. *)
Inductive termination : Type :=
| Exit (status : Z)
| Traceback (e : exception).

(** ** [json.dumps] *)

Definition hex_digit (n : N) : N :=
  if (n <? 10)%N then (48 + n)%N else (87 + n)%N.

(** ['{0:04x}'.format(n)] for [n < 0x10000]. *)
Definition hex4 (n : N) : str :=
  [hex_digit (N.shiftr n 12 mod 16); hex_digit (N.shiftr n 8 mod 16);
   hex_digit (N.shiftr n 4 mod 16); hex_digit (n mod 16)].

(** The replacement of one code point in [py_encode_basestring_ascii]:
    [ESCAPE_DCT] first, then the [\uXXXX] forms; the code points from space to
    tilde other than the quote and the backslash stay. *)
Definition escape_ascii (c : N) : str :=
  if (c =? 0x5C)%N then [0x5C; 0x5C]%N
  else if (c =? 0x22)%N then [0x5C; 0x22]%N
  else if (c =? 0x08)%N then "\b"
  else if (c =? 0x0C)%N then "\f"
  else if (c =? 0x0A)%N then "\n"
  else if (c =? 0x0D)%N then "\r"
  else if (c =? 0x09)%N then "\t"
  else if ((0x20 <=? c) && (c <=? 0x7E))%N then [c]
  else if (c <? 0x10000)%N then "\u" +++ hex4 c
  else
    let n := (c - 0x10000)%N in
    let s1 := N.lor 0xD800 (N.land (N.shiftr n 10) 0x3FF) in
    let s2 := N.lor 0xDC00 (N.land n 0x3FF) in
    "\u" +++ hex4 s1 +++ "\u" +++ hex4 s2.

Definition encode_basestring_ascii (s : str) : str :=
  [0x22%N] +++ flat_map escape_ascii s +++ [0x22%N].

(** [int.__repr__]. *)
Definition int_repr (z : Z) : str :=
  NilZero.string_of_int (Z.to_int z).

Section Runtime.

(** [float.__repr__] and [str.__repr__] of CPython. *)
Variable float_repr : spec_float -> str.
Variable str_repr : str -> str.

(** [floatstr] of [json.encoder]. *)
Definition floatstr (f : spec_float) : str :=
  match f with
  | S754_nan => "NaN"
  | S754_infinity false => "Infinity"
  | S754_infinity true => "-Infinity"
  | _ => float_repr f
  end.

(** [json.dumps(v)] with the default settings: [ensure_ascii] set, items
    separated by [", "] and keys from values by [": "]. *)
Fixpoint json_dumps (v : value) : str :=
  match v with
  | VNone => "null"
  | VBool true => "true"
  | VBool false => "false"
  | VInt z => int_repr z
  | VFloat f => floatstr f
  | VStr s => encode_basestring_ascii s
  | VList l => "[" +++ str_join ", " (map json_dumps l) +++ "]"
  | VDict d =>
      "{" +++ str_join ", "
                (map (fun kv => encode_basestring_ascii (fst kv) +++ ": "
                                +++ json_dumps (snd kv)) d)
      +++ "}"
  end.

(** [repr(v)]. *)
Fixpoint repr (v : value) : str :=
  match v with
  | VNone => "None"
  | VBool true => "True"
  | VBool false => "False"
  | VInt z => int_repr z
  | VFloat f => float_repr f
  | VStr s => str_repr s
  | VList l => "[" +++ str_join ", " (map repr l) +++ "]"
  | VDict d =>
      "{" +++ str_join ", "
                (map (fun kv => str_repr (fst kv) +++ ": " +++ repr (snd kv)) d)
      +++ "}"
  end.

(** [f"{v}"]: a [str] is taken as it is, another value through its [repr]. *)
Definition format_value (v : value) : str :=
  match v with
  | VStr s => s
  | _ => repr v
  end.

(** ** The handler *)

(** [process_echo]: the message goes back as it came. *)
Definition process_echo (message : value) : M value :=
  ret (VDict ["status" |-> VStr "success";
              "operation" |-> VStr "echo";
              "message" |-> message]).

(** [message.upper()] and [message.lower()]: methods of [str] only. *)
Definition method_upper (message : value) : M value :=
  match message with
  | VStr s => ret (VStr (str_upper s))
  | _ => raise (no_attribute message "upper")
  end.

Definition method_lower (message : value) : M value :=
  match message with
  | VStr s => ret (VStr (str_lower s))
  | _ => raise (no_attribute message "lower")
  end.

(** [process_uppercase]. *)
Definition process_uppercase (message : value) : M value :=
  upper <- method_upper message ;;
  ret (VDict ["status" |-> VStr "success";
              "operation" |-> VStr "uppercase";
              "message" |-> upper]).

(** [process_lowercase]. *)
Definition process_lowercase (message : value) : M value :=
  lower <- method_lower message ;;
  ret (VDict ["status" |-> VStr "success";
              "operation" |-> VStr "lowercase";
              "message" |-> lower]).

(** The ["data"] item of [process_describe]. *)
Definition describe_data : value :=
  VDict [
    "input_schema" |-> VDict [
      "type" |-> VStr "object";
      "properties" |-> VDict [
        "operation" |-> VDict [
          "type" |-> VStr "string";
          "enum" |-> VList [VStr "echo"; VStr "uppercase"; VStr "lowercase";
                            VStr "describe"];
          "description" |-> VStr "The operation to perform"];
        "message" |-> VDict [
          "type" |-> VStr "string";
          "description" |-> VStr "The message to process"]];
      "required" |-> VList [VStr "operation"]];
    "operations" |-> VDict [
      "echo" |-> VDict [
        "description" |-> VStr "Returns the input message as-is";
        "required" |-> VList [VStr "message"];
        "optional" |-> VList []];
      "uppercase" |-> VDict [
        "description" |-> VStr "Converts message to uppercase";
        "required" |-> VList [VStr "message"];
        "optional" |-> VList []];
      "lowercase" |-> VDict [
        "description" |-> VStr "Converts message to lowercase";
        "required" |-> VList [VStr "message"];
        "optional" |-> VList []];
      "describe" |-> VDict [
        "description" |-> VStr "Returns the input schema and available operations";
        "required" |-> VList [];
        "optional" |-> VList []]]].

(** [process_describe]. *)
Definition process_describe : M value :=
  ret (VDict ["status" |-> VStr "success";
              "operation" |-> VStr "describe";
              "data" |-> describe_data]).

(** The body of the [try] statement of [main]. The three [get] calls on the
    metadata fields are the arguments of the [logging.info] calls; the default
    of the message is the empty string. *)
Definition main_try (stdin : loaded) : M unit :=
  input_data <- json_load stdin ;;
  _ <- get input_data "workspace_id" VNone ;;
  _ <- get input_data "stf_id" VNone ;;
  _ <- get input_data "caller" VNone ;;
  user_input <- get input_data "input" (VDict []) ;;
  operation <- get user_input "operation" (VStr "echo") ;;
  result <-
    (if eq_str operation "describe" then process_describe
     else
       message <- get user_input "message" (VStr []) ;;
       if negb (truthy message) then raise (ValueError "Message is required")
       else if eq_str operation "echo" then process_echo message
       else if eq_str operation "uppercase" then process_uppercase message
       else if eq_str operation "lowercase" then process_lowercase message
       else raise (ValueError ("Unknown operation: " +++ format_value operation))) ;;
  let output := VDict ["output" |-> result] in
  print (json_dumps output).

(** The [except] clauses of [main], in the order of the source:
    [json.JSONDecodeError], [ValueError], [Exception]. *)
Definition main_except (e : exception) : option (M unit) :=
  if isinstance e "JSONDecodeError" then
    Some (let error_msg := "Invalid JSON input: " +++ exc_str e in
          print (json_dumps (VDict ["error" |-> VStr error_msg;
                                    "type" |-> VStr "JSONDecodeError"])) ;;;
          sys_exit 1)
  else if isinstance e "ValueError" then
    Some (let error_msg := exc_str e in
          print (json_dumps (VDict ["error" |-> VStr error_msg;
                                    "type" |-> VStr "ValueError"])) ;;;
          sys_exit 1)
  else if isinstance e "Exception" then
    Some (let error_msg := "Unexpected error: " +++ exc_str e in
          print (json_dumps (VDict ["error" |-> VStr error_msg;
                                    "type" |-> VStr (exc_class e)])) ;;;
          sys_exit 1)
  else None.

(** [main]. *)
Definition main (stdin : loaded) : M unit :=
  try_except (main_try stdin) main_except.

(** The run of the script: what is on standard output when the process ends,
    and how it ends. Falling off the end of [main] is exit status 0. *)
Definition run (stdin : loaded) : list str * termination :=
  match main stdin [] with
  | (Return _, out) => (out, Exit 0)
  | (SysExit code, out) => (out, Exit code)
  | (Raise e, out) => (out, Traceback e)
  end.

End Runtime.

(** * The specification *)

(** The transform that the specification gives each operation name: the
    identity for [echo], upper-casing for [uppercase], lower-casing for
    [lowercase]. *)
Definition spec_transform (operation : str) (m : str) : str :=
  if str_eqb operation "echo" then m
  else if str_eqb operation "uppercase" then str_upper m
  else if str_eqb operation "lowercase" then str_lower m
  else m.

(** The entry of one operation in the schema of section 6 of the
    specification: its description and its required fields; no operation has
    optional fields. *)
Definition spec_operation (description : str) (required : list string)
  : value :=
  VDict ["description" |-> VStr description;
         "required" |-> VList (map (fun f : string => VStr f) required);
         "optional" |-> VList []].

(** A property of the input schema of section 6: its type and description. *)
Definition spec_property (extra : list (str * value)) (description : str)
  : value :=
  VDict (("type" |-> VStr "string") :: extra
         ++ ["description" |-> VStr description]).

(** The static schema of section 6 of the specification. *)
Definition spec_describe_data : value :=
  VDict [
    "input_schema" |-> VDict [
      "type" |-> VStr "object";
      "properties" |-> VDict [
        "operation" |->
          spec_property
            ["enum" |-> VList (map VStr
                                 (str_list ["echo"; "uppercase"; "lowercase";
                                            "describe"]))]
            "The operation to perform";
        "message" |-> spec_property [] "The message to process"];
      "required" |-> VList [VStr "operation"]];
    "operations" |-> VDict [
      "echo" |-> spec_operation "Returns the input message as-is" ["message"];
      "uppercase" |-> spec_operation "Converts message to uppercase" ["message"];
      "lowercase" |-> spec_operation "Converts message to lowercase" ["message"];
      "describe" |->
        spec_operation "Returns the input schema and available operations" []]].

(** The ["message"] item of what a [process_] function returns for the
    message [m]. *)
Definition transformed (process : value -> M value) (m : str) : option value :=
  match process (VStr m) [] with
  | (Return (VDict items), _) => dict_lookup "message" items
  | _ => None
  end.

(** A computation that prints nothing. *)
Definition silent {A} (c : M A) : Prop :=
  forall out, snd (c out) = out.

(** A computation that prints nothing unless it returns. *)
Definition silent_unless_return {A} (c : M A) : Prop :=
  forall out, match c out with
              | (Return _, _) => True
              | (_, out') => out' = out
              end.

(** The two runtime functions for the concrete runs below: in none of them
    is a float printed or a value other than a [str] formatted, so neither
    function is called. *)
Definition float_repr_unused (f : spec_float) : str := [].
Definition str_repr_unused (s : str) : str := [].

(** ** The request and its outcomes *)

Section Request.

Variable float_repr : spec_float -> str.
Variable str_repr : str -> str.

(** What the [try] body of [main] does once the operation and the message
    are read: the dispatch and the [print] of the result. On a [dict] the
    [get] of the message cannot fail, so that reading it before the test of
    "describe" changes nothing. *)
Definition request (operation message : value) : M unit :=
  result <-
    (if eq_str operation "describe" then process_describe
     else if negb (truthy message) then raise (ValueError "Message is required")
     else if eq_str operation "echo" then process_echo message
     else if eq_str operation "uppercase" then process_uppercase message
     else if eq_str operation "lowercase" then process_lowercase message
     else raise (ValueError ("Unknown operation: "
                             +++ format_value float_repr str_repr operation))) ;;
  print (json_dumps float_repr (VDict ["output" |-> result])).

(** What [main] and the process make of the result [r] of the [try] body:
    the [except] clauses on an exception, then the exit status. *)
Definition after_try (r : result unit * list str) : list str * termination :=
  match try_except (fun _ => r) (main_except float_repr) [] with
  | (Return _, out) => (out, Exit 0)
  | (SysExit code, out) => (out, Exit code)
  | (Raise e, out) => (out, Traceback e)
  end.

End Request.


(** The names of the four operations. *)
Definition operation_names : list str :=
  str_list ["echo"; "uppercase"; "lowercase"; "describe"].

(** A string of code points from the space to the tilde: printable ASCII,
    without a line break. *)
Definition printable_ascii (s : str) : bool :=
  forallb (fun c => (0x20 <=? c)%N && (c <=? 0x7E)%N) s.

(** A string of code points below 128. *)
Definition is_ascii (s : str) : bool :=
  forallb (fun c => (c <? 0x80)%N) s.

(** The case of an ASCII letter changed, any other code point kept. *)
Definition ascii_upper (c : N) : N :=
  if ((0x61 <=? c) && (c <=? 0x7A))%N then (c - 0x20)%N else c.

Definition ascii_lower (c : N) : N :=
  if ((0x41 <=? c) && (c <=? 0x5A))%N then (c + 0x20)%N else c.

(** The values that are false in a test. *)
Definition falsy_values : list value :=
  [VNone; VBool false; VInt 0; VFloat (S754_zero false);
   VFloat (S754_zero true); VStr []; VList []; VDict []].

(** * Facts *)

(** ** Strings *)

Lemma str_eqb_eq (a b : str) : str_eqb a b = true <-> a = b.
Proof.
  revert b; induction a as [|x a IH]; intros [|y b]; simpl;
    try (split; [discriminate | congruence]); try tauto.
  rewrite andb_true_iff, N.eqb_eq, IH.
  split; [intros [-> ->]; reflexivity | intros H; inversion H; auto].
Qed.

Lemma str_eqb_refl (a : str) : str_eqb a a = true.
Proof. apply str_eqb_eq; reflexivity. Qed.

Lemma str_eqb_neq (a b : str) : a <> b -> str_eqb a b = false.
Proof.
  intros H; destruct (str_eqb a b) eqn:E; [|reflexivity].
  apply str_eqb_eq in E; contradiction.
Qed.

(** ** Case mappings *)

Module UnicodeFacts.
Import Unicode.
Local Open Scope N_scope.

Lemma lookup_In c t u : lookup c t = Some u -> In (c, u) t.
Proof.
  induction t as [|[k v] t IH]; simpl; [discriminate|].
  destruct (N.eqb_spec c k) as [->|_].
  - intros [= ->]; left; reflexivity.
  - intros H; right; auto.
Qed.

Lemma do_upper_app a b : do_upper (a ++ b) = do_upper a ++ do_upper b.
Proof.
  induction a as [|c a IH]; simpl; [reflexivity|].
  rewrite IH, app_assoc; reflexivity.
Qed.

(** Every image in the uppercase table is left alone by [do_upper]. *)
Lemma to_upper_full_stable :
  forallb (fun cu => str_eqb (do_upper (snd cu)) (snd cu)) to_upper_full = true.
Proof. vm_compute; reflexivity. Qed.

Lemma ToUpperFull_stable c : do_upper (ToUpperFull c) = ToUpperFull c.
Proof.
  unfold ToUpperFull.
  destruct (lookup c to_upper_full) as [u|] eqn:E.
  - apply lookup_In in E.
    pose proof to_upper_full_stable as H.
    rewrite forallb_forall in H.
    apply str_eqb_eq, (H (c, u) E).
  - cbn [do_upper]; unfold ToUpperFull; rewrite E; reflexivity.
Qed.

Lemma do_upper_idempotent s : do_upper (do_upper s) = do_upper s.
Proof.
  induction s as [|c s IH]; simpl; [reflexivity|].
  rewrite do_upper_app, ToUpperFull_stable, IH; reflexivity.
Qed.

(** Every image in the lowercase table holds no capital sigma and is left
    alone by the table. *)
Lemma to_lower_full_stable :
  forallb (fun cl => sigma_free (snd cl) && lower_fixed (snd cl))
          to_lower_full = true.
Proof. vm_compute; reflexivity. Qed.

Lemma lower_ucs4_stable before c after :
  sigma_free (lower_ucs4 before c after) = true /\
  flat_map ToLowerFull (lower_ucs4 before c after) = lower_ucs4 before c after.
Proof.
  unfold lower_ucs4.
  destruct (N.eqb_spec c 0x3A3) as [->|Hc].
  - unfold handle_capital_sigma.
    destruct (match skip_case_ignorable before with
              | Some c => IsCased c | None => false end).
    + destruct (match skip_case_ignorable after with
                | Some c => negb (IsCased c) | None => true end);
        split; vm_compute; reflexivity.
    + split; vm_compute; reflexivity.
  - unfold ToLowerFull.
    destruct (lookup c to_lower_full) as [l|] eqn:E.
    + apply lookup_In in E.
      pose proof to_lower_full_stable as H.
      rewrite forallb_forall in H.
      specialize (H (c, l) E); simpl in H.
      apply andb_true_iff in H as [H1 H2].
      split; [exact H1 | apply str_eqb_eq, H2].
    + split.
      * unfold sigma_free; cbn [forallb].
        apply N.eqb_neq in Hc; rewrite Hc; reflexivity.
      * cbn [flat_map]; unfold ToLowerFull; rewrite E; reflexivity.
Qed.

Lemma sigma_free_app a b :
  sigma_free (a ++ b) = sigma_free a && sigma_free b.
Proof. unfold sigma_free; apply forallb_app. Qed.

Lemma do_lower_stable before s :
  sigma_free (do_lower before s) = true /\
  flat_map ToLowerFull (do_lower before s) = do_lower before s.
Proof.
  revert before; induction s as [|c s IH]; intros before; simpl.
  - split; reflexivity.
  - destruct (lower_ucs4_stable before c s) as [H1 H2].
    destruct (IH (c :: before)) as [H3 H4].
    split.
    + rewrite sigma_free_app, H1, H3; reflexivity.
    + rewrite flat_map_app, H2, H4; reflexivity.
Qed.

(** Without a capital sigma [do_lower] is the table applied to each code
    point. *)
Lemma do_lower_sigma_free before s :
  sigma_free s = true -> do_lower before s = flat_map ToLowerFull s.
Proof.
  revert before; induction s as [|c s IH]; intros before; simpl;
    [reflexivity|].
  intros H; apply andb_true_iff in H as [Hc Hs].
  unfold lower_ucs4.
  apply negb_true_iff in Hc; rewrite Hc, (IH _ Hs); reflexivity.
Qed.

Lemma do_lower_idempotent before before' s :
  do_lower before' (do_lower before s) = do_lower before s.
Proof.
  destruct (do_lower_stable before s) as [H1 H2].
  rewrite (do_lower_sigma_free _ _ H1); exact H2.
Qed.

(** White space has no case. *)
Lemma whitespace_caseless :
  forallb (fun c => str_eqb (ToUpperFull c) [c] && str_eqb (ToLowerFull c) [c]
                    && negb (N.eqb c 0x3A3)) whitespace = true.
Proof. vm_compute; reflexivity. Qed.

Lemma IsWhitespace_caseless c :
  IsWhitespace c = true ->
  ToUpperFull c = [c] /\ forall before after, lower_ucs4 before c after = [c].
Proof.
  unfold IsWhitespace; intros H.
  apply existsb_exists in H as [w [Hw E]].
  apply N.eqb_eq in E; subst w.
  pose proof whitespace_caseless as F.
  rewrite forallb_forall in F; specialize (F c Hw).
  apply andb_true_iff in F as [F F3].
  apply andb_true_iff in F as [F1 F2].
  split; [apply str_eqb_eq, F1|].
  intros before after; unfold lower_ucs4.
  apply negb_true_iff in F3; rewrite F3.
  apply str_eqb_eq, F2.
Qed.

Lemma do_upper_whitespace s :
  forallb IsWhitespace s = true -> do_upper s = s.
Proof.
  induction s as [|c s IH]; simpl; [reflexivity|].
  intros H; apply andb_true_iff in H as [Hc Hs].
  destruct (IsWhitespace_caseless c Hc) as [-> _].
  rewrite (IH Hs); reflexivity.
Qed.

Lemma do_lower_whitespace before s :
  forallb IsWhitespace s = true -> do_lower before s = s.
Proof.
  revert before; induction s as [|c s IH]; intros before; simpl;
    [reflexivity|].
  intros H; apply andb_true_iff in H as [Hc Hs].
  destruct (IsWhitespace_caseless c Hc) as [_ ->].
  rewrite (IH _ Hs); reflexivity.
Qed.

(** The mappings on some strings: ASCII, the sharp s that becomes two
    letters, the capital I with a dot above, and a capital sigma at the end
    and in the middle of a word. *)
Example str_upper_ascii : str_upper "Hello, World" = "HELLO, WORLD".
Proof. reflexivity. Qed.

Example str_lower_ascii : str_lower "Hello, World" = "hello, world".
Proof. reflexivity. Qed.

Example str_upper_sharp_s : str_upper [0x73; 0xDF] = "SSS".
Proof. reflexivity. Qed.

Example str_lower_dotted_I : str_lower [0x130] = [0x69; 0x307].
Proof. reflexivity. Qed.

Example str_lower_final_sigma :
  str_lower [0x39F; 0x394; 0x39F; 0x3A3] = [0x3BF; 0x3B4; 0x3BF; 0x3C2].
Proof. reflexivity. Qed.

Example str_lower_medial_sigma :
  str_lower [0x3A3; 0x39F; 0x3A3; 0x39F] = [0x3C3; 0x3BF; 0x3C3; 0x3BF].
Proof. reflexivity. Qed.

End UnicodeFacts.

(** ** The handler *)

Lemma dict_get_some key d default v :
  dict_lookup key d = Some v -> dict_get key d default = v.
Proof. unfold dict_get; intros ->; reflexivity. Qed.

Lemma dict_get_none key d default :
  dict_lookup key d = None -> dict_get key d default = default.
Proof. unfold dict_get; intros ->; reflexivity. Qed.

Lemma eq_str_false v lit : v <> VStr lit -> eq_str v lit = false.
Proof.
  destruct v; try reflexivity; simpl.
  intros H; apply str_eqb_neq; congruence.
Qed.

(** The code describes the schema of the specification. *)
Lemma describe_data_spec : describe_data = spec_describe_data.
Proof. reflexivity. Qed.

(** The last [n] code points of a line are those of any suffix of it that is
    at least as long. *)
Lemma firstn_rev_suffix (x b : str) n :
  n <= List.length b -> firstn n (rev (x ++ b)) = firstn n (rev b).
Proof.
  intros H; rewrite rev_app_distr, firstn_app, length_rev.
  replace (n - List.length b) with 0 by lia.
  rewrite firstn_O, app_nil_r; reflexivity.
Qed.

(** The line of an error envelope ends with its type and the closing
    brace. *)
Lemma error_line_tail float_repr error type :
  exists head,
    json_dumps float_repr (VDict ["error" |-> VStr error; "type" |-> VStr type])
    = head +++ encode_basestring_ascii type +++ "}".
Proof.
  exists ("{" +++ encode_basestring_ascii "error" +++ ": "
          +++ encode_basestring_ascii error +++ ", "
          +++ encode_basestring_ascii "type" +++ ": ").
  cbn [json_dumps map str_join fst snd]; unfold str_cat.
  repeat rewrite <- app_assoc; reflexivity.
Qed.

Lemma error_line_type float_repr error type (out : list str) n :
  out = [json_dumps float_repr
           (VDict ["error" |-> VStr error; "type" |-> VStr type])] ->
  n <= List.length (encode_basestring_ascii type +++ "}") ->
  firstn n (rev (hd [] out))
  = firstn n (rev (encode_basestring_ascii type +++ "}")).
Proof.
  intros -> Hn; cbn [hd].
  destruct (error_line_tail float_repr error type) as [head ->].
  apply firstn_rev_suffix, Hn.
Qed.

(** *** What is printed before an exception *)

Lemma silent_ret {A} (a : A) : silent (ret a).
Proof. intros out; reflexivity. Qed.

Lemma silent_raise {A} e : silent (@raise A e).
Proof. intros out; reflexivity. Qed.

Lemma silent_bind {A B} (c : M A) (k : A -> M B) :
  silent c -> (forall a, silent (k a)) -> silent (bind c k).
Proof.
  intros Hc Hk out; unfold bind.
  specialize (Hc out); destruct (c out) as [[a|e|code] out']; simpl in *;
    subst; auto.
  apply Hk.
Qed.

Lemma silent_get obj key default : silent (get obj key default).
Proof. destruct obj; intros out; reflexivity. Qed.

Lemma silent_json_load stdin : silent (json_load stdin).
Proof. destruct stdin; intros out; reflexivity. Qed.

Lemma silent_process_echo message : silent (process_echo message).
Proof. apply silent_ret. Qed.

Lemma silent_process_uppercase message : silent (process_uppercase message).
Proof.
  apply silent_bind; [|intros; apply silent_ret].
  destruct message; intros out; reflexivity.
Qed.

Lemma silent_process_lowercase message : silent (process_lowercase message).
Proof.
  apply silent_bind; [|intros; apply silent_ret].
  destruct message; intros out; reflexivity.
Qed.

Lemma silent_process_describe : silent process_describe.
Proof. apply silent_ret. Qed.

Lemma bind_silent_unless_return {A B} (c : M A) (k : A -> M B) :
  silent c -> (forall a, silent_unless_return (k a)) ->
  silent_unless_return (bind c k).
Proof.
  intros Hc Hk out; unfold bind.
  specialize (Hc out); destruct (c out) as [[a|e|code] out']; simpl in *;
    subst; auto.
  apply Hk.
Qed.

Lemma print_silent_unless_return line : silent_unless_return (print line).
Proof. intros out; exact I. Qed.

Create HintDb handler.
#[local] Hint Resolve silent_ret silent_raise silent_get silent_json_load
  silent_process_echo silent_process_uppercase silent_process_lowercase
  silent_process_describe print_silent_unless_return : handler.

(** Comparisons of two literals are computed. *)
Ltac eval_literals :=
  repeat match goal with
  | |- context [str_eqb (str_of_string ?a) (str_of_string ?b)] =>
      let r := eval vm_compute in (str_eqb (str_of_string a) (str_of_string b)) in
      change (str_eqb (str_of_string a) (str_of_string b)) with r
  end.

(** The plumbing of the computations. *)
Ltac monad :=
  cbv beta iota delta [bind ret raise get print sys_exit json_load].

(** Entering [main] on a decoded value. *)
Ltac enter_main :=
  unfold run, main, try_except, main_try; cbn [json_load get bind ret].

(** One step of the handler: a [get] on a [dict], a test, a [process_]
    function. *)
Ltac step :=
  cbn [get bind ret raise print sys_exit eq_str truthy negb
       process_echo process_uppercase process_lowercase process_describe
       method_upper method_lower format_value];
  eval_literals; cbv iota.

Section HandlerFacts.

Variable float_repr : spec_float -> str.
Variable str_repr : str -> str.

(** [json.dumps({"a": [1, None, "x\n"]})] is [{"a": [1, null, "x\\n"]}]. *)
Example json_dumps_text :
  json_dumps float_repr
    (VDict ["a" |-> VList [VInt 1; VNone; VStr [0x78; 0x0A]%N]])
  = [0x7B; 0x22]%N +++ "a" +++ [0x22%N] +++ ": [1, null, " +++ [0x22%N] +++ "x\n"
    +++ [0x22%N] +++ "]}".
Proof. reflexivity. Qed.

(** The [try] body prints nothing unless it runs to its end. *)
Lemma main_try_silent_unless_return stdin :
  silent_unless_return (main_try float_repr str_repr stdin).
Proof.
  unfold main_try.
  do 6 (apply bind_silent_unless_return;
        [solve [auto with handler] | intros ?]).
  apply bind_silent_unless_return; [|intros; auto with handler].
  destruct (eq_str _ _); [auto with handler|].
  apply silent_bind; [auto with handler | intros message].
  repeat (match goal with |- silent (if ?b then _ else _) => destruct b end;
          auto with handler).
Qed.

Lemma main_try_raise stdin e out :
  main_try float_repr str_repr stdin [] = (Raise e, out) -> out = [].
Proof.
  intros H; pose proof (main_try_silent_unless_return stdin []) as S.
  rewrite H in S; exact S.
Qed.

(** The handler on a request whose operation, the default included, is one
    of the three transforms and whose message is a non-empty string. *)
Lemma run_transform d ui op c m :
  dict_get "input" d (VDict []) = VDict ui ->
  dict_get "operation" ui (VStr "echo") = VStr op ->
  op = "echo" \/ op = "uppercase" \/ op = "lowercase" ->
  dict_get "message" ui (VStr []) = VStr (c :: m) ->
  run float_repr str_repr (Decoded (VDict d)) =
    ([json_dumps float_repr
        (VDict ["output" |->
                  VDict ["status" |-> VStr "success";
                         "operation" |-> VStr op;
                         "message" |-> VStr (spec_transform op (c :: m))]])],
     Exit 0).
Proof.
  intros Hi Ho Hop Hm.
  enter_main. rewrite Hi. step. rewrite Ho, Hm.
  destruct Hop as [->|[->| ->]]; step; reflexivity.
Qed.

(** The handler on a request whose operation is not "describe" and whose
    message, the default included, is falsy. *)
Lemma run_message_required d ui :
  dict_get "input" d (VDict []) = VDict ui ->
  dict_get "operation" ui (VStr "echo") <> VStr "describe" ->
  truthy (dict_get "message" ui (VStr [])) = false ->
  run float_repr str_repr (Decoded (VDict d)) =
    ([json_dumps float_repr
        (VDict ["error" |-> VStr "Message is required";
                "type" |-> VStr "ValueError"])], Exit 1).
Proof.
  intros Hi Ho Hm.
  enter_main. rewrite Hi. monad.
  rewrite (eq_str_false _ _ Ho). monad.
  rewrite Hm. step. reflexivity.
Qed.

Lemma absent_or_empty_message ui :
  dict_lookup "message" ui = None \/
  dict_lookup "message" ui = Some (VStr []) ->
  dict_get "message" ui (VStr []) = VStr [].
Proof.
  intros [Hm|Hm];
    [rewrite (dict_get_none _ _ _ Hm) | rewrite (dict_get_some _ _ _ _ Hm)];
    reflexivity.
Qed.

(** C3: an operation that is a string other than "describe", with the message
    absent or the empty string, ends in the line
    [{"error": "Message is required", "type": "ValueError"}] and exit status
    1, whether the operation name is known or not. *)
Theorem message_required d ui op :
  dict_get "input" d (VDict []) = VDict ui ->
  dict_lookup "operation" ui = Some (VStr op) ->
  op <> "describe" ->
  dict_lookup "message" ui = None \/
  dict_lookup "message" ui = Some (VStr []) ->
  run float_repr str_repr (Decoded (VDict d)) =
    ([json_dumps float_repr
        (VDict ["error" |-> VStr "Message is required";
                "type" |-> VStr "ValueError"])], Exit 1).
Proof.
  intros Hi Ho Hd Hm.
  apply (run_message_required d ui Hi).
  - rewrite (dict_get_some _ _ _ _ Ho); congruence.
  - rewrite (absent_or_empty_message ui Hm); reflexivity.
Qed.

(** C1: for the operations "echo", "uppercase" and "lowercase" and a message
    that is a non-empty string [m], the handler prints the single line
    [{"output": {"status": "success", "operation": op, "message": f(m)}}],
    where [f] is the identity, upper-casing or lower-casing, and the process
    exits with status 0. *)
Theorem transform_success d ui op m :
  dict_get "input" d (VDict []) = VDict ui ->
  dict_lookup "operation" ui = Some (VStr op) ->
  op = "echo" \/ op = "uppercase" \/ op = "lowercase" ->
  dict_lookup "message" ui = Some (VStr m) ->
  m <> [] ->
  run float_repr str_repr (Decoded (VDict d)) =
    ([json_dumps float_repr
        (VDict ["output" |->
                  VDict ["status" |-> VStr "success";
                         "operation" |-> VStr op;
                         "message" |-> VStr (spec_transform op m)]])],
     Exit 0).
Proof.
  intros Hi Ho Hop Hm Hne.
  destruct m as [|c m]; [contradiction|].
  apply (run_transform d ui op c m Hi); auto using dict_get_some.
Qed.

(** C2, amended: a decoded value that is not an object makes the first
    [get] fail; the catch-all clause reports it with type "AttributeError",
    not "JSONDecodeError", and the process exits with status 1. *)
Theorem non_object_input v :
  (forall d, v <> VDict d) ->
  run float_repr str_repr (Decoded v) =
    ([json_dumps float_repr
        (VDict ["error" |->
                  VStr ("Unexpected error: '" +++ type_name v
                        +++ "' object has no attribute 'get'");
                "type" |-> VStr "AttributeError"])], Exit 1).
Proof.
  intros Hv.
  destruct v; try reflexivity.
  contradiction (Hv d); reflexivity.
Qed.

(** C4: an operation that is a string outside the four known names, with a
    message that is a non-empty string, ends in the line
    [{"error": "Unknown operation: <name>", "type": "ValueError"}] and exit
    status 1. *)
Theorem unknown_operation d ui op m :
  dict_get "input" d (VDict []) = VDict ui ->
  dict_lookup "operation" ui = Some (VStr op) ->
  op <> "echo" -> op <> "uppercase" -> op <> "lowercase" ->
  op <> "describe" ->
  dict_lookup "message" ui = Some (VStr m) ->
  m <> [] ->
  run float_repr str_repr (Decoded (VDict d)) =
    ([json_dumps float_repr
        (VDict ["error" |-> VStr ("Unknown operation: " +++ op);
                "type" |-> VStr "ValueError"])], Exit 1).
Proof.
  intros Hi Ho He Hu Hl Hd Hm Hne.
  enter_main. rewrite Hi. step.
  rewrite (dict_get_some _ _ _ _ Ho), (dict_get_some _ _ _ _ Hm).
  destruct m as [|c m]; [contradiction|].
  step.
  rewrite (str_eqb_neq _ _ Hd), (str_eqb_neq _ _ He), (str_eqb_neq _ _ Hu),
    (str_eqb_neq _ _ Hl).
  step. reflexivity.
Qed.

(** C5: the operation "describe" succeeds whatever the message field is,
    present or not: the handler prints the single line
    [{"output": {"status": "success", "operation": "describe", "data": D}}]
    with [D] the static schema of section 6 of the specification, the same on
    every run, and the process exits with status 0. *)
Theorem describe_success d ui :
  dict_get "input" d (VDict []) = VDict ui ->
  dict_lookup "operation" ui = Some (VStr "describe") ->
  run float_repr str_repr (Decoded (VDict d)) =
    ([json_dumps float_repr
        (VDict ["output" |->
                  VDict ["status" |-> VStr "success";
                         "operation" |-> VStr "describe";
                         "data" |-> spec_describe_data]])],
     Exit 0).
Proof.
  intros Hi Ho.
  enter_main. rewrite Hi. step.
  rewrite (dict_get_some _ _ _ _ Ho). step.
  rewrite <- describe_data_spec. reflexivity.
Qed.

(** C6: the transforms are idempotent. For every string [m], echo returns
    [m], so that echoing twice is echoing once; upper-casing the upper-cased
    message gives it back, and so does lower-casing the lower-cased one. *)
Theorem transforms_idempotent (m : str) :
  transformed process_echo m = Some (VStr m) /\
  (exists u, transformed process_uppercase m = Some (VStr u) /\
             transformed process_uppercase u = Some (VStr u)) /\
  (exists l, transformed process_lowercase m = Some (VStr l) /\
             transformed process_lowercase l = Some (VStr l)).
Proof.
  split; [reflexivity|split].
  - exists (str_upper m); split; [reflexivity|].
    unfold transformed; cbn [process_uppercase method_upper bind ret].
    unfold str_upper; rewrite UnicodeFacts.do_upper_idempotent; reflexivity.
  - exists (str_lower m); split; [reflexivity|].
    unfold transformed; cbn [process_lowercase method_lower bind ret].
    unfold str_lower; rewrite UnicodeFacts.do_lower_idempotent; reflexivity.
Qed.

(** C7, amended: an exception of the [try] body that is an [Exception] but
    not a [ValueError] (nor its subclass [JSONDecodeError]) is reported by the
    catch-all clause: the line holds the name of its class as the type and
    ["Unexpected error: "] followed by its text as the error, and the process
    exits with status 1. *)
Theorem unexpected_error stdin e out :
  main_try float_repr str_repr stdin [] = (Raise e, out) ->
  isinstance e "JSONDecodeError" = false ->
  isinstance e "ValueError" = false ->
  isinstance e "Exception" = true ->
  run float_repr str_repr stdin =
    ([json_dumps float_repr
        (VDict ["error" |-> VStr ("Unexpected error: " +++ exc_str e);
                "type" |-> VStr (exc_class e)])], Exit 1).
Proof.
  intros Hraise Hj Hv He.
  pose proof (main_try_raise _ _ _ Hraise) as ->.
  unfold run, main, try_except; rewrite Hraise.
  unfold main_except; rewrite Hj, Hv, He.
  reflexivity.
Qed.

(** C8: a message made of white space only is not taken for a missing one.
    For the operations "echo", "uppercase" and "lowercase" the handler
    succeeds, and the message of the result is the transform of the message,
    which is the message itself, untrimmed. *)
Theorem whitespace_message d ui op m :
  dict_get "input" d (VDict []) = VDict ui ->
  dict_lookup "operation" ui = Some (VStr op) ->
  op = "echo" \/ op = "uppercase" \/ op = "lowercase" ->
  dict_lookup "message" ui = Some (VStr m) ->
  str_isspace m = true ->
  run float_repr str_repr (Decoded (VDict d)) =
    ([json_dumps float_repr
        (VDict ["output" |->
                  VDict ["status" |-> VStr "success";
                         "operation" |-> VStr op;
                         "message" |-> VStr (spec_transform op m)]])],
     Exit 0) /\
  spec_transform op m = m.
Proof.
  intros Hi Ho Hop Hm Hs.
  destruct m as [|c m]; [discriminate|].
  split; [apply (run_transform d ui op c m Hi); auto using dict_get_some|].
  assert (Hw : forallb Unicode.IsWhitespace (c :: m) = true) by exact Hs.
  unfold spec_transform.
  destruct Hop as [->|[->| ->]]; eval_literals; cbv iota.
  - reflexivity.
  - apply UnicodeFacts.do_upper_whitespace, Hw.
  - apply UnicodeFacts.do_lower_whitespace, Hw.
Qed.

(** C9: without an ["operation"] field the handler does what it does for
    "echo": a message that is a non-empty string is echoed with operation
    "echo" and exit status 0; a message that is absent or empty ends in
    "Message is required". *)
Theorem default_operation d ui :
  dict_get "input" d (VDict []) = VDict ui ->
  dict_lookup "operation" ui = None ->
  (forall m, dict_lookup "message" ui = Some (VStr m) -> m <> [] ->
     run float_repr str_repr (Decoded (VDict d)) =
       ([json_dumps float_repr
           (VDict ["output" |->
                     VDict ["status" |-> VStr "success";
                            "operation" |-> VStr "echo";
                            "message" |-> VStr m]])], Exit 0)) /\
  (dict_lookup "message" ui = None \/
   dict_lookup "message" ui = Some (VStr []) ->
     run float_repr str_repr (Decoded (VDict d)) =
       ([json_dumps float_repr
           (VDict ["error" |-> VStr "Message is required";
                   "type" |-> VStr "ValueError"])], Exit 1)).
Proof.
  intros Hi Ho; split.
  - intros m Hm Hne.
    destruct m as [|c m]; [contradiction|].
    apply (run_transform d ui "echo" c m Hi);
      auto using dict_get_some, dict_get_none.
  - intros Hm.
    apply (run_message_required d ui Hi).
    + rewrite (dict_get_none _ _ _ Ho); discriminate.
    + rewrite (absent_or_empty_message ui Hm); reflexivity.
Qed.

(** C10: when the operation is not "describe" and the message field holds a
    falsy value ([None], [False], [0], [0.0] of either sign, the empty string,
    list or object), the handler ends as for an absent message: the line
    [{"error": "Message is required", "type": "ValueError"}] and exit status
    1. *)
Theorem falsy_message d ui message :
  dict_get "input" d (VDict []) = VDict ui ->
  dict_get "operation" ui (VStr "echo") <> VStr "describe" ->
  dict_lookup "message" ui = Some message ->
  In message [VNone; VBool false; VInt 0; VFloat (S754_zero false);
              VFloat (S754_zero true); VStr []; VList []; VDict []] ->
  run float_repr str_repr (Decoded (VDict d)) =
    ([json_dumps float_repr
        (VDict ["error" |-> VStr "Message is required";
                "type" |-> VStr "ValueError"])], Exit 1).
Proof.
  intros Hi Ho Hm Hf.
  apply (run_message_required d ui Hi Ho).
  rewrite (dict_get_some _ _ _ _ Hm).
  cbn [In] in Hf.
  repeat (destruct Hf as [<-|Hf]; [reflexivity|]); contradiction.
Qed.

End HandlerFacts.

(** ** Concrete runs *)

(** C1 on the request [{"input": {"operation": "uppercase", "message":
    "hello"}}]: the message of the result is "HELLO". *)
Lemma transform_success_witness :
  let ui := ["operation" |-> VStr "uppercase"; "message" |-> VStr "hello"] in
  let d := ["input" |-> VDict ui] in
  dict_get "input" d (VDict []) = VDict ui /\
  dict_lookup "operation" ui = Some (VStr "uppercase") /\
  dict_lookup "message" ui = Some (VStr "hello") /\
  run float_repr_unused str_repr_unused (Decoded (VDict d)) =
    ([json_dumps float_repr_unused
        (VDict ["output" |->
                  VDict ["status" |-> VStr "success";
                         "operation" |-> VStr "uppercase";
                         "message" |-> VStr "HELLO"]])], Exit 0).
Proof.
  intros ui d.
  split; [reflexivity|]. split; [reflexivity|]. split; [reflexivity|].
  apply (transform_success float_repr_unused str_repr_unused d ui
           "uppercase" "hello"); try reflexivity.
  - right; left; reflexivity.
  - vm_compute; discriminate.
Defined.

(** C2 as stated fails on the input [[]]: the line printed is the
    "AttributeError" envelope of the catch-all clause, and no
    "JSONDecodeError" envelope. *)
Lemma non_object_counterexample :
  run float_repr_unused str_repr_unused (Decoded (VList [])) =
    ([json_dumps float_repr_unused
        (VDict ["error" |->
                  VStr "Unexpected error: 'list' object has no attribute 'get'";
                "type" |-> VStr "AttributeError"])], Exit 1) /\
  ~ exists error,
      fst (run float_repr_unused str_repr_unused (Decoded (VList []))) =
      [json_dumps float_repr_unused
         (VDict ["error" |-> VStr error; "type" |-> VStr "JSONDecodeError"])].
Proof.
  split; [reflexivity|].
  intros [error H].
  apply (error_line_type _ _ _ _ 12) in H.
  - vm_compute in H; discriminate.
  - vm_compute; lia.
Defined.

(** The amended C2 on the input ["text"], a JSON string. *)
Lemma non_object_input_witness :
  (forall d, VStr "text" <> VDict d) /\
  run float_repr_unused str_repr_unused (Decoded (VStr "text")) =
    ([json_dumps float_repr_unused
        (VDict ["error" |->
                  VStr "Unexpected error: 'str' object has no attribute 'get'";
                "type" |-> VStr "AttributeError"])], Exit 1).
Proof.
  assert (H : forall d, VStr "text" <> VDict d) by discriminate.
  split; [exact H|].
  exact (non_object_input float_repr_unused str_repr_unused (VStr "text") H).
Defined.

(** C3 on the request [{"input": {"operation": "reverse"}}]: the operation is
    unknown and the message is missing. *)
Lemma message_required_witness :
  let ui := ["operation" |-> VStr "reverse"] in
  let d := ["input" |-> VDict ui] in
  dict_get "input" d (VDict []) = VDict ui /\
  dict_lookup "operation" ui = Some (VStr "reverse") /\
  dict_lookup "message" ui = None /\
  run float_repr_unused str_repr_unused (Decoded (VDict d)) =
    ([json_dumps float_repr_unused
        (VDict ["error" |-> VStr "Message is required";
                "type" |-> VStr "ValueError"])], Exit 1).
Proof.
  intros ui d.
  split; [reflexivity|]. split; [reflexivity|]. split; [reflexivity|].
  apply (message_required float_repr_unused str_repr_unused d ui "reverse");
    try reflexivity.
  - vm_compute; discriminate.
  - left; reflexivity.
Defined.

(** C4 on the request [{"input": {"operation": "reverse", "message":
    "hello"}}]. *)
Lemma unknown_operation_witness :
  let ui := ["operation" |-> VStr "reverse"; "message" |-> VStr "hello"] in
  let d := ["input" |-> VDict ui] in
  dict_get "input" d (VDict []) = VDict ui /\
  dict_lookup "operation" ui = Some (VStr "reverse") /\
  dict_lookup "message" ui = Some (VStr "hello") /\
  run float_repr_unused str_repr_unused (Decoded (VDict d)) =
    ([json_dumps float_repr_unused
        (VDict ["error" |-> VStr "Unknown operation: reverse";
                "type" |-> VStr "ValueError"])], Exit 1).
Proof.
  intros ui d.
  split; [reflexivity|]. split; [reflexivity|]. split; [reflexivity|].
  apply (unknown_operation float_repr_unused str_repr_unused d ui
           "reverse" "hello"); try reflexivity; vm_compute; discriminate.
Defined.

(** C5 on the request [{"input": {"operation": "describe"}}], without a
    message. *)
Lemma describe_success_witness :
  let ui := ["operation" |-> VStr "describe"] in
  let d := ["input" |-> VDict ui] in
  dict_get "input" d (VDict []) = VDict ui /\
  dict_lookup "operation" ui = Some (VStr "describe") /\
  dict_lookup "message" ui = None /\
  run float_repr_unused str_repr_unused (Decoded (VDict d)) =
    ([json_dumps float_repr_unused
        (VDict ["output" |->
                  VDict ["status" |-> VStr "success";
                         "operation" |-> VStr "describe";
                         "data" |-> spec_describe_data]])], Exit 0).
Proof.
  intros ui d.
  split; [reflexivity|]. split; [reflexivity|]. split; [reflexivity|].
  apply (describe_success float_repr_unused str_repr_unused d ui);
    reflexivity.
Defined.

(** C7 as stated fails on a standard input that is not UTF-8: the
    [UnicodeDecodeError] that reading it raises is no [JSONDecodeError] and
    comes from no validation, yet the [ValueError] clause catches it; the line
    has type "ValueError" and the bare text of the exception, not the type
    "UnicodeDecodeError". *)
Lemma unexpected_error_counterexample :
  let text : str :=
    "'utf-8' codec can't decode byte 0xff in position 0: invalid start byte" in
  let e := UnicodeDecodeError text in
  isinstance e "JSONDecodeError" = false /\
  exc_class e = "UnicodeDecodeError" /\
  run float_repr_unused str_repr_unused (LoadError e) =
    ([json_dumps float_repr_unused
        (VDict ["error" |-> VStr text; "type" |-> VStr "ValueError"])],
     Exit 1) /\
  ~ exists error,
      fst (run float_repr_unused str_repr_unused (LoadError e)) =
      [json_dumps float_repr_unused
         (VDict ["error" |-> VStr error; "type" |-> VStr (exc_class e)])].
Proof.
  intros text e.
  repeat split; try reflexivity.
  intros [error H].
  apply (error_line_type _ _ _ _ 12) in H.
  - vm_compute in H; discriminate.
  - vm_compute; lia.
Defined.

(** The amended C7 on the input [[]], whose [AttributeError] is an
    [Exception] and no [ValueError]. *)
Lemma unexpected_error_witness :
  let e := no_attribute (VList []) "get" in
  main_try float_repr_unused str_repr_unused (Decoded (VList [])) [] =
    (Raise e, []) /\
  isinstance e "JSONDecodeError" = false /\
  isinstance e "ValueError" = false /\
  isinstance e "Exception" = true /\
  run float_repr_unused str_repr_unused (Decoded (VList [])) =
    ([json_dumps float_repr_unused
        (VDict ["error" |->
                  VStr "Unexpected error: 'list' object has no attribute 'get'";
                "type" |-> VStr "AttributeError"])], Exit 1).
Proof.
  intros e.
  split; [reflexivity|]. split; [reflexivity|]. split; [reflexivity|]. split; [reflexivity|].
  apply (unexpected_error float_repr_unused str_repr_unused
           (Decoded (VList [])) e []); reflexivity.
Defined.

(** C8 on the request [{"input": {"operation": "uppercase", "message":
    " "}}]: the message of the result is the space. *)
Lemma whitespace_message_witness :
  let ui := ["operation" |-> VStr "uppercase"; "message" |-> VStr " "] in
  let d := ["input" |-> VDict ui] in
  dict_get "input" d (VDict []) = VDict ui /\
  dict_lookup "operation" ui = Some (VStr "uppercase") /\
  dict_lookup "message" ui = Some (VStr " ") /\
  str_isspace " " = true /\
  run float_repr_unused str_repr_unused (Decoded (VDict d)) =
    ([json_dumps float_repr_unused
        (VDict ["output" |->
                  VDict ["status" |-> VStr "success";
                         "operation" |-> VStr "uppercase";
                         "message" |-> VStr " "]])], Exit 0).
Proof.
  intros ui d.
  split; [reflexivity|]. split; [reflexivity|]. split; [reflexivity|]. split; [reflexivity|].
  apply (whitespace_message float_repr_unused str_repr_unused d ui
           "uppercase" " "); try reflexivity.
  right; left; reflexivity.
Defined.

(** C9 on the requests [{"input": {"message": "hello"}}] and [{"input": {}}],
    both without an operation. *)
Lemma default_operation_witness :
  let ui := ["message" |-> VStr "hello"] in
  let d := ["input" |-> VDict ui] in
  let d' := ["input" |-> VDict []] in
  dict_lookup "operation" ui = None /\
  run float_repr_unused str_repr_unused (Decoded (VDict d)) =
    ([json_dumps float_repr_unused
        (VDict ["output" |->
                  VDict ["status" |-> VStr "success";
                         "operation" |-> VStr "echo";
                         "message" |-> VStr "hello"]])], Exit 0) /\
  run float_repr_unused str_repr_unused (Decoded (VDict d')) =
    ([json_dumps float_repr_unused
        (VDict ["error" |-> VStr "Message is required";
                "type" |-> VStr "ValueError"])], Exit 1).
Proof.
  intros ui d d'.
  split; [reflexivity|split].
  - apply (default_operation float_repr_unused str_repr_unused d ui);
      try reflexivity.
    vm_compute; discriminate.
  - apply (default_operation float_repr_unused str_repr_unused d' []);
      try reflexivity.
    left; reflexivity.
Defined.

(** C10 on the request [{"input": {"operation": "uppercase", "message":
    0}}]. *)
Lemma falsy_message_witness :
  let ui := ["operation" |-> VStr "uppercase"; "message" |-> VInt 0] in
  let d := ["input" |-> VDict ui] in
  dict_get "input" d (VDict []) = VDict ui /\
  dict_get "operation" ui (VStr "echo") <> VStr "describe" /\
  dict_lookup "message" ui = Some (VInt 0) /\
  run float_repr_unused str_repr_unused (Decoded (VDict d)) =
    ([json_dumps float_repr_unused
        (VDict ["error" |-> VStr "Message is required";
                "type" |-> VStr "ValueError"])], Exit 1).
Proof.
  intros ui d.
  assert (Ho : dict_get "operation" ui (VStr "echo") <> VStr "describe")
    by (vm_compute; discriminate).
  split; [reflexivity|]. split; [exact Ho|]. split; [reflexivity|].
  apply (falsy_message float_repr_unused str_repr_unused d ui (VInt 0));
    try reflexivity; try exact Ho.
  right; right; left; reflexivity.
Defined.

(** * More about the handler *)

(** ** The request *)

(** The calls of a request, unfolded. *)
Ltac unfold_request :=
  cbv beta iota delta
    [request bind ret raise print negb
     process_echo process_uppercase process_lowercase process_describe
     method_upper method_lower].

(** The case of a request that raises. *)
Ltac raises :=
  right; refine (ex_intro _ _ (conj _ (conj _ eq_refl))); reflexivity.

Lemma In_operation_names (op : str) :
  op = "echo" \/ op = "uppercase" \/ op = "lowercase" \/ op = "describe" ->
  In op operation_names.
Proof.
  unfold operation_names, str_list; cbn [map In].
  intros [->|[->|[->| ->]]]; auto.
Qed.

Lemma eq_str_true v lit : eq_str v lit = true -> v = VStr lit.
Proof.
  destruct v; try discriminate; simpl.
  intros H; apply str_eqb_eq in H; subst; reflexivity.
Qed.

Lemma eq_str_refl lit : eq_str (VStr lit) lit = true.
Proof. apply str_eqb_refl. Qed.

(** The values that are false in a test are the eight of [falsy_values]. *)
Lemma truthy_false_iff v : truthy v = false <-> In v falsy_values.
Proof.
  unfold falsy_values; cbn [In]; split.
  - destruct v as [|b|z|f|s|l|d]; simpl; intros H.
    + auto.
    + subst; auto.
    + apply negb_false_iff, Z.eqb_eq in H; subst; auto.
    + destruct f as [[|]| | |]; try discriminate; auto 6.
    + destruct s; [auto 7 | discriminate].
    + destruct l; [auto 8 | discriminate].
    + destruct d; [auto 9 | discriminate].
  - intros H.
    repeat (destruct H as [<-|H]; [reflexivity|]); contradiction.
Qed.

Section RequestFacts.

Variable float_repr : spec_float -> str.
Variable str_repr : str -> str.

(** On a decoded object whose input is an object, the [try] body is the
    request on the operation and the message, each with its default. *)
Lemma main_try_request d ui out :
  dict_get "input" d (VDict []) = VDict ui ->
  main_try float_repr str_repr (Decoded (VDict d)) out =
  request float_repr str_repr
    (dict_get "operation" ui (VStr "echo"))
    (dict_get "message" ui (VStr [])) out.
Proof.
  intros Hi.
  unfold main_try, request. cbn [json_load get bind ret]. rewrite Hi. monad.
  destruct (eq_str (dict_get "operation" ui (VStr "echo")) "describe");
    reflexivity.
Qed.

(** A request either prints one success line, or raises an [Exception] that
    is no [JSONDecodeError] and prints nothing. *)
Lemma request_cases operation message :
  (exists op payload,
     In op operation_names /\
     request float_repr str_repr operation message [] =
       (Return tt,
        [json_dumps float_repr
           (VDict ["output" |->
                     VDict ["status" |-> VStr "success";
                            "operation" |-> VStr op;
                            payload]])])) \/
  (exists e,
     isinstance e "Exception" = true /\
     isinstance e "JSONDecodeError" = false /\
     request float_repr str_repr operation message [] = (Raise e, [])).
Proof.
  unfold request.
  destruct (eq_str operation "describe").
  { left; exists "describe", ("data" |-> describe_data).
    split; [apply In_operation_names; auto | reflexivity]. }
  destruct (truthy message) eqn:Ht; cbn [negb]; [|raises].
  destruct (eq_str operation "echo").
  { left; exists "echo", ("message" |-> message).
    split; [apply In_operation_names; auto | reflexivity]. }
  destruct (eq_str operation "uppercase").
  { destruct message as [| | | |s| |]; try raises.
    left; exists "uppercase", ("message" |-> VStr (str_upper s)).
    split; [apply In_operation_names; auto | reflexivity]. }
  destruct (eq_str operation "lowercase").
  { destruct message as [| | | |s| |]; try raises.
    left; exists "lowercase", ("message" |-> VStr (str_lower s)).
    split; [apply In_operation_names; auto | reflexivity]. }
  raises.
Qed.

Lemma run_after_try stdin :
  run float_repr str_repr stdin =
  after_try float_repr (main_try float_repr str_repr stdin []).
Proof. reflexivity. Qed.

(** The run of a request. *)
Lemma run_request d ui :
  dict_get "input" d (VDict []) = VDict ui ->
  run float_repr str_repr (Decoded (VDict d)) =
  after_try float_repr
    (request float_repr str_repr
       (dict_get "operation" ui (VStr "echo"))
       (dict_get "message" ui (VStr [])) []).
Proof.
  intros Hi; rewrite run_after_try, (main_try_request d ui [] Hi); reflexivity.
Qed.

(** The [try] body either prints one success line, or raises and prints
    nothing. *)
Lemma main_try_cases stdin :
  (exists op payload,
     In op operation_names /\
     main_try float_repr str_repr stdin [] =
       (Return tt,
        [json_dumps float_repr
           (VDict ["output" |->
                     VDict ["status" |-> VStr "success";
                            "operation" |-> VStr op;
                            payload]])])) \/
  (exists e, main_try float_repr str_repr stdin [] = (Raise e, [])).
Proof.
  destruct stdin as [v|e]; [|right; exists e; reflexivity].
  destruct v as [| | | | | |d]; try (right; eexists; reflexivity).
  destruct (dict_get "input" d (VDict [])) as [| | | | | |ui] eqn:Hi;
    try (right; eexists; unfold main_try; cbn [json_load get bind ret];
         rewrite Hi; reflexivity).
  rewrite (main_try_request d ui [] Hi).
  destruct (request_cases (dict_get "operation" ui (VStr "echo"))
              (dict_get "message" ui (VStr [])))
    as [(op & payload & Hop & ->)|(e & _ & _ & ->)].
  - left; exists op, payload; auto.
  - right; exists e; reflexivity.
Qed.

(** ** Outcomes of a run *)

(** X1: whatever [json.load] did, the run ends in one of three ways: one
    success line, for one of the four operations, and exit status 0; one error
    line of the two fields "error" and "type" and exit status 1; nothing
    printed and the traceback of an exception that is not an [Exception]. *)
Theorem run_outcome stdin :
  (exists op payload,
     In op operation_names /\
     run float_repr str_repr stdin =
       ([json_dumps float_repr
           (VDict ["output" |->
                     VDict ["status" |-> VStr "success";
                            "operation" |-> VStr op;
                            payload]])], Exit 0)) \/
  (exists error type,
     run float_repr str_repr stdin =
       ([json_dumps float_repr
           (VDict ["error" |-> VStr error; "type" |-> VStr type])], Exit 1)) \/
  (exists e,
     isinstance e "Exception" = false /\
     run float_repr str_repr stdin = ([], Traceback e)).
Proof.
  rewrite run_after_try.
  destruct (main_try_cases stdin) as [(op & payload & Hop & ->)|(e & ->)].
  - left; exists op, payload; auto.
  - right; unfold after_try, try_except, main_except.
    destruct (isinstance e "JSONDecodeError");
      [left; eexists; eexists; reflexivity|].
    destruct (isinstance e "ValueError");
      [left; eexists; eexists; reflexivity|].
    destruct (isinstance e "Exception") eqn:He;
      [left; eexists; eexists; reflexivity|].
    right; exists e; auto.
Qed.

(** X2: an exception of [json.load] that is a [JSONDecodeError] is reported
    by the first clause, though it is a [ValueError] too: the error is
    "Invalid JSON input: " and its text, the type "JSONDecodeError", the exit
    status 1. *)
Theorem invalid_json e :
  isinstance e "JSONDecodeError" = true ->
  run float_repr str_repr (LoadError e) =
    ([json_dumps float_repr
        (VDict ["error" |-> VStr ("Invalid JSON input: " +++ exc_str e);
                "type" |-> VStr "JSONDecodeError"])], Exit 1).
Proof.
  intros Hj; rewrite run_after_try.
  unfold after_try, try_except, main_except; cbn [main_try json_load bind raise].
  rewrite Hj; reflexivity.
Qed.

(** X3: an exception of the [try] body that is a [ValueError] and no
    [JSONDecodeError], whatever raised it, is reported with its bare text and
    the type "ValueError", exit status 1. *)
Theorem value_error_reported stdin e out :
  main_try float_repr str_repr stdin [] = (Raise e, out) ->
  isinstance e "JSONDecodeError" = false ->
  isinstance e "ValueError" = true ->
  run float_repr str_repr stdin =
    ([json_dumps float_repr
        (VDict ["error" |-> VStr (exc_str e); "type" |-> VStr "ValueError"])],
     Exit 1).
Proof.
  intros Hraise Hj Hv.
  pose proof (main_try_raise _ _ _ _ _ Hraise) as ->.
  rewrite run_after_try, Hraise.
  unfold after_try, try_except, main_except; rewrite Hj, Hv; reflexivity.
Qed.


(** X5: "echo" returns a message of any type as it is: a message that is
    true in a test, string or not, is the message of the result. *)
Theorem echo_any_message d ui message :
  dict_get "input" d (VDict []) = VDict ui ->
  dict_get "operation" ui (VStr "echo") = VStr "echo" ->
  dict_lookup "message" ui = Some message ->
  truthy message = true ->
  run float_repr str_repr (Decoded (VDict d)) =
    ([json_dumps float_repr
        (VDict ["output" |->
                  VDict ["status" |-> VStr "success";
                         "operation" |-> VStr "echo";
                         "message" |-> message]])], Exit 0).
Proof.
  intros Hi Ho Hm Ht.
  rewrite (run_request d ui Hi), Ho, (dict_get_some _ _ _ _ Hm).
  unfold request; eval_literals; cbv iota.
  unfold eq_str; eval_literals; cbv iota.
  rewrite Ht; reflexivity.
Qed.

(** X6: "uppercase" and "lowercase" on a message that is true in a test but
    is not a string fail in the method call: the catch-all clause prints the
    type "AttributeError" and the missing attribute, exit status 1. *)
Theorem case_of_non_string d ui op attr message :
  dict_get "input" d (VDict []) = VDict ui ->
  dict_lookup "operation" ui = Some (VStr op) ->
  (op = "uppercase" /\ attr = "upper") \/ (op = "lowercase" /\ attr = "lower") ->
  dict_lookup "message" ui = Some message ->
  truthy message = true ->
  (forall s, message <> VStr s) ->
  run float_repr str_repr (Decoded (VDict d)) =
    ([json_dumps float_repr
        (VDict ["error" |->
                  VStr ("Unexpected error: '" +++ type_name message
                        +++ "' object has no attribute '" +++ attr +++ "'");
                "type" |-> VStr "AttributeError"])], Exit 1).
Proof.
  intros Hi Ho Hop Hm Ht Hs.
  rewrite (run_request d ui Hi), (dict_get_some _ _ _ _ Ho),
    (dict_get_some _ _ _ _ Hm).
  unfold request, eq_str.
  destruct Hop as [[-> ->]|[-> ->]]; eval_literals; cbv iota; rewrite Ht;
    destruct message as [| | | |s| |];
    try reflexivity; contradiction (Hs s); reflexivity.
Qed.

(** X7: an ["input"] field that is present and is not an object makes the
    [get] of the operation fail: the catch-all clause prints the type
    "AttributeError", exit status 1. Only an absent field stands for the empty
    object. *)
Theorem input_not_object d v :
  dict_lookup "input" d = Some v ->
  (forall ui, v <> VDict ui) ->
  run float_repr str_repr (Decoded (VDict d)) =
    ([json_dumps float_repr
        (VDict ["error" |->
                  VStr ("Unexpected error: '" +++ type_name v
                        +++ "' object has no attribute 'get'");
                "type" |-> VStr "AttributeError"])], Exit 1).
Proof.
  intros Hi Hv.
  unfold run, main, try_except, main_try; cbn [json_load get bind ret].
  rewrite (dict_get_some _ _ _ _ Hi).
  destruct v as [| | | | | |ui]; try reflexivity.
  contradiction (Hv ui); reflexivity.
Qed.

(** X8: an operation of any type that is none of the four names, with a
    message of any type that is true in a test, ends in "Unknown operation: "
    followed by the operation as an f-string formats it, type "ValueError",
    exit status 1. *)
Theorem unknown_operation_value d ui operation message :
  dict_get "input" d (VDict []) = VDict ui ->
  dict_lookup "operation" ui = Some operation ->
  (forall op, In op operation_names -> operation <> VStr op) ->
  dict_lookup "message" ui = Some message ->
  truthy message = true ->
  run float_repr str_repr (Decoded (VDict d)) =
    ([json_dumps float_repr
        (VDict ["error" |->
                  VStr ("Unknown operation: "
                        +++ format_value float_repr str_repr operation);
                "type" |-> VStr "ValueError"])], Exit 1).
Proof.
  intros Hi Ho Hop Hm Ht.
  rewrite (run_request d ui Hi), (dict_get_some _ _ _ _ Ho),
    (dict_get_some _ _ _ _ Hm).
  unfold request.
  rewrite !eq_str_false, Ht by (apply Hop, In_operation_names; auto).
  reflexivity.
Qed.

(** X9: the run depends on the operation and the message only: two requests
    that agree on both, each with its default, print the same and end the
    same, whatever the metadata and the other fields are. *)
Theorem run_depends_on_operation_and_message d d' ui ui' :
  dict_get "input" d (VDict []) = VDict ui ->
  dict_get "input" d' (VDict []) = VDict ui' ->
  dict_get "operation" ui (VStr "echo") = dict_get "operation" ui' (VStr "echo") ->
  dict_get "message" ui (VStr []) = dict_get "message" ui' (VStr []) ->
  run float_repr str_repr (Decoded (VDict d)) =
  run float_repr str_repr (Decoded (VDict d')).
Proof.
  intros Hi Hi' Ho Hm.
  rewrite (run_request d ui Hi), (run_request d' ui' Hi'), Ho, Hm.
  reflexivity.
Qed.

(** X13: the run ends with exit status 0 in three cases and no other: the
    operation is "describe"; the operation is "echo" and the message is true
    in a test; the operation is "uppercase" or "lowercase" and the message is
    a non-empty string. *)
Theorem success_iff d ui :
  dict_get "input" d (VDict []) = VDict ui ->
  let operation := dict_get "operation" ui (VStr "echo") in
  let message := dict_get "message" ui (VStr []) in
  snd (run float_repr str_repr (Decoded (VDict d))) = Exit 0 <->
  operation = VStr "describe" \/
  (operation = VStr "echo" /\ truthy message = true) \/
  ((operation = VStr "uppercase" \/ operation = VStr "lowercase") /\
   exists c s, message = VStr (c :: s)).
Proof.
  intros Hi operation message.
  rewrite (run_request d ui Hi); fold operation message.
  unfold request.
  destruct (eq_str operation "describe") eqn:Ed.
  { apply eq_str_true in Ed; split; [auto | reflexivity]. }
  destruct (truthy message) eqn:Ht; cbn [negb].
  2:{ split; [discriminate|].
      intros [H|[[_ H]|[_ (c & s & H)]]].
      - rewrite H, eq_str_refl in Ed; discriminate.
      - discriminate.
      - rewrite H in Ht; discriminate. }
  destruct (eq_str operation "echo") eqn:Ee.
  { apply eq_str_true in Ee; split; [auto | reflexivity]. }
  destruct (eq_str operation "uppercase") eqn:Eu.
  { apply eq_str_true in Eu.
    destruct message as [| | | |[|c s]| |] eqn:Em; try discriminate Ht;
      try (split; [discriminate|];
           intros [H|[[H _]|[_ (c' & s' & H)]]];
           [rewrite H, eq_str_refl in Ed | rewrite H, eq_str_refl in Ee | ];
           discriminate).
    split; [|reflexivity].
    intros _; right; right; split; [auto | exists c, s; reflexivity]. }
  destruct (eq_str operation "lowercase") eqn:El.
  { apply eq_str_true in El.
    destruct message as [| | | |[|c s]| |] eqn:Em; try discriminate Ht;
      try (split; [discriminate|];
           intros [H|[[H _]|[_ (c' & s' & H)]]];
           [rewrite H, eq_str_refl in Ed | rewrite H, eq_str_refl in Ee | ];
           discriminate).
    split; [|reflexivity].
    intros _; right; right; split; [auto | exists c, s; reflexivity]. }
  split; [discriminate|].
  intros [H|[[H _]|[[H|H] _]]].
  - rewrite H, eq_str_refl in Ed; discriminate.
  - rewrite H, eq_str_refl in Ee; discriminate.
  - rewrite H, eq_str_refl in Eu; discriminate.
  - rewrite H, eq_str_refl in El; discriminate.
Qed.

End RequestFacts.

(** ** The text of a line *)

(** Induction on a value, through its lists and its items. *)
Lemma value_induction (P : value -> Prop) :
  P VNone ->
  (forall b, P (VBool b)) ->
  (forall z, P (VInt z)) ->
  (forall f, P (VFloat f)) ->
  (forall s, P (VStr s)) ->
  (forall l, Forall P l -> P (VList l)) ->
  (forall d, Forall (fun kv => P (snd kv)) d -> P (VDict d)) ->
  forall v, P v.
Proof.
  intros HNone HBool HInt HFloat HStr HList HDict.
  fix IH 1.
  intros [|b|z|f|s|l|d];
    [exact HNone | apply HBool | apply HInt | apply HFloat | apply HStr | | ].
  - apply HList.
    induction l as [|v l IHl]; constructor; [apply IH | exact IHl].
  - apply HDict.
    induction d as [|kv d IHd]; constructor; [apply IH | exact IHd].
Qed.

Lemma printable_ascii_app a b :
  printable_ascii (a ++ b) = printable_ascii a && printable_ascii b.
Proof. apply forallb_app. Qed.

Lemma hex_digit_printable n :
  (n < 16)%N ->
  ((0x20 <=? hex_digit n) && (hex_digit n <=? 0x7E))%N = true.
Proof.
  intros Hn; unfold hex_digit.
  destruct (N.ltb_spec n 10); apply andb_true_iff; split; apply N.leb_le; lia.
Qed.

Lemma hex4_printable n : printable_ascii (hex4 n) = true.
Proof.
  unfold hex4, printable_ascii; cbn [forallb].
  rewrite !hex_digit_printable by (apply N.mod_lt; discriminate).
  reflexivity.
Qed.

(** [ensure_ascii]: whatever the code point, its replacement is printable
    ASCII. *)
Lemma escape_ascii_printable c : printable_ascii (escape_ascii c) = true.
Proof.
  unfold escape_ascii.
  repeat match goal with
         | |- context [N.eqb c ?k] => destruct (N.eqb c k); [reflexivity|]
         end.
  destruct ((0x20 <=? c) && (c <=? 0x7E))%N eqn:E.
  - unfold printable_ascii; cbn [forallb]; rewrite E; reflexivity.
  - destruct (c <? 0x10000)%N; unfold str_cat;
      rewrite ?printable_ascii_app, ?hex4_printable; reflexivity.
Qed.

Lemma encode_basestring_ascii_printable s :
  printable_ascii (encode_basestring_ascii s) = true.
Proof.
  unfold encode_basestring_ascii, str_cat.
  rewrite !printable_ascii_app.
  assert (H : printable_ascii (flat_map escape_ascii s) = true).
  { induction s as [|c s IH]; [reflexivity|].
    cbn [flat_map]; rewrite printable_ascii_app, escape_ascii_printable, IH.
    reflexivity. }
  rewrite H; reflexivity.
Qed.

Lemma string_of_uint_printable d :
  printable_ascii (NilEmpty.string_of_uint d) = true.
Proof. induction d; [reflexivity | exact IHd ..]. Qed.

Lemma int_repr_printable z : printable_ascii (int_repr z) = true.
Proof.
  unfold int_repr.
  destruct (Z.to_int z) as [d|d]; cbn [NilZero.string_of_int];
    unfold NilZero.string_of_uint; destruct d;
    try reflexivity; apply (string_of_uint_printable d).
Qed.

Lemma str_join_printable sep parts :
  printable_ascii sep = true ->
  Forall (fun p => printable_ascii p = true) parts ->
  printable_ascii (str_join sep parts) = true.
Proof.
  intros Hsep H; induction H as [|p parts Hp Hparts IH]; [reflexivity|].
  destruct parts as [|q parts]; [exact Hp|].
  change (str_join sep (p :: q :: parts))
    with (p ++ sep ++ str_join sep (q :: parts)).
  rewrite !printable_ascii_app, Hp, Hsep, IH; reflexivity.
Qed.

Section LineFacts.

Variable float_repr : spec_float -> str.
Variable str_repr : str -> str.
Hypothesis float_repr_printable :
  forall f, printable_ascii (float_repr f) = true.

Lemma json_dumps_printable v :
  printable_ascii (json_dumps float_repr v) = true.
Proof.
  induction v as [|b|z|f|s|l IH|d IH] using value_induction.
  - reflexivity.
  - destruct b; reflexivity.
  - apply int_repr_printable.
  - destruct f as [| [|] | |]; try reflexivity; apply float_repr_printable.
  - apply encode_basestring_ascii_printable.
  - cbn [json_dumps]; unfold str_cat.
    rewrite !printable_ascii_app, str_join_printable; try reflexivity.
    apply Forall_map; exact IH.
  - cbn [json_dumps]; unfold str_cat.
    rewrite !printable_ascii_app, str_join_printable; try reflexivity.
    apply Forall_map.
    apply (Forall_impl _ (P := fun kv => printable_ascii
                                         (json_dumps float_repr (snd kv)) = true));
      [|exact IH].
    intros kv Hkv.
    rewrite !printable_ascii_app, encode_basestring_ascii_printable, Hkv.
    reflexivity.
Qed.

(** X10: every line that a run prints is printable ASCII, from the space to
    the tilde, whatever the message holds: no line break and no code point
    above 127 reaches standard output, provided that the [repr] of a float
    is printable ASCII. *)
Theorem stdout_printable_ascii stdin :
  Forall (fun line => printable_ascii line = true)
         (fst (run float_repr str_repr stdin)).
Proof.
  rewrite run_after_try.
  destruct (main_try_cases float_repr str_repr stdin)
    as [(op & payload & _ & ->)|(e & ->)].
  - repeat constructor; apply json_dumps_printable.
  - unfold after_try, try_except, main_except.
    repeat match goal with
           | |- context [if ?b then _ else _] => destruct b
           end;
      repeat constructor; apply json_dumps_printable.
Qed.

End LineFacts.

(** ** ASCII messages *)

(** Below 128 the case tables change the letters and nothing else, and hold
    no capital sigma. *)
Lemma ascii_case_tables :
  forallb (fun c => str_eqb (Unicode.ToUpperFull c) [ascii_upper c]
                    && str_eqb (Unicode.ToLowerFull c) [ascii_lower c]
                    && negb (N.eqb c 0x3A3))
          (map N.of_nat (seq 0 128)) = true.
Proof. vm_compute; reflexivity. Qed.

Lemma ascii_case_of c :
  (c <? 0x80)%N = true ->
  Unicode.ToUpperFull c = [ascii_upper c] /\
  forall before after, Unicode.lower_ucs4 before c after = [ascii_lower c].
Proof.
  intros Hc; apply N.ltb_lt in Hc.
  pose proof ascii_case_tables as H.
  rewrite forallb_forall in H.
  assert (Hin : In c (map N.of_nat (seq 0 128))).
  { rewrite <- (N2Nat.id c); apply in_map, in_seq; lia. }
  specialize (H c Hin).
  apply andb_true_iff in H as [H H3].
  apply andb_true_iff in H as [H1 H2].
  split; [apply str_eqb_eq, H1|].
  intros before after; unfold Unicode.lower_ucs4.
  apply negb_true_iff in H3; rewrite H3.
  apply str_eqb_eq, H2.
Qed.

Lemma do_upper_ascii s :
  is_ascii s = true -> Unicode.do_upper s = map ascii_upper s.
Proof.
  induction s as [|c s IH]; [reflexivity|].
  cbn [is_ascii forallb Unicode.do_upper map].
  intros H; apply andb_true_iff in H as [Hc Hs].
  destruct (ascii_case_of c Hc) as [-> _].
  rewrite (IH Hs); reflexivity.
Qed.

Lemma do_lower_ascii before s :
  is_ascii s = true -> Unicode.do_lower before s = map ascii_lower s.
Proof.
  revert before; induction s as [|c s IH]; intros before; [reflexivity|].
  cbn [is_ascii forallb Unicode.do_lower map].
  intros H; apply andb_true_iff in H as [Hc Hs].
  destruct (ascii_case_of c Hc) as [_ ->].
  rewrite (IH _ Hs); reflexivity.
Qed.

(** X11: on a message of code points below 128, [process_uppercase] turns
    the letters a to z into A to Z and [process_lowercase] the letters A to Z
    into a to z, code point by code point; every other code point, and the
    length, stay. *)
Theorem ascii_case m :
  is_ascii m = true ->
  transformed process_uppercase m = Some (VStr (map ascii_upper m)) /\
  transformed process_lowercase m = Some (VStr (map ascii_lower m)).
Proof.
  intros Hm; unfold transformed.
  cbn [process_uppercase process_lowercase method_upper method_lower bind ret].
  unfold str_upper, str_lower.
  rewrite (do_upper_ascii m Hm), (do_lower_ascii [] m Hm).
  split; reflexivity.
Qed.

(** ** The message that is required *)

Section MessageFacts.

Variable float_repr : spec_float -> str.
Variable str_repr : str -> str.

(** The first twelve code points of the line and the exit status tell the
    "Message is required" run from the others. *)
Ltac other_line H :=
  apply (f_equal (fun r => (firstn 12 (hd [] (fst r)), snd r))) in H;
  vm_compute in H; discriminate H.

(** X12: when the operation is not "describe", the run ends in the line
    [{"error": "Message is required", "type": "ValueError"}] and exit
    status 1 exactly when the message, absent or present, is one of the eight
    values that are false in a test. *)
Theorem message_required_iff d ui :
  dict_get "input" d (VDict []) = VDict ui ->
  dict_get "operation" ui (VStr "echo") <> VStr "describe" ->
  run float_repr str_repr (Decoded (VDict d)) =
    ([json_dumps float_repr
        (VDict ["error" |-> VStr "Message is required";
                "type" |-> VStr "ValueError"])], Exit 1) <->
  In (dict_get "message" ui (VStr [])) falsy_values.
Proof.
  intros Hi Ho.
  rewrite <- truthy_false_iff, (run_request float_repr str_repr d ui Hi).
  unfold request; rewrite (eq_str_false _ _ Ho).
  destruct (truthy (dict_get "message" ui (VStr []))) eqn:Ht; cbn [negb].
  2:{ split; reflexivity. }
  split; [|discriminate].
  intros H; exfalso.
  destruct (eq_str _ "echo"); [other_line H|].
  destruct (eq_str _ "uppercase");
    [destruct (dict_get "message" ui (VStr [])); other_line H|].
  destruct (eq_str _ "lowercase");
    [destruct (dict_get "message" ui (VStr [])); other_line H|].
  other_line H.
Qed.

End MessageFacts.

(** ** More concrete runs *)

(** X2 on the exception of an empty standard input. *)
Lemma invalid_json_witness :
  let e := JSONDecodeError "Expecting value: line 1 column 1 (char 0)" in
  isinstance e "JSONDecodeError" = true /\
  run float_repr_unused str_repr_unused (LoadError e) =
    ([json_dumps float_repr_unused
        (VDict ["error" |->
                  VStr "Invalid JSON input: Expecting value: line 1 column 1 (char 0)";
                "type" |-> VStr "JSONDecodeError"])], Exit 1).
Proof.
  intros e.
  split; [reflexivity|].
  apply (invalid_json float_repr_unused str_repr_unused e); reflexivity.
Defined.

(** X3 on the [ValueError] that [json.load] raises on an integer of 5000
    digits. *)
Lemma value_error_reported_witness :
  let text : str :=
    "Exceeds the limit (4300 digits) for integer string conversion: value has 5000 digits; use sys.set_int_max_str_digits() to increase the limit" in
  let e := ValueError text in
  main_try float_repr_unused str_repr_unused (LoadError e) [] = (Raise e, []) /\
  isinstance e "JSONDecodeError" = false /\
  isinstance e "ValueError" = true /\
  run float_repr_unused str_repr_unused (LoadError e) =
    ([json_dumps float_repr_unused
        (VDict ["error" |-> VStr text; "type" |-> VStr "ValueError"])], Exit 1).
Proof.
  intros text e.
  split; [reflexivity|]. split; [reflexivity|]. split; [reflexivity|].
  apply (value_error_reported float_repr_unused str_repr_unused
           (LoadError e) e []); reflexivity.
Defined.


(** X5 on the request [{"input": {"message": [1, "a"]}}]. *)
Lemma echo_any_message_witness :
  let message := VList [VInt 1; VStr "a"] in
  let ui := ["message" |-> message] in
  let d := ["input" |-> VDict ui] in
  dict_get "input" d (VDict []) = VDict ui /\
  dict_get "operation" ui (VStr "echo") = VStr "echo" /\
  dict_lookup "message" ui = Some message /\
  truthy message = true /\
  run float_repr_unused str_repr_unused (Decoded (VDict d)) =
    ([json_dumps float_repr_unused
        (VDict ["output" |->
                  VDict ["status" |-> VStr "success";
                         "operation" |-> VStr "echo";
                         "message" |-> message]])], Exit 0).
Proof.
  intros message ui d.
  split; [reflexivity|]. split; [reflexivity|]. split; [reflexivity|].
  split; [reflexivity|].
  apply (echo_any_message float_repr_unused str_repr_unused d ui message);
    reflexivity.
Defined.

(** X6 on the request [{"input": {"operation": "uppercase", "message": 5}}]. *)
Lemma case_of_non_string_witness :
  let ui := ["operation" |-> VStr "uppercase"; "message" |-> VInt 5] in
  let d := ["input" |-> VDict ui] in
  dict_get "input" d (VDict []) = VDict ui /\
  dict_lookup "operation" ui = Some (VStr "uppercase") /\
  dict_lookup "message" ui = Some (VInt 5) /\
  truthy (VInt 5) = true /\
  (forall s, VInt 5 <> VStr s) /\
  run float_repr_unused str_repr_unused (Decoded (VDict d)) =
    ([json_dumps float_repr_unused
        (VDict ["error" |->
                  VStr "Unexpected error: 'int' object has no attribute 'upper'";
                "type" |-> VStr "AttributeError"])], Exit 1).
Proof.
  intros ui d.
  assert (Hs : forall s, VInt 5 <> VStr s) by discriminate.
  split; [reflexivity|]. split; [reflexivity|]. split; [reflexivity|].
  split; [reflexivity|]. split; [exact Hs|].
  apply (case_of_non_string float_repr_unused str_repr_unused d ui
           "uppercase" "upper" (VInt 5)); try reflexivity; try exact Hs.
  left; split; reflexivity.
Defined.

(** X7 on the request [{"input": null}]. *)
Lemma input_not_object_witness :
  let d := ["input" |-> VNone] in
  dict_lookup "input" d = Some VNone /\
  (forall ui, VNone <> VDict ui) /\
  run float_repr_unused str_repr_unused (Decoded (VDict d)) =
    ([json_dumps float_repr_unused
        (VDict ["error" |->
                  VStr "Unexpected error: 'NoneType' object has no attribute 'get'";
                "type" |-> VStr "AttributeError"])], Exit 1).
Proof.
  intros d.
  assert (Hv : forall ui, VNone <> VDict ui) by discriminate.
  split; [reflexivity|]. split; [exact Hv|].
  apply (input_not_object float_repr_unused str_repr_unused d VNone);
    [reflexivity | exact Hv].
Defined.

(** X8 on the request [{"input": {"operation": 5, "message": true}}]. *)
Lemma unknown_operation_value_witness :
  let ui := ["operation" |-> VInt 5; "message" |-> VBool true] in
  let d := ["input" |-> VDict ui] in
  dict_get "input" d (VDict []) = VDict ui /\
  dict_lookup "operation" ui = Some (VInt 5) /\
  (forall op, In op operation_names -> VInt 5 <> VStr op) /\
  dict_lookup "message" ui = Some (VBool true) /\
  run float_repr_unused str_repr_unused (Decoded (VDict d)) =
    ([json_dumps float_repr_unused
        (VDict ["error" |-> VStr "Unknown operation: 5";
                "type" |-> VStr "ValueError"])], Exit 1).
Proof.
  intros ui d.
  assert (Hop : forall op, In op operation_names -> VInt 5 <> VStr op)
    by discriminate.
  split; [reflexivity|]. split; [reflexivity|]. split; [exact Hop|].
  split; [reflexivity|].
  apply (unknown_operation_value float_repr_unused str_repr_unused d ui
           (VInt 5) (VBool true)); try reflexivity; exact Hop.
Defined.

(** X9 on a request with metadata, another field and the items the other
    way round, against the bare request. *)
Lemma run_depends_on_operation_and_message_witness :
  let ui := ["extra" |-> VInt 1; "message" |-> VStr "hi";
             "operation" |-> VStr "uppercase"] in
  let d := ["workspace_id" |-> VStr "w"; "caller" |-> VNone;
            "input" |-> VDict ui] in
  let ui' := ["operation" |-> VStr "uppercase"; "message" |-> VStr "hi"] in
  let d' := ["input" |-> VDict ui'] in
  dict_get "input" d (VDict []) = VDict ui /\
  dict_get "input" d' (VDict []) = VDict ui' /\
  dict_get "operation" ui (VStr "echo") = dict_get "operation" ui' (VStr "echo") /\
  dict_get "message" ui (VStr []) = dict_get "message" ui' (VStr []) /\
  run float_repr_unused str_repr_unused (Decoded (VDict d)) =
  run float_repr_unused str_repr_unused (Decoded (VDict d')).
Proof.
  intros ui d ui' d'.
  split; [reflexivity|]. split; [reflexivity|]. split; [reflexivity|].
  split; [reflexivity|].
  apply (run_depends_on_operation_and_message float_repr_unused
           str_repr_unused d d' ui ui'); reflexivity.
Defined.

(** X10 on the echo of a message with an accented letter, a line feed and a
    code point above U+FFFF. *)
Lemma stdout_printable_ascii_witness :
  let d := ["input" |-> VDict ["message" |-> VStr [0xE9; 0x0A; 0x1F600]%N]] in
  (forall f, printable_ascii (float_repr_unused f) = true) /\
  Forall (fun line => printable_ascii line = true)
         (fst (run float_repr_unused str_repr_unused (Decoded (VDict d)))).
Proof.
  intros d.
  assert (H : forall f, printable_ascii (float_repr_unused f) = true)
    by reflexivity.
  split; [exact H|].
  exact (stdout_printable_ascii float_repr_unused str_repr_unused H
           (Decoded (VDict d))).
Defined.

(** X11 on the message "Hello, World 42". *)
Lemma ascii_case_witness :
  is_ascii "Hello, World 42" = true /\
  transformed process_uppercase "Hello, World 42"
    = Some (VStr "HELLO, WORLD 42") /\
  transformed process_lowercase "Hello, World 42"
    = Some (VStr "hello, world 42").
Proof.
  split; [reflexivity|].
  exact (ascii_case "Hello, World 42" eq_refl).
Defined.

(** X12 on the request [{"input": {"operation": "uppercase", "message":
    []}}]. *)
Lemma message_required_iff_witness :
  let ui := ["operation" |-> VStr "uppercase"; "message" |-> VList []] in
  let d := ["input" |-> VDict ui] in
  dict_get "input" d (VDict []) = VDict ui /\
  dict_get "operation" ui (VStr "echo") <> VStr "describe" /\
  (run float_repr_unused str_repr_unused (Decoded (VDict d)) =
     ([json_dumps float_repr_unused
         (VDict ["error" |-> VStr "Message is required";
                 "type" |-> VStr "ValueError"])], Exit 1) <->
   In (dict_get "message" ui (VStr [])) falsy_values).
Proof.
  intros ui d.
  assert (Ho : dict_get "operation" ui (VStr "echo") <> VStr "describe")
    by (vm_compute; discriminate).
  split; [reflexivity|]. split; [exact Ho|].
  exact (message_required_iff float_repr_unused str_repr_unused d ui
           eq_refl Ho).
Defined.

(** X13 on the request [{"input": {"operation": "describe"}}]. *)
Lemma success_iff_witness :
  let ui := ["operation" |-> VStr "describe"] in
  let d := ["input" |-> VDict ui] in
  let operation := dict_get "operation" ui (VStr "echo") in
  let message := dict_get "message" ui (VStr []) in
  dict_get "input" d (VDict []) = VDict ui /\
  (snd (run float_repr_unused str_repr_unused (Decoded (VDict d))) = Exit 0 <->
   operation = VStr "describe" \/
   (operation = VStr "echo" /\ truthy message = true) \/
   ((operation = VStr "uppercase" \/ operation = VStr "lowercase") /\
    exists c s, message = VStr (c :: s))).
Proof.
  intros ui d operation message.
  split; [reflexivity|].
  exact (success_iff float_repr_unused str_repr_unused d ui eq_refl).
Defined.
